(** * Task orchestration scripts: shallow embedding and checked properties

    The repository ships two orchestrators that drive a list of tasks
    through external code-generation command line tools:

    - [scripts/agentflow.py]        (module [Agentflow] below), and
    - [scripts/agent_csv_runner.py] (module [CsvRunner] below).

    Both are embedded as state-passing functions over an explicit world
    (a clock, the pause / stop marker files, and a trace of the external
    effects performed).  Everything the scripts cannot decide themselves
    (what a spawned tool prints and returns, what the user does to the
    marker files, what [json.loads] makes of a text) is read from an
    environment record, so every statement below holds for all
    behaviours of the outside world. *)

From Stdlib Require Import ZArith String List Ascii Bool Lia DecimalString.
From Stdlib Require DecimalFacts DecimalNat.
From stdpp Require Import base option list strings gmap.
Import ListNotations.
#[local] Set Warnings "-register-all".

(* ===================================================================== *)
(** ** Python runtime pieces used by both scripts *)
(* ===================================================================== *)

Module Py.

(** Strings are sequences of code points below 256. *)

(** [str.isspace] on one code point. *)
Definition is_space (c : ascii) : bool :=
  let n := nat_of_ascii c in
  ((9 <=? n) && (n <=? 13)) || ((28 <=? n) && (n <=? 32))
  || (n =? 133) || (n =? 160).

Fixpoint lstrip (s : string) : string :=
  match s with
  | EmptyString => EmptyString
  | String c r => if is_space c then lstrip r else s
  end.

Definition rstrip (s : string) : string := String.rev (lstrip (String.rev s)).

(** [s.strip()] *)
Definition strip (s : string) : string := rstrip (lstrip s).

(** [s.strip(ch)] for a single character [ch]. *)
Fixpoint lstrip_char (ch : ascii) (s : string) : string :=
  match s with
  | EmptyString => EmptyString
  | String c r => if Ascii.eqb c ch then lstrip_char ch r else s
  end.

Definition strip_char (ch : ascii) (s : string) : string :=
  String.rev (lstrip_char ch (String.rev (lstrip_char ch s))).

Definition lower_char (c : ascii) : ascii :=
  let n := nat_of_ascii c in
  if ((65 <=? n) && (n <=? 90))
     || ((192 <=? n) && (n <=? 222) && negb (n =? 215))
  then ascii_of_nat (n + 32) else c.

(** [s.lower()] *)
Fixpoint lower (s : string) : string :=
  match s with
  | EmptyString => EmptyString
  | String c r => String (lower_char c) (lower r)
  end.

(** [s.startswith(p)] *)
Definition startswith (p s : string) : bool := String.prefix p s.

(** [needle in hay] on strings. *)
Fixpoint contains (needle hay : string) : bool :=
  String.prefix needle hay ||
  match hay with
  | EmptyString => false
  | String _ r => contains needle r
  end.

(** Truthiness of a string: [bool(s)]. *)
Definition nonempty (s : string) : bool := negb (String.eqb s "").

(** Decimal rendering of integers, as [str(n)] does it. *)
Definition str_of_Z (n : Z) : string := NilZero.string_of_int (Z.to_int n).
Definition str_of_nat (n : nat) : string := NilZero.string_of_uint (Nat.to_uint n).

(** Values produced by [json.loads] (numbers are the integers). *)
Inductive json :=
| JNull
| JBool (b : bool)
| JNum (n : Z)
| JStr (s : string)
| JArr (xs : list json)
| JObj (kv : list (string * json)).

(** [bool(v)] *)
Definition truthy (v : json) : bool :=
  match v with
  | JNull => false
  | JBool b => b
  | JNum n => negb (n =? 0)%Z
  | JStr s => nonempty s
  | JArr xs => match xs with [] => false | _ => true end
  | JObj kv => match kv with [] => false | _ => true end
  end.

(** [a or b] *)
Definition py_or (a b : json) : json := if truthy a then a else b.

(** [d.get(k)] on the items of a dict; a missing key reads as [None]. *)
Definition dict_get (kv : list (string * json)) (k : string) : json :=
  match find (fun p => String.eqb (fst p) k) kv with
  | Some p => snd p
  | None => JNull
  end.

(** [d.get(k, default)] *)
Definition dict_get_default (kv : list (string * json)) (k : string) (d : json) : json :=
  match find (fun p => String.eqb (fst p) k) kv with
  | Some p => snd p
  | None => d
  end.

Definition is_dict (v : json) : bool :=
  match v with JObj _ => true | _ => false end.

Definition type_name (v : json) : string :=
  match v with
  | JNull => "NoneType"
  | JBool _ => "bool"
  | JNum _ => "int"
  | JStr _ => "str"
  | JArr _ => "list"
  | JObj _ => "dict"
  end.

Inductive exn :=
| ValueError (msg : string)
| AttributeError (msg : string)
| RuntimeError (msg : string)
| SystemExit (msg : string).

Definition exn_text (e : exn) : string :=
  match e with
  | ValueError m | AttributeError m | RuntimeError m | SystemExit m => m
  end.

Inductive result (A : Type) :=
| Ok (a : A)
| Raise (e : exn).
Arguments Ok {A} a.
Arguments Raise {A} e.

(** How a run of one of the scripts' functions ends. *)
Inductive outcome (A : Type) :=
| Returned (a : A)
| Raised (e : exn)
| Stalled.                 (* still polling the pause marker when the fuel ran out *)
Arguments Returned {A} a.
Arguments Raised {A} e.
Arguments Stalled {A}.

Definition no_attribute (v : json) (attr : string) : exn :=
  AttributeError ("'" +:+ type_name v +:+ "' object has no attribute '" +:+ attr +:+ "'").

(** [v.get(k)] on an arbitrary value: only dicts have [get]. *)
Definition py_get (v : json) (k : string) : result json :=
  match v with
  | JObj kv => Ok (dict_get kv k)
  | _ => Raise (no_attribute v "get")
  end.

Definition py_get_default (v : json) (k : string) (d : json) : result json :=
  match v with
  | JObj kv => Ok (dict_get_default kv k d)
  | _ => Raise (no_attribute v "get")
  end.

(** [v.strip()] on an arbitrary value: only strings have [strip]. *)
Definition py_strip (v : json) : result string :=
  match v with
  | JStr s => Ok (strip s)
  | _ => Raise (no_attribute v "strip")
  end.

(** The library routines the scripts call and do not define: the JSON
    parser, and the rendering of lists and dicts by [str]. *)
Record Runtime := {
  json_loads : string -> result json;
  repr_container : json -> string;
}.

(** [str(v)] *)
Definition py_str (rt : Runtime) (v : json) : string :=
  match v with
  | JNull => "None"
  | JBool true => "True"
  | JBool false => "False"
  | JNum n => str_of_Z n
  | JStr s => s
  | JArr _ | JObj _ => repr_container rt v
  end.

End Py.

(* ===================================================================== *)
(** ** Pause / stop marker files and the user acting on them *)
(* ===================================================================== *)

Module Ctl.

(** Which of the two sentinel files currently exist. *)
Record Markers := { pause_present : bool; stop_present : bool }.

Definition no_markers : Markers := {| pause_present := false; stop_present := false |}.

(** What the user does to the markers before the observation made at a
    given clock value. *)
Definition User := nat -> Markers -> Markers.

End Ctl.

(* ===================================================================== *)
(** ** Files *)
(* ===================================================================== *)

Module Fs.

(** A [pathlib.Path]: the directory part and the final component. *)
Record Path := { parent : string; name : string }.

Definition path_str (p : Path) : string := parent p +:+ "/" +:+ name p.

(** Splits a name at its last dot: [(before, from the dot on)]. *)
Fixpoint split_last_dot (s : string) : option (string * string) :=
  match s with
  | EmptyString => None
  | String c r =>
      match split_last_dot r with
      | Some (a, b) => Some (String c a, b)
      | None => if Ascii.eqb c "."%char then Some (EmptyString, s) else None
      end
  end.

(** [Path.suffix]: from the last dot on, unless the dot leads or ends
    the name. *)
Definition suffix (p : Path) : string :=
  match split_last_dot (name p) with
  | Some (a, b) => if Py.nonempty a && (1 <? String.length b) then b else ""
  | None => ""
  end.

(** [Path.with_suffix] (for a well-formed new suffix). *)
Definition with_suffix (p : Path) (suf : string) : Path :=
  let old := suffix p in
  let stem := if Py.nonempty old
              then match split_last_dot (name p) with
                   | Some (a, _) => a
                   | None => name p
                   end
              else name p in
  {| parent := parent p; name := stem +:+ suf |}.

(** Primitive file operations, each of which takes effect at once. *)
Inductive op :=
| Mkdir (dir : string)
| Truncate (file : string)            (* open for writing: empty file *)
| Append (file : string) (data : string)
| Replace (src dst : string)          (* rename over the destination *)
| Copy (src dst : string).

Definition apply_op (o : op) (files : gmap string string) : gmap string string :=
  match o with
  | Mkdir _ => files
  | Truncate f => <[f := ""]> files
  | Append f d => <[f := default "" (files !! f) +:+ d]> files
  | Replace a b =>
      match files !! a with
      | Some c => <[b := c]> (delete a files)
      | None => files
      end
  | Copy a b =>
      match files !! a with
      | Some c => <[b := c]> files
      | None => files
      end
  end.

Definition run_ops (ops : list op) (files : gmap string string) : gmap string string :=
  fold_left (fun f o => apply_op o f) ops files.

(** [Path.write_text(data)]: the file is opened for writing, which
    empties it, and then the text goes out. *)
Definition write_text (p : Path) (data : string) : list op :=
  [Truncate (path_str p); Append (path_str p) data].

(** What can be on disk if the process is killed while it performs
    [ops]: some operations done, and the appended text of the one in
    flight possibly written only in part. *)
Inductive crash_point : list op -> gmap string string -> gmap string string -> Prop :=
| crash_here ops files :
    crash_point ops files files
| crash_later o ops files files' :
    crash_point ops (apply_op o files) files' ->
    crash_point (o :: ops) files files'
| crash_within f d1 d2 ops files :
    crash_point (Append f (d1 +:+ d2) :: ops) files (apply_op (Append f d1) files).

End Fs.

(* ===================================================================== *)
(** ** scripts/agentflow.py *)
(* ===================================================================== *)

Module Agentflow.
Import Py Ctl.

Definition DEFAULT_STATE_FILE : string := "state.json".

(** *** Models / task structures *)

(** The normalised engine names: the values [normalize_engine] returns. *)
Inductive engine_name := codex | claude | gemini.

Definition engine_eqb (a b : engine_name) : bool :=
  match a, b with
  | codex, codex | claude, claude | gemini, gemini => true
  | _, _ => false
  end.

Definition engine_in (e : engine_name) (l : list engine_name) : bool :=
  existsb (engine_eqb e) l.

Record Task := {
  task_id : string;
  spec : string;
  title : string;
  engine : option string;   (* optional per-row override, as read *)
}.

(** [assistant_text], [log_path], [last_message_path] and
    [error_summary] only feed the handoff text and are left out. *)
Record RunResult := {
  rr_engine : engine_name;
  ok : bool;
  exit_code : Z;
  stdout : string;
  session_id : json;        (* [JNull] is Python's [None] *)
}.

Record Cursor := {
  task_index : nat;
  phase : string;           (* "main" or "after" *)
  after_index : nat;
}.

Definition Cursor_default : Cursor :=
  {| task_index := 0; phase := "main"; after_index := 0 |}.

(** One entry of a task's [history] list (the log path is left out). *)
Record StepRecord := {
  sr_ts : nat;
  sr_phase : string;
  sr_after_index : option nat;
  sr_engine : engine_name;
  sr_ok : bool;
  sr_exit_code : Z;
}.

(** The per-task dict kept under [state["tasks"][task_id]], viewed through
    the keys the script reads and writes. *)
Record TaskState := {
  history : list StepRecord;
  claude_session_id : json;
  codex_can_resume : bool;
  gemini_resume : option string;
  last_ok_engine : option engine_name;
  status : option string;
}.

Definition TaskState_empty : TaskState :=
  {| history := []; claude_session_id := JNull; codex_can_resume := false;
     gemini_resume := None; last_ok_engine := None; status := None |}.

Record State := {
  cursor : Cursor;
  tasks : gmap string TaskState;
}.

Definition State_default : State := {| cursor := Cursor_default; tasks := ∅ |}.

(** *** Utility helpers *)

Definition normalize_engine (name : string) : result engine_name :=
  let name := lower (strip name) in
  if existsb (String.eqb name) ["codex"; "openai"; "oai"] then Ok codex
  else if existsb (String.eqb name) ["claude"; "claude-code"; "anthropic"] then Ok claude
  else if existsb (String.eqb name) ["gemini"; "google"] then Ok gemini
  else Raise (ValueError ("Unknown engine '" +:+ name +:+ "' (expected: codex|claude|gemini)")).

(** *** The world the script runs in *)

(** How a backend call resumes an earlier conversation. *)
Inductive Resume :=
| ResumeLast (b : bool)               (* codex: [resume --last] *)
| ResumeSession (sid : json)          (* claude: [--resume sid] when truthy *)
| ResumeToken (tok : option string).  (* gemini: [--resume tok] when truthy *)

(** One call of [run_with_engine]. *)
Record Invocation := {
  inv_task : string;
  inv_engine : engine_name;
  inv_phase : string;
  inv_step : string;
  inv_resume : Resume;
}.

Inductive Effect :=
| EAttempt (inv : Invocation)         (* [run_with_engine] entered *)
| ESpawn (inv : Invocation)           (* [run_process]: the tool was started *)
| EHandoff (tid phase : string) (e : engine_name) (ok : bool) (exit_code : Z)
| ESleep.                             (* [time.sleep(2.0)] *)

Record World := {
  now : nat;
  markers : Markers;
  files : gmap string string;
  trace : list Effect;
}.

(** What [json.loads] makes of the text of a state file. *)
Inductive ParsedState :=
| StateDoc (st : State)               (* a dict, read through [State] *)
| OtherDoc                            (* valid JSON, but not a dict *)
| Malformed.                          (* [json.loads] raises *)

(** A CSV row after the header aliases are resolved: the cell under
    each detected column ([None] when the column or the cell is absent). *)
Record Row := {
  col_id : option string;
  col_title : option string;
  col_spec : option string;
  col_engine : option string;
}.

Record Env := {
  rt : Runtime;
  user : User;
  which : nat -> engine_name -> bool;                (* binary on PATH? *)
  process : nat -> Invocation -> Z * string;         (* exit code, output *)
  dumps_state : State -> string;                     (* [json.dumps(state)] *)
  loads_state : string -> ParsedState;
  dumps_row : Row -> string;                         (* [json.dumps(row)] *)
  now_stamp : nat -> string;                         (* clock as text *)
}.

(** The fixed settings of an [Engine] object that matter here. *)
Record Engine := {
  app_dir : string;
  cli_gemini_resume : option string;
}.

Definition state_path (cfg : Engine) : Fs.Path :=
  {| Fs.parent := app_dir cfg; Fs.name := DEFAULT_STATE_FILE |}.

Definition emit (e : Effect) (w : World) : World :=
  {| now := now w; markers := markers w; files := files w; trace := trace w ++ [e] |}.

Definition tick (w : World) : World :=
  {| now := S (now w); markers := markers w; files := files w; trace := trace w |}.

Definition do_ops (ops : list Fs.op) (w : World) : World :=
  {| now := now w; markers := markers w; files := Fs.run_ops ops (files w);
     trace := trace w |}.

(** Looking at the marker files: the user may have acted in between. *)
Definition observe (env : Env) (w : World) : Markers * World :=
  let m := user env (now w) (markers w) in
  (m, {| now := S (now w); markers := m; files := files w; trace := trace w |}).

(** *** Pause / stop controls ([ControlFiles]) *)

Definition should_pause (env : Env) (w : World) : bool * World :=
  let '(m, w1) := observe env w in (pause_present m, w1).

Definition should_stop (env : Env) (w : World) : bool * World :=
  let '(m, w1) := observe env w in (stop_present m, w1).

(** [wait_if_paused]: [fuel] bounds the number of polls; [None] means
    the loop is still running after [fuel] polls. *)
Fixpoint wait_if_paused (env : Env) (fuel : nat) (w : World) : option World :=
  match fuel with
  | O => None
  | S fuel' =>
      let '(p, w1) := should_pause env w in
      if p then wait_if_paused env fuel' (tick (emit ESleep w1))
      else Some w1
  end.

(** *** CSV parsing *)

Definition cell (c : option string) : string := default "" c.

(** [load_tasks_from_csv]; [None] is a file without a header row.
    [i] is the index of the first row of [rows]. *)
Fixpoint tasks_of_rows (env : Env) (i : nat) (rows : list Row) : list Task :=
  match rows with
  | [] => []
  | row :: rest =>
      let raw_id := cell (col_id row) in
      let tid := if nonempty (strip raw_id) then strip raw_id
                 else "row" +:+ str_of_nat (i + 1) in
      let ttl := strip (cell (col_title row)) in
      let sp0 := strip (cell (col_spec row)) in
      let sp := if nonempty sp0 then sp0 else dumps_row env row in
      let eng0 := strip (cell (col_engine row)) in
      let eng := if nonempty eng0 then Some eng0 else None in
      {| task_id := tid; spec := sp; title := ttl; engine := eng |}
      :: tasks_of_rows env (S i) rest
  end.

Definition load_tasks_from_csv (env : Env) (csv : option (list Row)) : result (list Task) :=
  match csv with
  | None => Raise (ValueError "CSV has no header row.")
  | Some rows => Ok (tasks_of_rows env 0 rows)
  end.

(** *** State handling *)

(** [load_state]: a missing file gives the default state; a file that
    does not parse is copied to a time-stamped backup first. *)
Definition load_state (env : Env) (path : Fs.Path) (w : World) : ParsedState * World :=
  match files w !! Fs.path_str path with
  | None => (StateDoc State_default, w)
  | Some text =>
      match loads_state env text with
      | Malformed =>
          let backup := Fs.with_suffix path (".corrupt." +:+ now_stamp env (now w) +:+ ".json") in
          (StateDoc State_default,
           do_ops [Fs.Copy (Fs.path_str path) (Fs.path_str backup)] w)
      | parsed => (parsed, w)
      end
  end.

(** The file operations of [save_state], in order. *)
Definition save_state_ops (path : Fs.Path) (text : string) : list Fs.op :=
  let tmp := Fs.with_suffix path ".tmp" in
  [Fs.Mkdir (Fs.parent path)]
  ++ Fs.write_text tmp text
  ++ [Fs.Replace (Fs.path_str tmp) (Fs.path_str path)].

Definition save_state (env : Env) (path : Fs.Path) (st : State) (w : World) : World :=
  do_ops (save_state_ops path (dumps_state env st)) w.

Definition get_cursor (st : State) : Cursor := cursor st.

Definition set_cursor (st : State) (c : Cursor) : State :=
  {| cursor := c; tasks := tasks st |}.

(** [ensure_task_state]: the task's entry, created empty when missing. *)
Definition ensure_task_state (st : State) (tid : string) : State * TaskState :=
  match tasks st !! tid with
  | Some ts => (st, ts)
  | None => ({| cursor := cursor st; tasks := <[tid := TaskState_empty]> (tasks st) |},
             TaskState_empty)
  end.

(** [tstate] aliases the entry inside [state]: every write to it shows
    in the state. *)
Definition with_tstate (st : State) (tid : string) (ts : TaskState) : State :=
  {| cursor := cursor st; tasks := <[tid := ts]> (tasks st) |}.

(** *** Process runner *)

Definition run_process (env : Env) (inv : Invocation) (w : World) : (Z * string) * World :=
  (process env (now w) inv, tick (emit (ESpawn inv) w)).

Fixpoint tails (s : string) : list string :=
  match s with
  | EmptyString => []
  | String _ r => s :: tails r
  end.

Definition loads_opt (rt : Runtime) (text : string) : option json :=
  match json_loads rt text with
  | Ok v => Some v
  | Raise _ => None
  end.

(** [try_parse_json_object]: the shortest suffix starting with a brace
    that parses, else the whole text. *)
Definition try_parse_json_object (rt : Runtime) (text : string) : option json :=
  let text := strip text in
  if negb (nonempty text) then None
  else
    let candidates := List.filter (fun c => startswith "{" c) (rev (tails text)) in
    match omap (loads_opt rt) candidates with
    | v :: _ => Some v
    | [] => loads_opt rt text
    end.

(** *** Engines *)

Definition binary_missing (e : engine_name) : RunResult :=
  {| rr_engine := e; ok := false; exit_code := 127; stdout := ""; session_id := JNull |}.

Definition run_codex (env : Env) (inv : Invocation) (w : World) : RunResult * World :=
  if negb (which env (now w) codex) then (binary_missing codex, w)
  else
    let '((rc, out), w1) := run_process env inv w in
    ({| rr_engine := codex; ok := (rc =? 0)%Z; exit_code := rc; stdout := out;
        session_id := JNull |}, w1).

(** [is_error is True or subtype == "error"] *)
Definition claude_reports_error (kv : list (string * json)) : bool :=
  match dict_get kv "is_error", dict_get kv "subtype" with
  | JBool true, _ => true
  | _, JStr s => String.eqb s "error"
  | _, _ => false
  end.

Definition run_claude (env : Env) (inv : Invocation) (w : World) : RunResult * World :=
  if negb (which env (now w) claude) then (binary_missing claude, w)
  else
    let '((rc, out), w1) := run_process env inv w in
    let obj := try_parse_json_object (rt env) out in
    let ok0 := (rc =? 0)%Z in
    match obj with
    | Some (JObj kv) =>
        ({| rr_engine := claude;
            ok := if claude_reports_error kv then false else ok0;
            exit_code := rc; stdout := out; session_id := dict_get kv "session_id" |}, w1)
    | _ =>
        ({| rr_engine := claude; ok := ok0; exit_code := rc; stdout := out;
            session_id := JNull |}, w1)
    end.

Definition run_gemini (env : Env) (inv : Invocation) (w : World) : RunResult * World :=
  if negb (which env (now w) gemini) then (binary_missing gemini, w)
  else
    let '((rc, out), w1) := run_process env inv w in
    let obj := try_parse_json_object (rt env) out in
    let ok0 := (rc =? 0)%Z in
    match obj with
    | Some (JObj kv) =>
        ({| rr_engine := gemini;
            ok := if truthy (dict_get kv "error") then false else ok0;
            exit_code := rc; stdout := out; session_id := JNull |}, w1)
    | _ =>
        ({| rr_engine := gemini; ok := ok0; exit_code := rc; stdout := out;
            session_id := JNull |}, w1)
    end.

(** *** Orchestration ([run_task]) *)

(** The local variables of [run_task] that [run_with_engine] closes over. *)
Record Locals := {
  l_claude_session : json;
  l_codex_can_resume : bool;
  l_gemini_resume : option string;
}.

Definition opt_truthy (o : option string) : bool :=
  match o with Some s => nonempty s | None => false end.

(** The call [run_with_engine] makes, with the resume argument each
    engine is given. *)
Definition invocation_of (cfg : Engine) (task : Task) (L : Locals)
    (eng : engine_name) (ph step : string) : Invocation :=
  let resume :=
    match eng with
    | codex => ResumeLast (String.eqb ph "after" && l_codex_can_resume L)
    | claude => ResumeSession (if String.eqb ph "after" then l_claude_session L else JNull)
    | gemini => ResumeToken (if opt_truthy (l_gemini_resume L) then l_gemini_resume L
                             else cli_gemini_resume cfg)
    end in
  {| inv_task := task_id task; inv_engine := eng; inv_phase := ph;
     inv_step := step; inv_resume := resume |}.

Definition run_with_engine (env : Env) (cfg : Engine) (task : Task) (L : Locals)
    (eng : engine_name) (ph step : string) (w : World) : RunResult * World :=
  let inv := invocation_of cfg task L eng ph step in
  let w0 := emit (EAttempt inv) w in
  match eng with
  | codex => run_codex env inv w0
  | claude => run_claude env inv w0
  | gemini => run_gemini env inv w0
  end.

Definition add_history (ts : TaskState) (r : StepRecord) : TaskState :=
  {| history := history ts ++ [r]; claude_session_id := claude_session_id ts;
     codex_can_resume := codex_can_resume ts; gemini_resume := gemini_resume ts;
     last_ok_engine := last_ok_engine ts; status := status ts |}.

Definition set_claude_session (ts : TaskState) (sid : json) : TaskState :=
  {| history := history ts; claude_session_id := sid;
     codex_can_resume := codex_can_resume ts; gemini_resume := gemini_resume ts;
     last_ok_engine := last_ok_engine ts; status := status ts |}.

Definition set_codex_can_resume (ts : TaskState) : TaskState :=
  {| history := history ts; claude_session_id := claude_session_id ts;
     codex_can_resume := true; gemini_resume := gemini_resume ts;
     last_ok_engine := last_ok_engine ts; status := status ts |}.

Definition clear_gemini_resume (ts : TaskState) : TaskState :=
  {| history := history ts; claude_session_id := claude_session_id ts;
     codex_can_resume := codex_can_resume ts; gemini_resume := None;
     last_ok_engine := last_ok_engine ts; status := status ts |}.

Definition set_last_ok (ts : TaskState) (e : engine_name) : TaskState :=
  {| history := history ts; claude_session_id := claude_session_id ts;
     codex_can_resume := codex_can_resume ts; gemini_resume := gemini_resume ts;
     last_ok_engine := Some e; status := status ts |}.

Definition set_status (ts : TaskState) (s : string) : TaskState :=
  {| history := history ts; claude_session_id := claude_session_id ts;
     codex_can_resume := codex_can_resume ts; gemini_resume := gemini_resume ts;
     last_ok_engine := last_ok_engine ts; status := Some s |}.

(** What one round of the engine loop does with the result [r] of [eng],
    before the [if result.ok: ... break] test: handoff, history entry,
    session bookkeeping.  [hphase] is the phase text of the handoff,
    [aidx] the [after_index] key of the history entry (absent in MAIN). *)
Definition record_attempt (task : Task) (ph hphase : string) (aidx : option nat)
    (eng : engine_name) (r : RunResult) (L : Locals) (ts : TaskState) (w : World)
    : Locals * TaskState * World :=
  let w1 := emit (EHandoff (task_id task) hphase eng (ok r) (exit_code r)) w in
  let ts1 := add_history ts
               {| sr_ts := now w1; sr_phase := ph; sr_after_index := aidx;
                  sr_engine := eng; sr_ok := ok r; sr_exit_code := exit_code r |} in
  let '(L2, ts2) :=
    if engine_eqb eng claude && truthy (session_id r)
    then ({| l_claude_session := session_id r;
             l_codex_can_resume := l_codex_can_resume L;
             l_gemini_resume := l_gemini_resume L |},
          set_claude_session ts1 (session_id r))
    else (L, ts1) in
  let '(L3, ts3) :=
    if engine_eqb eng codex
    then ({| l_claude_session := l_claude_session L2;
             l_codex_can_resume := true;
             l_gemini_resume := l_gemini_resume L2 |},
          set_codex_can_resume ts2)
    else (L2, ts2) in
  let ts4 :=
    if engine_eqb eng gemini && negb (ok r) && contains "INVALID_ARGUMENT" (stdout r)
    then clear_gemini_resume ts3 else ts3 in
  (L3, ts4, w1).

(** The loop [for eng in order: ...; if result.ok: break], used with the
    same body by the MAIN step and by every follow-up prompt.  [last] is
    the variable [result] on entry. *)
Fixpoint attempts (env : Env) (cfg : Engine) (task : Task)
    (ph step hphase : string) (aidx : option nat)
    (order : list engine_name) (last : option RunResult)
    (L : Locals) (ts : TaskState) (w : World)
    : option RunResult * Locals * TaskState * World :=
  match order with
  | [] => (last, L, ts, w)
  | eng :: rest =>
      let '(r, w1) := run_with_engine env cfg task L eng ph step w in
      let '(L2, ts2, w2) := record_attempt task ph hphase aidx eng r L ts w1 in
      if ok r then (Some r, L2, set_last_ok ts2 eng, w2)
      else attempts env cfg task ph step hphase aidx rest (Some r) L2 ts2 w2
  end.

(** [engine_order] of the MAIN step. *)
Definition engine_order (row_engine : option engine_name) (primary_engine : engine_name)
    (fallback_engines : list engine_name) : list engine_name :=
  let first := match row_engine with Some e => e | None => primary_engine end in
  [first] ++ List.filter (fun e => negb (engine_in e [first])) fallback_engines.

(** [after_engine_order] of a follow-up prompt. *)
Definition after_engine_order (ts : TaskState) (primary_engine : engine_name)
    (fallback_engines : list engine_name) : list engine_name :=
  let last_ok := match last_ok_engine ts with Some e => e | None => primary_engine end in
  [last_ok; primary_engine]
  ++ List.filter (fun e => negb (engine_in e [last_ok; primary_engine])) fallback_engines.

Definition next_task_cursor (c : Cursor) : Cursor :=
  {| task_index := task_index c + 1; phase := "main"; after_index := 0 |}.

Definition bump_after_index (c : Cursor) : Cursor :=
  {| task_index := task_index c; phase := phase c; after_index := after_index c + 1 |}.

(** [step_name] of follow-up prompt number [idx] (counted from 0). *)
Definition after_step_name (idx : nat) : string := "after" +:+ str_of_nat (idx + 1).

(** How the AFTER loop is left. *)
Inductive loop_exit :=
| LoopStop (st : State) (cur : Cursor) (w : World)    (* [return cursor] on STOP *)
| LoopDone (ts : TaskState) (st : State) (cur : Cursor) (w : World).

(** The [while] loop of the AFTER phase, for a cursor whose phase is
    "after": [remaining] are the prompts from [cursor.after_index] on,
    [total] is [len(after_prompts)]. *)
Fixpoint after_loop (env : Env) (cfg : Engine) (pollfuel : nat) (task : Task)
    (primary_engine : engine_name) (fallback_engines : list engine_name)
    (total : nat) (remaining : list string)
    (L : Locals) (ts : TaskState) (st : State) (cur : Cursor) (w : World)
    : outcome loop_exit :=
  match remaining with
  | [] => Returned (LoopDone ts st cur w)
  | ap :: rest =>
      match wait_if_paused env pollfuel w with
      | None => Stalled
      | Some w1 =>
          let '(stop, w2) := should_stop env w1 in
          if stop then Returned (LoopStop (with_tstate st (task_id task) ts) cur w2)
          else
            let idx := after_index cur in
            let step := after_step_name idx in
            let hphase := "after[" +:+ str_of_nat (idx + 1) +:+ "/"
                          +:+ str_of_nat total +:+ "]" in
            let order := after_engine_order ts primary_engine fallback_engines in
            let '(res, L3, ts3, w3) :=
              attempts env cfg task "after" step hphase (Some idx) order None L ts w2 in
            let failed := match res with Some r => negb (ok r) | None => true end in
            let ts4 := if failed then set_status ts3 "after_failed"
                       else set_status ts3 ("after_ok_" +:+ str_of_nat (idx + 1)) in
            let cur4 := bump_after_index cur in
            let st4 := set_cursor (with_tstate st (task_id task) ts4) cur4 in
            let w4 := save_state env (state_path cfg) st4 w3 in
            after_loop env cfg pollfuel task primary_engine fallback_engines
                       total rest L3 ts4 st4 cur4 w4
      end
  end.

(** The end of [run_task]: the task is done, the cursor moves on. *)
Definition finish_task (env : Env) (cfg : Engine) (task : Task)
    (ts : TaskState) (st : State) (cur : Cursor) (w : World) : State * Cursor * World :=
  let ts' := set_status ts "done" in
  let cur' := next_task_cursor cur in
  let st' := set_cursor (with_tstate st (task_id task) ts') cur' in
  (st', cur', save_state env (state_path cfg) st' w).

(** The part of [run_task] from the AFTER phase on. *)
Definition run_after (env : Env) (cfg : Engine) (pollfuel : nat) (task : Task)
    (after_prompts : list string)
    (primary_engine : engine_name) (fallback_engines : list engine_name)
    (L : Locals) (ts : TaskState) (st : State) (cur : Cursor) (w : World)
    : outcome (State * Cursor * World) :=
  let remaining := if String.eqb (phase cur) "after"
                   then drop (after_index cur) after_prompts else [] in
  match after_loop env cfg pollfuel task primary_engine fallback_engines
                   (length after_prompts) remaining L ts st cur w with
  | Stalled => Stalled
  | Raised e => Raised e
  | Returned (LoopStop st' cur' w') => Returned (st', cur', w')
  | Returned (LoopDone ts' st' cur' w') => Returned (finish_task env cfg task ts' st' cur' w')
  end.

(** [normalize_engine(task.engine) if task.engine else None] *)
Definition row_engine_of (task : Task) : result (option engine_name) :=
  match engine task with
  | Some e => if nonempty e then match normalize_engine e with
                                 | Ok n => Ok (Some n)
                                 | Raise x => Raise x
                                 end
              else Ok None
  | None => Ok None
  end.

Definition run_task (env : Env) (cfg : Engine) (pollfuel : nat) (task : Task)
    (after_prompts : list string)
    (primary_engine : engine_name) (fallback_engines : list engine_name)
    (st : State) (cur : Cursor) (w : World) : outcome (State * Cursor * World) :=
  let '(st0, ts0) := ensure_task_state st (task_id task) in
  let L0 := {| l_claude_session := claude_session_id ts0;
               l_codex_can_resume := codex_can_resume ts0;
               l_gemini_resume := gemini_resume ts0 |} in
  match row_engine_of task with
  | Raise x => Raised x
  | Ok row_engine =>
      let order := engine_order row_engine primary_engine fallback_engines in
      if String.eqb (phase cur) "main" then
        (* ---- MAIN phase ---- *)
        match wait_if_paused env pollfuel w with
        | None => Stalled
        | Some w1 =>
            let '(stop, w2) := should_stop env w1 in
            if stop then Returned (st0, cur, w2)
            else
              let '(res, L3, ts3, w3) :=
                attempts env cfg task "main" "run" "main" None order None L0 ts0 w2 in
              match res with
              | None => Raised (RuntimeError "No engine ran.")
              | Some r =>
                  if negb (ok r) then
                    let ts4 := set_status ts3 "failed" in
                    let cur4 := next_task_cursor cur in
                    Returned (set_cursor (with_tstate st0 (task_id task) ts4) cur4, cur4, w3)
                  else
                    let ts4 := set_status ts3 "main_ok" in
                    let cur4 := {| task_index := task_index cur; phase := "after";
                                   after_index := 0 |} in
                    let st4 := set_cursor (with_tstate st0 (task_id task) ts4) cur4 in
                    let w4 := save_state env (state_path cfg) st4 w3 in
                    run_after env cfg pollfuel task after_prompts
                              primary_engine fallback_engines L3 ts4 st4 cur4 w4
              end
        end
      else
        run_after env cfg pollfuel task after_prompts
                  primary_engine fallback_engines L0 ts0 st0 cur w
  end.

(** *** main *)

(** The [while cursor.task_index < len(tasks)] loop of [main]; [iters]
    bounds the number of rounds. *)
Fixpoint main_loop (env : Env) (cfg : Engine) (iters pollfuel : nat)
    (task_list : list Task) (after_prompts : list string)
    (primary_engine : engine_name) (fallback_engines : list engine_name)
    (st : State) (cur : Cursor) (w : World) : outcome (Z * State * World) :=
  match iters with
  | O => Stalled
  | S iters' =>
      match task_list !! task_index cur with
      | None => Returned (0%Z, st, w)          (* all tasks complete *)
      | Some task =>
          match run_task env cfg pollfuel task after_prompts
                         primary_engine fallback_engines st cur w with
          | Stalled => Stalled
          | Raised e => Raised e
          | Returned (st1, cur1, w1) =>
              let w2 := save_state env (state_path cfg) st1 w1 in
              let '(stop, w3) := should_stop env w2 in
              if stop then Returned (0%Z, st1, w3)
              else main_loop env cfg iters' pollfuel task_list after_prompts
                             primary_engine fallback_engines st1 cur1 w3
          end
      end
  end.

(** The command line of [main], with the tasks file and the after-prompt
    sources already read. *)
Record Args := {
  arg_engine : string;
  arg_fallback : list string;         (* [split_csv_list(args.fallback)] *)
  arg_after : list string;            (* [load_after_prompts(...)] *)
  arg_resume : bool;
  arg_start_task : option string;
}.

Fixpoint normalize_all (names : list string) : result (list engine_name) :=
  match names with
  | [] => Ok []
  | n :: rest =>
      match normalize_engine n with
      | Raise x => Raise x
      | Ok e => match normalize_all rest with
                | Raise x => Raise x
                | Ok es => Ok (e :: es)
                end
      end
  end.

Fixpoint index_of_task (target : string) (i : nat) (l : list Task) : option nat :=
  match l with
  | [] => None
  | t :: rest => if String.eqb (task_id t) target then Some i
                 else index_of_task target (S i) rest
  end.

(** [main], for a tasks file that exists ([csv] is what the CSV reader
    finds in it). *)
Definition main (env : Env) (cfg : Engine) (iters pollfuel : nat) (args : Args)
    (csv : option (list Row)) (w : World) : outcome (Z * State * World) :=
  match normalize_engine (arg_engine args) with
  | Raise x => Raised x
  | Ok primary_engine =>
  match normalize_all (arg_fallback args) with
  | Raise x => Raised x
  | Ok fb =>
  let fallback_engines := List.filter (fun e => negb (engine_eqb e primary_engine)) fb in
  match load_tasks_from_csv env csv with
  | Raise x => Raised x
  | Ok task_list =>
  match task_list with
  | [] => Returned (0%Z, State_default, w)          (* no tasks found *)
  | _ :: _ =>
  match load_state env (state_path cfg) w with
  | (StateDoc st, w1) =>
      let cur := get_cursor st in
      let run st cur w :=
        main_loop env cfg iters pollfuel task_list (arg_after args)
                  primary_engine fallback_engines st cur w in
      let reset_or_resume :=
        if negb (arg_resume args) then
          let cur' := {| task_index := 0; phase := "main"; after_index := 0 |} in
          let st' := set_cursor st cur' in
          run st' cur' (save_state env (state_path cfg) st' w1)
        else run st cur w1 in
      match arg_start_task args with
      | Some target =>
          if nonempty target then
            match index_of_task (strip target) 0 task_list with
            | None => Returned (2%Z, st, w1)
            | Some idx =>
                let cur' := {| task_index := idx; phase := "main"; after_index := 0 |} in
                let st' := set_cursor st cur' in
                run st' cur' (save_state env (state_path cfg) st' w1)
            end
          else reset_or_resume
      | None => reset_or_resume
      end
  | (_, _) =>
      (* the loaded document is no dict: [state.get] fails in [get_cursor] *)
      Raised (no_attribute (JArr []) "get")
  end end end end end.

End Agentflow.

(* ===================================================================== *)
(** ** scripts/agent_csv_runner.py *)
(* ===================================================================== *)

Module CsvRunner.
Import Py Ctl.

(** The three agents the runner knows. *)
Inductive agent := codex | claude | gemini.

Definition agent_eqb (a b : agent) : bool :=
  match a, b with
  | codex, codex | claude, claude | gemini, gemini => true
  | _, _ => false
  end.

Definition agent_name (a : agent) : string :=
  match a with codex => "codex" | claude => "claude" | gemini => "gemini" end.

(** Reads an agent name; [None] when it is not one of the three. *)
Definition parse_agent (s : string) : option agent :=
  if String.eqb s "codex" then Some codex
  else if String.eqb s "claude" then Some claude
  else if String.eqb s "gemini" then Some gemini
  else None.

(** [RunResult] (the [cmd] field only feeds the logs and is left out). *)
Record RunResult := {
  returncode : Z;
  stdout : string;
  stderr : string;
}.

(** *** Task ids *)

Definition is_alnum (c : ascii) : bool :=
  let n := nat_of_ascii c in
  ((48 <=? n) && (n <=? 57)) || ((65 <=? n) && (n <=? 90)) || ((97 <=? n) && (n <=? 122)).

Fixpoint all_alnum (s : string) : bool :=
  match s with
  | EmptyString => true
  | String c r => is_alnum c && all_alnum r
  end.

(** [s.split(sep)] for a one-character separator. *)
Fixpoint split_on (sep : ascii) (s : string) : list string :=
  match s with
  | EmptyString => [EmptyString]
  | String c r =>
      if Ascii.eqb c sep then EmptyString :: split_on sep r
      else match split_on sep r with
           | h :: t => String c h :: t
           | [] => [String c EmptyString]
           end
  end.

(** [TASK_ID_RE.fullmatch]: two or more non-empty alphanumeric groups
    joined by single hyphens. *)
Definition TASK_ID_RE_fullmatch (s : string) : bool :=
  let groups := split_on "-"%char s in
  (2 <=? length groups) && forallb (fun g => nonempty g && all_alnum g) groups.

Definition sanitize_task_id (s : string) : result string :=
  let s := strip s in
  if negb (nonempty s) then Raise (ValueError "Empty task id.")
  else if negb (TASK_ID_RE_fullmatch s)
  then Raise (ValueError ("Bad task id '" +:+ s +:+ "'. Expected like T2-2 or M02-T2-3."))
  else Ok s.

(** *** The world the script runs in *)

(** One start of an agent tool. *)
Record Call := {
  c_agent : agent;
  c_task : string;
  c_stage : string;
  c_output_format : string;
  c_resume : option string;
}.

Inductive Effect :=
| ETool (c : Call)                    (* an agent tool was run *)
| EExec (cmd : string)                (* [bash -lc cmd] of the verify step *)
| EGit (what : string)
| ESleep.                             (* [time.sleep(interval_s)] *)

Record World := {
  now : nat;
  markers : Markers;
  files : gmap string string;
  trace : list Effect;
}.

(** The state document written by [persist_state]. *)
Record StateDoc := {
  completed_task_ids : list string;
  doc_claude_sessions : gmap string string;
  doc_gemini_sessions : gmap string string;
  updated_at : nat;
}.

Record Env := {
  rt : Runtime;
  user : User;
  tool : nat -> Call -> RunResult;      (* what the agent tool does *)
  shell : nat -> string -> RunResult;   (* what [bash -lc cmd] does *)
  dumps : StateDoc -> string;           (* [json.dumps(state, indent=2)] *)
}.

(** The settings read from the merged configuration. *)
Record Config := {
  state_file : Fs.Path;
  commands : gmap string string;
  retries : Z;
  verify_after_prompts : bool;
  after_agent : string;                 (* agents.after_agent *)
  claude_output_format : string;
  gemini_output_format : string;
  gemini_resume_strategy : string;
  gemini_capture_session_id : bool;
}.

Definition emit (e : Effect) (w : World) : World :=
  {| now := now w; markers := markers w; files := files w; trace := trace w ++ [e] |}.

Definition tick (w : World) : World :=
  {| now := S (now w); markers := markers w; files := files w; trace := trace w |}.

Definition do_ops (ops : list Fs.op) (w : World) : World :=
  {| now := now w; markers := markers w; files := Fs.run_ops ops (files w);
     trace := trace w |}.

Definition observe (env : Env) (w : World) : Markers * World :=
  let m := user env (now w) (markers w) in
  (m, {| now := S (now w); markers := m; files := files w; trace := trace w |}).

(** [pause_file.touch(exist_ok=True)] *)
Definition touch_pause (w : World) : World :=
  {| now := now w;
     markers := {| pause_present := true; stop_present := stop_present (markers w) |};
     files := files w; trace := trace w |}.

(** [run(cmd, cwd)] for an agent tool and for a verify command. *)
Definition run_tool (env : Env) (c : Call) (w : World) : RunResult * World :=
  (tool env (now w) c, tick (emit (ETool c) w)).

Definition run_bash (env : Env) (cmd : string) (w : World) : RunResult * World :=
  (shell env (now w) cmd, tick (emit (EExec cmd) w)).

(** The file operations of [write_json], in order. *)
Definition write_json_ops (path : Fs.Path) (text : string) : list Fs.op :=
  [Fs.Mkdir (Fs.parent path)] ++ Fs.write_text path (text +:+ "
").

(** *** Pause / stop *)

(** [wait_if_paused]: [fuel] bounds the number of polls; [None] means
    the loop is still running after [fuel] polls. *)
Fixpoint wait_if_paused (env : Env) (fuel : nat) (w : World) : option World :=
  match fuel with
  | O => None
  | S fuel' =>
      let '(m1, w1) := observe env w in          (* pause_file.exists() *)
      if pause_present m1 then
        let '(m2, w2) := observe env w1 in       (* stop_file.exists() *)
        if stop_present m2 then Some w2
        else wait_if_paused env fuel' (tick (emit ESleep w2))
      else Some w1
  end.

Definition stop_requested (env : Env) (w : World) : bool * World :=
  let '(m, w1) := observe env w in (stop_present m, w1).

(** *** Sessions *)

Record TaskSessions := {
  codex_started : bool;
  claude_session_id : option string;
  gemini_session_id : option string;
}.

Definition opt_truthy (o : option string) : bool :=
  match o with Some s => nonempty s | None => false end.

(** [str(x or d).strip()] for a configuration string. *)
Definition cfg_text (x d : string) : string := strip (if nonempty x then x else d).

(** *** Codex *)

Definition codex_run (env : Env) (cfg : Config) (stage task_id : string)
    (S : TaskSessions) (w : World) : RunResult * TaskSessions * World :=
  let c := {| c_agent := codex; c_task := task_id; c_stage := stage;
              c_output_format := "";
              c_resume := if codex_started S then Some "--last" else None |} in
  let '(rr, w1) := run_tool env c w in
  let S1 := if (returncode rr =? 0)%Z
            then {| codex_started := true; claude_session_id := claude_session_id S;
                    gemini_session_id := gemini_session_id S |}
            else S in
  (rr, S1, w1).

(** *** Claude Code *)

Definition claude_run (env : Env) (cfg : Config) (stage task_id : string)
    (S : TaskSessions) (w : World) : (RunResult * option string) * TaskSessions * World :=
  let outfmt := cfg_text (claude_output_format cfg) "json" in
  let c := {| c_agent := claude; c_task := task_id; c_stage := stage;
              c_output_format := outfmt;
              c_resume := if opt_truthy (claude_session_id S)
                          then claude_session_id S else None |} in
  let '(rr, w1) := run_tool env c w in
  let new_session_id :=
    if (returncode rr =? 0)%Z && String.eqb outfmt "json" then
      match json_loads (rt env) (stdout rr) with
      | Ok (JObj kv) => dict_get kv "session_id"
      | _ => JNull
      end
    else JNull in
  let S1 :=
    if (returncode rr =? 0)%Z && truthy new_session_id
       && negb (opt_truthy (claude_session_id S))
    then {| codex_started := codex_started S;
            claude_session_id := Some (py_str (rt env) new_session_id);
            gemini_session_id := gemini_session_id S |}
    else S in
  ((rr, claude_session_id S1), S1, w1).

(** *** Gemini CLI *)

(** The variables the stream handler updates. *)
Record StreamState := {
  ss_session_id : option string;
  ss_result_status : option string;
  ss_errors : list string;
  ss_assistant_chunks : list string;
}.

Definition json_is (v : json) (s : string) : bool :=
  match v with JStr t => String.eqb t s | _ => false end.

(** [handle_line] of [gemini_run]: one line of the event stream. *)
Definition handle_line (rt : Runtime) (line : string) (h : StreamState) : result StreamState :=
  match json_loads rt line with
  | Raise _ => Ok h
  | Ok evt =>
      match evt with
      | JObj kv =>
          let et := dict_get kv "type" in
          if json_is et "init" then
            let sid := dict_get kv "session_id" in
            if truthy sid
            then Ok {| ss_session_id := Some (py_str rt sid);
                       ss_result_status := ss_result_status h;
                       ss_errors := ss_errors h;
                       ss_assistant_chunks := ss_assistant_chunks h |}
            else Ok h
          else if json_is et "error" then
            let msg := py_str rt (py_or (dict_get kv "message") evt) in
            Ok {| ss_session_id := ss_session_id h;
                  ss_result_status := ss_result_status h;
                  ss_errors := ss_errors h ++ [msg];
                  ss_assistant_chunks := ss_assistant_chunks h |}
          else if json_is et "message" then
            let content := py_or (dict_get kv "content") (JStr "") in
            if json_is (dict_get kv "role") "assistant"
            then Ok {| ss_session_id := ss_session_id h;
                       ss_result_status := ss_result_status h;
                       ss_errors := ss_errors h;
                       ss_assistant_chunks := ss_assistant_chunks h ++ [py_str rt content] |}
            else Ok h
          else if json_is et "result" then
            Ok {| ss_session_id := ss_session_id h;
                  ss_result_status :=
                    Some (lower (py_str rt (py_or (dict_get kv "status") (JStr ""))));
                  ss_errors := ss_errors h;
                  ss_assistant_chunks := ss_assistant_chunks h |}
          else Ok h
      | _ => Raise (no_attribute evt "get")
      end
  end.

Fixpoint handle_lines (rt : Runtime) (lines : list string) (h : StreamState)
    : result StreamState :=
  match lines with
  | [] => Ok h
  | l :: rest =>
      match handle_line rt l h with
      | Raise e => Raise e
      | Ok h' => handle_lines rt rest h'
      end
  end.

(** The lines a text stream yields, each without its newline. *)
Definition stream_lines (out : string) : list string :=
  let pieces := split_on "010"%char out in
  match last pieces with
  | Some EmptyString => removelast pieces
  | _ => pieces
  end.

(** "Determine success" for the streamed variant. *)
Definition stream_effective_rc (rc : Z) (h : StreamState) : Z :=
  if negb (rc =? 0)%Z then rc
  else if match ss_result_status h with
          | Some s => nonempty s && negb (String.eqb s "success")
          | None => false
          end then 1%Z
  else if match ss_errors h with [] => false | _ => true end then 1%Z
  else 0%Z.

(** The JSON branch: the error summary, empty when nothing is reported. *)
Definition gemini_error_summary (rt : Runtime) (out : string) : string :=
  let parsed := if startswith "{" (strip out) then json_loads rt out else Ok (JObj []) in
  match parsed with
  | Raise e => "JSON parse error: " +:+ exn_text e
  | Ok obj =>
      let reported :=
        match obj with
        | JObj kv =>
            if truthy (dict_get kv "error") then
              let e := py_or (dict_get kv "error") (JObj []) in
              match e with
              | JObj ekv =>
                  Ok (strip (py_str rt (dict_get_default ekv "type" (JStr "Error"))
                             +:+ ": "
                             +:+ py_str rt (dict_get_default ekv "message" (JStr ""))))
              | _ => Raise (no_attribute e "get")
              end
            else Ok ""
        | _ => Ok ""
        end in
      match reported with
      | Raise e => "JSON parse error: " +:+ exn_text e
      | Ok summary =>
          (* response_text = (obj.get("response") or "").strip() *)
          match obj with
          | JObj kv =>
              match py_strip (py_or (dict_get kv "response") (JStr "")) with
              | Ok _ => summary
              | Raise e => "JSON parse error: " +:+ exn_text e
              end
          | _ => "JSON parse error: " +:+ exn_text (no_attribute obj "get")
          end
      end
  end.

(** The output format [gemini_run] asks for: the configured one, or the
    streamed one when a per-task session id is still to be captured. *)
Definition gemini_outfmt (cfg : Config) (S : TaskSessions) : string :=
  let configured_outfmt := cfg_text (gemini_output_format cfg) "json" in
  let resume_strategy := cfg_text (gemini_resume_strategy cfg) "per_task" in
  let capture_session := gemini_capture_session_id cfg in
  let need_session := String.eqb resume_strategy "per_task" in
  let have_session := opt_truthy (gemini_session_id S) in
  let force_stream := need_session && negb have_session && capture_session in
  if force_stream then "stream-json" else configured_outfmt.

(** The command line [gemini_run] builds. *)
Definition gemini_call (cfg : Config) (stage task_id : string) (S : TaskSessions) : Call :=
  let resume_strategy := cfg_text (gemini_resume_strategy cfg) "per_task" in
  let resume :=
    if String.eqb resume_strategy "latest" then Some "latest"
    else if String.eqb resume_strategy "per_task" && opt_truthy (gemini_session_id S)
    then gemini_session_id S else None in
  {| c_agent := gemini; c_task := task_id; c_stage := stage;
     c_output_format := gemini_outfmt cfg S; c_resume := resume |}.

Definition gemini_run (env : Env) (cfg : Config) (stage task_id : string)
    (S : TaskSessions) (w : World)
    : result ((RunResult * option string) * TaskSessions * World) :=
  let outfmt := gemini_outfmt cfg S in
  let c := gemini_call cfg stage task_id S in
  if String.eqb outfmt "stream-json" then
    let '(rr, w1) := run_tool env c w in
    let h0 := {| ss_session_id := gemini_session_id S; ss_result_status := None;
                 ss_errors := []; ss_assistant_chunks := [] |} in
    match handle_lines (rt env) (stream_lines (stdout rr)) h0 with
    | Raise e => Raise e
    | Ok h =>
        let S1 := {| codex_started := codex_started S;
                     claude_session_id := claude_session_id S;
                     gemini_session_id := ss_session_id h |} in
        Ok (({| returncode := stream_effective_rc (returncode rr) h;
                stdout := stdout rr; stderr := "" |},
             ss_session_id h), S1, w1)
    end
  else
    let '(rr, w1) := run_tool env c w in
    let error_summary :=
      if String.eqb outfmt "json" then gemini_error_summary (rt env) (stdout rr) else "" in
    let effective_rc :=
      if nonempty error_summary && (returncode rr =? 0)%Z then 1%Z else returncode rr in
    Ok (({| returncode := effective_rc; stdout := stdout rr; stderr := stderr rr |},
         gemini_session_id S), S, w1).

(** *** Verification *)

(** The loop of [run_verify] over the check names [keys]. *)
Fixpoint run_verify_from (env : Env) (cmds : gmap string string) (keys : list string)
    (failures : list (string * string)) (w : World) : list (string * string) * World :=
  match keys with
  | [] => (failures, w)
  | key :: rest =>
      let cmd := strip (default "" (cmds !! key)) in
      if negb (nonempty cmd) then run_verify_from env cmds rest failures w
      else
        let '(rr, w1) := run_bash env cmd w in
        if negb (returncode rr =? 0)%Z
        then run_verify_from env cmds rest
               (failures ++ [(cmd, strip (stdout rr +:+ "
" +:+ stderr rr))]) w1
        else run_verify_from env cmds rest failures w1
  end.

Definition run_verify (env : Env) (cmds : gmap string string) (w : World)
    : list (string * string) * World :=
  run_verify_from env cmds ["format"; "lint"; "test"] [] w.

(** *** main *)

(** A CSV row after the header aliases are resolved. [other_items] are
    the cells outside the id, title and agent columns, in file order. *)
Record Row := {
  col_id : option string;
  col_title : option string;
  col_spec : option string;
  col_agent : option string;
  other_items : list (string * option string);
}.

Record Args := {
  arg_series : string;
  arg_commit : bool;
  arg_pause_after_task : bool;
  primary_default : agent;
  fallback_order : list agent;          (* checked, primary removed *)
}.

(** The variables of [main] that change while it runs. *)
Record Ctx := {
  done_ids : list string;
  claude_sessions : gmap string string;
  gemini_sessions : gmap string string;
  sessions : TaskSessions;
  world : World;
}.

Definition M (A : Type) : Type := Ctx -> outcome (A * Ctx).

Definition ret {A} (a : A) : M A := fun c => Returned (a, c).

Definition bind {A B} (m : M A) (k : A -> M B) : M B :=
  fun c => match m c with
           | Returned (a, c') => k a c'
           | Raised e => Raised e
           | Stalled => Stalled
           end.

Notation "x <- m ;; k" := (bind m (fun x => k))
  (at level 100, m at next level, right associativity).
Notation "m ;;; k" := (bind m (fun _ => k))
  (at level 100, right associativity).

Definition with_world (c : Ctx) (w : World) : Ctx :=
  {| done_ids := done_ids c; claude_sessions := claude_sessions c;
     gemini_sessions := gemini_sessions c; sessions := sessions c; world := w |}.

Definition in_world {A} (f : World -> A * World) : M A :=
  fun c => let '(a, w) := f (world c) in Returned (a, with_world c w).

(** [wait_if_paused(...)] followed by [stop_requested(...)]. *)
Definition checkpoint (env : Env) (pollfuel : nat) : M bool :=
  fun c => match wait_if_paused env pollfuel (world c) with
           | None => Stalled
           | Some w1 => let '(stop, w2) := stop_requested env w1 in
                        Returned (stop, with_world c w2)
           end.

Fixpoint insert_sorted (s : string) (l : list string) : list string :=
  match l with
  | [] => [s]
  | x :: r => if String.leb s x then s :: l else x :: insert_sorted s r
  end.

(** [sorted(ids)] *)
Definition sorted (ids : list string) : list string := foldr insert_sorted [] ids.

Definition persist_state (env : Env) (cfg : Config) : M unit :=
  fun c =>
    let doc := {| completed_task_ids := sorted (done_ids c);
                  doc_claude_sessions := claude_sessions c;
                  doc_gemini_sessions := gemini_sessions c;
                  updated_at := now (world c) |} in
    Returned (tt, with_world c (do_ops (write_json_ops (state_file cfg) (dumps env doc))
                                       (world c))).

Definition run_stage (env : Env) (cfg : Config) (task_id : string) (a : agent)
    (stage : string) : M RunResult :=
  fun c =>
    match a with
    | codex =>
        let '(rr, S1, w1) := codex_run env cfg stage task_id (sessions c) (world c) in
        Returned (rr, {| done_ids := done_ids c; claude_sessions := claude_sessions c;
                         gemini_sessions := gemini_sessions c; sessions := S1;
                         world := w1 |})
    | claude =>
        let '((rr, sid), S1, w1) := claude_run env cfg stage task_id (sessions c) (world c) in
        Returned (rr, {| done_ids := done_ids c;
                         claude_sessions :=
                           match sid with
                           | Some s => if nonempty s then <[task_id := s]> (claude_sessions c)
                                       else claude_sessions c
                           | None => claude_sessions c
                           end;
                         gemini_sessions := gemini_sessions c; sessions := S1;
                         world := w1 |})
    | gemini =>
        match gemini_run env cfg stage task_id (sessions c) (world c) with
        | Raise e => Raised e
        | Ok ((rr, sid), S1, w1) =>
            Returned (rr, {| done_ids := done_ids c; claude_sessions := claude_sessions c;
                             gemini_sessions :=
                               match sid with
                               | Some s => if nonempty s then <[task_id := s]> (gemini_sessions c)
                                           else gemini_sessions c
                               | None => gemini_sessions c
                               end;
                             sessions := S1; world := w1 |})
        end
    end.

Definition agent_in (a : agent) (l : list agent) : bool := existsb (agent_eqb a) l.

(** [agent_try_order]: the given agent, then the fallback chain without
    it and without repetitions. *)
Definition agent_try_order (fallback : list agent) (primary_agent : agent) : list agent :=
  fold_left (fun out a => if negb (agent_eqb a primary_agent) && negb (agent_in a out)
                          then out ++ [a] else out)
            fallback [primary_agent].

(** How the implement loop ends. *)
Inductive impl_exit :=
| ImplStop                       (* STOP requested: [return 0] *)
| ImplUsed (a : agent)           (* [impl_agent_used] *)
| ImplNone.                      (* every agent failed *)

Fixpoint impl_loop (env : Env) (cfg : Config) (pollfuel : nat) (task_id : string)
    (order : list agent) : M impl_exit :=
  match order with
  | [] => ret ImplNone
  | a :: rest =>
      stop <- checkpoint env pollfuel ;;
      if stop : bool then ret ImplStop
      else
        rr <- run_stage env cfg task_id a "impl" ;;
        persist_state env cfg ;;;
        if (returncode rr =? 0)%Z then ret (ImplUsed a)
        else impl_loop env cfg pollfuel task_id rest
  end.

Definition no_failures (f : list (string * string)) : bool :=
  match f with [] => true | _ => false end.

(** [fix_with]: [attempts] is [range(1, max_attempts + 1)]; the second
    component is the variable [failures] afterwards. *)
Fixpoint fix_attempts (env : Env) (cfg : Config) (pollfuel : nat) (task_id : string)
    (a : agent) (attempts : list nat) (failures : list (string * string))
    : M (bool * list (string * string)) :=
  match attempts with
  | [] => ret (no_failures failures, failures)
  | attempt :: rest =>
      if no_failures failures then ret (true, failures)
      else
        stop <- checkpoint env pollfuel ;;
        if stop : bool then ret (false, failures)
        else
          run_stage env cfg task_id a ("fix" +:+ str_of_nat attempt) ;;;
          persist_state env cfg ;;;
          failures' <- in_world (run_verify env (commands cfg)) ;;
          if no_failures failures' then ret (true, failures')
          else fix_attempts env cfg pollfuel task_id a rest failures'
  end.

Definition fix_with (env : Env) (cfg : Config) (pollfuel : nat) (task_id : string)
    (a : agent) (max_attempts : Z) (failures : list (string * string))
    : M (bool * list (string * string)) :=
  fix_attempts env cfg pollfuel task_id a (seq 1 (Z.to_nat max_attempts)) failures.

(** The loop over the other agents of the chain after [first] could not
    fix the failures. *)
Fixpoint fix_with_others (env : Env) (cfg : Config) (pollfuel : nat) (task_id : string)
    (first : agent) (order : list agent) (failures : list (string * string))
    : M (bool * list (string * string)) :=
  match order with
  | [] => ret (false, failures)
  | a :: rest =>
      if agent_eqb a first then fix_with_others env cfg pollfuel task_id first rest failures
      else
        r <- fix_with env cfg pollfuel task_id a (retries cfg) failures ;;
        if fst r : bool then ret r
        else fix_with_others env cfg pollfuel task_id first rest (snd r)
  end.

(** "Verify + fix loops": [true] when nothing is failing in the end. *)
Definition fix_chain (env : Env) (cfg : Config) (pollfuel : nat) (task_id : string)
    (args : Args) (first : agent) (failures : list (string * string)) : M bool :=
  r <- fix_with env cfg pollfuel task_id first (retries cfg) failures ;;
  if fst r : bool then ret true
  else
    r2 <- fix_with_others env cfg pollfuel task_id first
            (agent_try_order (fallback_order args) first) (snd r) ;;
    ret (fst r2).

(** The fallbacks of one follow-up prompt. *)
Fixpoint after_fallbacks (env : Env) (cfg : Config) (task_id : string) (j : nat)
    (after_agent : agent) (order : list agent) : M unit :=
  match order with
  | [] => ret tt
  | a :: rest =>
      if agent_eqb a after_agent then after_fallbacks env cfg task_id j after_agent rest
      else
        rr2 <- run_stage env cfg task_id a
                 ("after" +:+ str_of_nat j +:+ ".fallback." +:+ agent_name a) ;;
        persist_state env cfg ;;;
        if (returncode rr2 =? 0)%Z then ret tt
        else after_fallbacks env cfg task_id j after_agent rest
  end.

(** The loop over the follow-up prompts, [j] counting from 1; [true]
    when STOP was requested ([return 0]). *)
Fixpoint after_prompts_loop (env : Env) (cfg : Config) (pollfuel : nat) (task_id : string)
    (args : Args) (after_agent : agent) (j : nat) (prompts : list (string * string))
    : M bool :=
  match prompts with
  | [] => ret false
  | _ :: rest =>
      stop <- checkpoint env pollfuel ;;
      if stop : bool then ret true
      else
        rr <- run_stage env cfg task_id after_agent ("after" +:+ str_of_nat j) ;;
        persist_state env cfg ;;;
        (if negb (returncode rr =? 0)%Z
         then after_fallbacks env cfg task_id j after_agent
                (agent_try_order (fallback_order args) after_agent)
         else ret tt) ;;;
        after_prompts_loop env cfg pollfuel task_id args after_agent (S j) rest
  end.

(** How one round of the loop over the rows ends. *)
Inductive row_exit :=
| RowNext                        (* on to the next row *)
| RowReturn (code : Z).          (* [main] returns *)

(** The spec text of a row: the spec cell, else the other cells. *)
Definition row_spec (row : Row) : string :=
  let sp := strip (default "" (col_spec row)) in
  if nonempty sp then sp
  else
    let parts := omap (fun kv => let vv := strip (default "" (snd kv)) in
                                 if nonempty vv then Some (fst kv +:+ ": " +:+ vv) else None)
                      (other_items row) in
    strip (String.concat "
" parts).

Definition add_done (task_id : string) : M unit :=
  fun c => Returned (tt, {| done_ids := if existsb (String.eqb task_id) (done_ids c)
                                        then done_ids c else done_ids c ++ [task_id];
                            claude_sessions := claude_sessions c;
                            gemini_sessions := gemini_sessions c;
                            sessions := sessions c; world := world c |}).

Definition start_task (task_id : string) : M unit :=
  fun c => Returned (tt, {| done_ids := done_ids c;
                            claude_sessions := claude_sessions c;
                            gemini_sessions := gemini_sessions c;
                            sessions := {| codex_started := false;
                                           claude_session_id := claude_sessions c !! task_id;
                                           gemini_session_id := gemini_sessions c !! task_id |};
                            world := world c |}).

Definition git_commit : M unit :=
  in_world (fun w => (tt, tick (emit (EGit "push")
                          (tick (emit (EGit "commit")
                          (tick (emit (EGit "add") w))))))).

(** The steps of a row once its task id and spec are known. *)
Definition run_task_steps (env : Env) (cfg : Config) (pollfuel : nat) (args : Args)
    (after_prompts : list (string * string)) (task_id : string) (primary : agent)
    : M row_exit :=
  start_task task_id ;;;
  (* 1) Implement *)
  impl <- impl_loop env cfg pollfuel task_id (agent_try_order (fallback_order args) primary) ;;
  match impl with
  | ImplStop => ret (RowReturn 0)
  | ImplNone => ret (RowReturn 1)
  | ImplUsed impl_agent_used =>
      (* 2) Verify + fix loops *)
      stop <- checkpoint env pollfuel ;;
      if stop : bool then ret (RowReturn 0)
      else
        failures <- in_world (run_verify env (commands cfg)) ;;
        fixed <- (if no_failures failures then ret true
                  else fix_chain env cfg pollfuel task_id args impl_agent_used failures) ;;
        if negb fixed then ret (RowReturn 1)
        else
          (* 3) After prompts *)
          let after_agent :=
            let name := cfg_text (after_agent cfg) "same" in
            if String.eqb name "same" then impl_agent_used
            else match parse_agent name with
                 | Some a => a
                 | None => impl_agent_used
                 end in
          stopped <- after_prompts_loop env cfg pollfuel task_id args after_agent 1
                       after_prompts ;;
          if stopped : bool then ret (RowReturn 0)
          else
            fixed2 <- (if verify_after_prompts cfg then
                         failures2 <- in_world (run_verify env (commands cfg)) ;;
                         if no_failures failures2 then ret true
                         else fix_chain env cfg pollfuel task_id args after_agent failures2
                       else ret true) ;;
            if negb fixed2 then ret (RowReturn 1)
            else
              (* 4) Commit + state *)
              (if arg_commit args then git_commit else ret tt) ;;;
              add_done task_id ;;;
              persist_state env cfg ;;;
              (if arg_pause_after_task args
               then fun c => match wait_if_paused env pollfuel (touch_pause (world c)) with
                             | None => Stalled
                             | Some w => Returned (tt, with_world c w)
                             end
               else ret tt) ;;;
              ret RowNext
  end.

(** The task id of a row: the id cell when it is not blank, else the
    series name and the row number; checked by [sanitize_task_id]. *)
Definition row_task_id (args : Args) (idx : nat) (row : Row) : result string :=
  let id_cell := default "" (col_id row) in
  if nonempty (strip id_cell) then sanitize_task_id id_cell
  else
    let series := strip_char "-"%char
                    (strip (if nonempty (arg_series args) then arg_series args else "T2")) in
    sanitize_task_id (series +:+ "-" +:+ str_of_nat idx).

(** The agent a row starts with: its agent cell when it names one. *)
Definition row_primary (args : Args) (row : Row) : agent :=
  match parse_agent (lower (strip (default "" (col_agent row)))) with
  | Some a => a
  | None => primary_default args
  end.

(** One round of [for idx, row in enumerate(rows, start=1)]. *)
Definition run_row (env : Env) (cfg : Config) (pollfuel : nat) (args : Args)
    (after_prompts : list (string * string)) (idx : nat) (row : Row) : M row_exit :=
  stop <- checkpoint env pollfuel ;;
  if stop : bool then ret (RowReturn 0)
  else
    match row_task_id args idx row with
    | Raise e => fun _ => Raised e
    | Ok task_id =>
        fun c =>
          if existsb (String.eqb task_id) (done_ids c) then Returned (RowNext, c)
          else if negb (nonempty (row_spec row))
          then Raised (SystemExit (task_id +:+ ": no spec text found (row "
                                   +:+ str_of_nat idx +:+ ")."))
          else run_task_steps env cfg pollfuel args after_prompts task_id
                              (row_primary args row) c
    end.

(** The loop over the rows; the result is the exit code of [main]. *)
Fixpoint main_rows (env : Env) (cfg : Config) (pollfuel : nat) (args : Args)
    (after_prompts : list (string * string)) (idx : nat) (rows : list Row) : M Z :=
  match rows with
  | [] => ret 0%Z
  | row :: rest =>
      r <- run_row env cfg pollfuel args after_prompts idx row ;;
      match r with
      | RowReturn code => ret code
      | RowNext => main_rows env cfg pollfuel args after_prompts (S idx) rest
      end
  end.

(** [main] from the loop over the rows on; [c] holds what the resume
    option loaded. *)
Definition main (env : Env) (cfg : Config) (pollfuel : nat) (args : Args)
    (after_prompts : list (string * string)) (rows : list Row) (c : Ctx)
    : outcome (Z * Ctx) :=
  main_rows env cfg pollfuel args after_prompts 1 rows c.

End CsvRunner.

(* ===================================================================== *)
(** ** More of scripts/agentflow.py: helpers around the state machine *)
(* ===================================================================== *)

Module AgentflowUtil.
Import Py.

(** *** Utility helpers *)

(** [s[:k]] for a possibly negative [k]. *)
Definition slice_to {A} (k : Z) (s : list A) : list A :=
  if (0 <=? k)%Z then take (Z.to_nat k) s
  else take (length s - Z.to_nat (- k)) s.

(** [clamp]: the last character of a clamped text is the ellipsis, a
    code point above 255, so the text is a list of characters of any
    type here. *)
Definition clamp {A} (ellipsis : A) (s : list A) (max_chars : Z) : list A :=
  if (Z.of_nat (length s) <=? max_chars)%Z then s
  else slice_to (max_chars - 1) s ++ [ellipsis].

(** [split_csv_list] *)
Definition split_csv_list (s : string) : list string :=
  let items := map strip (CsvRunner.split_on ","%char s) in
  List.filter nonempty items.

(** *** CSV parsing *)

(** The dict [{f.lower(): f for f in fieldnames}]: a later field takes
    the place of an earlier one with the same lower-cased name. *)
Definition lowered (fieldnames : list string) : gmap string string :=
  foldl (fun m f => <[lower f := f]> m) ∅ fieldnames.

Fixpoint first_known (m : gmap string string) (candidates : list string) : option string :=
  match candidates with
  | [] => None
  | c :: rest =>
      match m !! lower c with
      | Some f => Some f
      | None => first_known m rest
      end
  end.

(** [detect_column] (and [pick_col] of agent_csv_runner.py, which has
    the same body). *)
Definition detect_column (fieldnames candidates : list string) : option string :=
  first_known (lowered fieldnames) candidates.

(** *** Process runner *)

Definition total_chars (lines : list string) : nat :=
  foldr (fun l n => String.length l + n) 0 lines.

(** One round of the capture loop of [run_process]: the line is added,
    and when the count passes the ceiling the oldest tenth of the lines
    (at least one line) is dropped and the count is taken again. *)
Definition capture_step (ceiling : nat) (st : list string * nat) (line : string)
    : list string * nat :=
  let captured := fst st ++ [line] in
  let captured_chars := snd st + String.length line in
  if ceiling <? captured_chars then
    let n := Nat.max 1 (length captured / 10) in
    (drop n captured, total_chars (drop n captured))
  else (captured, captured_chars).

(** The lines [run_process] still holds after the process printed [lines]. *)
Definition capture (ceiling : nat) (lines : list string) : list string :=
  fst (foldl (capture_step ceiling) ([], 0) lines).

Definition MAX_CAPTURE_CHARS : nat := Z.to_nat 5000000.

(** *** Task ID parsing / next-id *)

(** [int(s)] for a non-empty text of decimal digits; [None] otherwise. *)
Definition int_of_digits (s : string) : option nat :=
  match s with
  | EmptyString => None
  | _ => match NilEmpty.uint_of_string s with
         | Some d => Some (Nat.of_uint d)
         | None => None
         end
  end.

(** The text after a leading [up] or [low]. *)
Definition after_letter (up low : ascii) (s : string) : option string :=
  match s with
  | String c r => if Ascii.eqb c up || Ascii.eqb c low then Some r else None
  | EmptyString => None
  end.

Definition is_number (s : string) : bool :=
  match int_of_digits s with Some _ => true | None => false end.

(** A group made of one letter, in either case, and a number: the number. *)
Definition lettered (up low : ascii) (s : string) : option string :=
  match after_letter up low s with
  | Some ds => if is_number ds then Some ds else None
  | None => None
  end.

(** [_TASK_RE.match]: the groups [m], [t] and [sub] of a text of the
    shape [M<digits>-T<digits>-<digits>], the first and the last part
    being optional and the letters of either case. *)
Definition TASK_RE_match (s : string) : option (option string * string * option string) :=
  match CsvRunner.split_on "-"%char s with
  | [a] =>
      match lettered "T" "t" a with
      | Some t => Some (None, t, None)
      | None => None
      end
  | [a; b] =>
      match after_letter "M" "m" a with
      | Some _ =>
          match lettered "M" "m" a, lettered "T" "t" b with
          | Some m, Some t => Some (Some m, t, None)
          | _, _ => None
          end
      | None =>
          match lettered "T" "t" a with
          | Some t => if is_number b then Some (None, t, Some b) else None
          | None => None
          end
      end
  | [a; b; c] =>
      match lettered "M" "m" a, lettered "T" "t" b with
      | Some m, Some t => if is_number c then Some (Some m, t, Some c) else None
      | _, _ => None
      end
  | _ => None
  end.

Record ParsedTaskId := {
  module_num : option nat;
  module_width : nat;
  task_num : nat;
  task_width : nat;
  sub_num : option nat;
  sub_width : nat;
}.

(** [f"{n:0{width}d}"] *)
Definition zero_padded (width n : nat) : string :=
  let d := str_of_nat n in
  String.concat "" (List.repeat "0" (width - String.length d)) +:+ d.

(** [ParsedTaskId.format] *)
Definition format (p : ParsedTaskId) : string :=
  let tpart :=
    "T" +:+ zero_padded (task_width p) (task_num p)
    +:+ match sub_num p with
        | Some n => "-" +:+ zero_padded (sub_width p) n
        | None => ""
        end in
  match module_num p with
  | Some n => "M" +:+ zero_padded (module_width p) n +:+ "-" +:+ tpart
  | None => tpart
  end.

Definition parse_task_id (task_id : string) : option ParsedTaskId :=
  match TASK_RE_match (strip task_id) with
  | None => None
  | Some (m_str, t_str, sub_str) =>
      Some {| module_num := match m_str with Some s => int_of_digits s | None => None end;
              module_width := match m_str with Some s => String.length s | None => 0 end;
              task_num := default 0 (int_of_digits t_str);
              task_width := String.length t_str;
              sub_num := match sub_str with Some s => int_of_digits s | None => None end;
              sub_width := match sub_str with Some s => String.length s | None => 0 end |}
  end.

Definition next_task_id (task_id : string) : string :=
  match parse_task_id task_id with
  | None => task_id
  | Some parsed =>
      match sub_num parsed with
      | Some n =>
          format {| module_num := module_num parsed; module_width := module_width parsed;
                    task_num := task_num parsed; task_width := task_width parsed;
                    sub_num := Some (n + 1); sub_width := sub_width parsed |}
      | None =>
          format {| module_num := module_num parsed; module_width := module_width parsed;
                    task_num := task_num parsed + 1; task_width := task_width parsed;
                    sub_num := None; sub_width := sub_width parsed |}
      end
  end.

End AgentflowUtil.

(* ===================================================================== *)
(** ** More of scripts/agent_csv_runner.py: configuration helpers *)
(* ===================================================================== *)

Module CsvRunnerUtil.
Import Py.

(** [d[k] = v] on the items of a dict: a key that is there keeps its
    place, a new key goes to the end. *)
Fixpoint dict_set (kv : list (string * json)) (k : string) (v : json)
    : list (string * json) :=
  match kv with
  | [] => [(k, v)]
  | (k', v') :: rest =>
      if String.eqb k' k then (k', v) :: rest else (k', v') :: dict_set rest k v
  end.

(** The value [deep_merge] stores under a key whose value in [b] is [v],
    [old] being [out.get(k)]; for two dicts this is [deep_merge(old, v)]. *)
Fixpoint merged_value (old : json) (v : json) {struct v} : json :=
  match v, old with
  | JObj bkv, JObj akv =>
      JObj ((fix go (items : list (string * json)) (out : list (string * json)) :=
               match items with
               | [] => out
               | (k, v') :: rest => go rest (dict_set out k (merged_value (dict_get out k) v'))
               end) bkv akv)
  | _, _ => v
  end.

(** The loop [for k, v in b.items(): ...] on the copy [out] of [a]. *)
Fixpoint merge_items (items : list (string * json)) (out : list (string * json))
    : list (string * json) :=
  match items with
  | [] => out
  | (k, v) :: rest => merge_items rest (dict_set out k (merged_value (dict_get out k) v))
  end.

(** [deep_merge] *)
Definition deep_merge (a b : list (string * json)) : list (string * json) :=
  merge_items b a.

Definition known_agent (p : string) : bool :=
  existsb (String.eqb p) ["codex"; "claude"; "gemini"].

(** [_parse_agent_list] *)
Definition _parse_agent_list (s : string) : list string :=
  let ps := map (fun x => lower (strip x))
                (List.filter (fun x => nonempty (strip x)) (CsvRunner.split_on ","%char s)) in
  fold_left (fun out p => if known_agent p && negb (existsb (String.eqb p) out)
                          then out ++ [p] else out)
            ps [].

End CsvRunnerUtil.

(* ===================================================================== *)
(** ** Sample inputs *)
(* ===================================================================== *)

(** Concrete runs used below to exercise the definitions: tool outputs as
    the tools print them, and a table standing for [json.loads] on
    exactly those texts. *)
Module Sample.
Import Py Ctl.

Definition dq : string := String (ascii_of_nat 34) EmptyString.
Definition q (s : string) : string := dq +:+ s +:+ dq.

(** [{"k1": "v1", "k2": "v2"}] *)
Definition obj2 (k1 v1 k2 v2 : string) : string :=
  "{" +:+ q k1 +:+ ": " +:+ q v1 +:+ ", " +:+ q k2 +:+ ": " +:+ q v2 +:+ "}".

Definition nl : string := String (ascii_of_nat 10) EmptyString.

Definition init_line : string := obj2 "type" "init" "session_id" "abc".
Definition error_line : string := obj2 "type" "error" "message" "boom".
Definition result_blank_line : string := obj2 "type" "result" "status" "".
Definition result_upper_line : string := obj2 "type" "result" "status" "SUCCESS".
Definition result_failed_line : string := obj2 "type" "result" "status" "failed".

(** [{"is_error": true, "session_id": "s1"}] *)
Definition claude_error_payload : string :=
  "{" +:+ q "is_error" +:+ ": true, " +:+ q "session_id" +:+ ": " +:+ q "s1" +:+ "}".

(** [{"error": "quota"}] *)
Definition gemini_error_payload : string := "{" +:+ q "error" +:+ ": " +:+ q "quota" +:+ "}".

Definition loads_table : list (string * json) :=
  [ (init_line, JObj [("type", JStr "init"); ("session_id", JStr "abc")]);
    (error_line, JObj [("type", JStr "error"); ("message", JStr "boom")]);
    (result_blank_line, JObj [("type", JStr "result"); ("status", JStr "")]);
    (result_upper_line, JObj [("type", JStr "result"); ("status", JStr "SUCCESS")]);
    (result_failed_line, JObj [("type", JStr "result"); ("status", JStr "failed")]);
    (claude_error_payload, JObj [("is_error", JBool true); ("session_id", JStr "s1")]);
    (gemini_error_payload, JObj [("error", JStr "quota")]) ].

Definition loads (s : string) : result json :=
  match find (fun p => String.eqb (fst p) s) loads_table with
  | Some p => Ok (snd p)
  | None => Raise (ValueError "Expecting value")
  end.

Definition rt : Runtime := {| json_loads := loads; repr_container := fun _ => "{...}" |}.

(** A user who keeps both marker files away. *)
Definition absent : User := fun _ _ => no_markers.

(** A user who keeps both marker files in place. *)
Definition both_markers : User :=
  fun _ _ => {| pause_present := true; stop_present := true |}.

(** agentflow.py *)

Definition af_cfg : Agentflow.Engine :=
  {| Agentflow.app_dir := ".agentflow"; Agentflow.cli_gemini_resume := None |}.

Definition af_world (files : gmap string string) : Agentflow.World :=
  {| Agentflow.now := 0; Agentflow.markers := no_markers;
     Agentflow.files := files; Agentflow.trace := [] |}.

(** Every tool exits with code 1; every state file is unreadable. *)
Definition af_failing_env : Agentflow.Env :=
  {| Agentflow.rt := rt;
     Agentflow.user := absent;
     Agentflow.which := fun _ _ => true;
     Agentflow.process := fun _ _ => (1%Z, "failed");
     Agentflow.dumps_state := fun _ => "{}";
     Agentflow.loads_state := fun _ => Agentflow.Malformed;
     Agentflow.dumps_row := fun _ => "{}";
     Agentflow.now_stamp := fun _ => "20260101-000000" |}.

(** The second follow-up prompt fails on every engine, all else works. *)
Definition af_after2_failing_env : Agentflow.Env :=
  {| Agentflow.rt := rt;
     Agentflow.user := absent;
     Agentflow.which := fun _ _ => true;
     Agentflow.process := fun _ inv =>
       if String.eqb (Agentflow.inv_step inv) "after2" then (1%Z, "failed")
       else (0%Z, "done");
     Agentflow.dumps_state := fun _ => "{}";
     Agentflow.loads_state := fun _ => Agentflow.Malformed;
     Agentflow.dumps_row := fun _ => "{}";
     Agentflow.now_stamp := fun _ => "20260101-000000" |}.

(** Both marker files stay in place. *)
Definition af_stuck_env : Agentflow.Env :=
  {| Agentflow.rt := rt;
     Agentflow.user := both_markers;
     Agentflow.which := fun _ _ => true;
     Agentflow.process := fun _ _ => (0%Z, "done");
     Agentflow.dumps_state := fun _ => "{}";
     Agentflow.loads_state := fun _ => Agentflow.Malformed;
     Agentflow.dumps_row := fun _ => "{}";
     Agentflow.now_stamp := fun _ => "20260101-000000" |}.

(** No tool is installed. *)
Definition af_bare_env : Agentflow.Env :=
  {| Agentflow.rt := rt;
     Agentflow.user := absent;
     Agentflow.which := fun _ _ => false;
     Agentflow.process := fun _ _ => (0%Z, "done");
     Agentflow.dumps_state := fun _ => "{}";
     Agentflow.loads_state := fun _ => Agentflow.Malformed;
     Agentflow.dumps_row := fun _ => "{}";
     Agentflow.now_stamp := fun _ => "20260101-000000" |}.

(** The stop marker stays in place, the pause marker away. *)
Definition stop_only : User :=
  fun _ _ => {| pause_present := false; stop_present := true |}.

Definition af_stopped_env : Agentflow.Env :=
  {| Agentflow.rt := rt;
     Agentflow.user := stop_only;
     Agentflow.which := fun _ _ => true;
     Agentflow.process := fun _ _ => (0%Z, "done");
     Agentflow.dumps_state := fun _ => "{}";
     Agentflow.loads_state := fun _ => Agentflow.Malformed;
     Agentflow.dumps_row := fun _ => "{}";
     Agentflow.now_stamp := fun _ => "20260101-000000" |}.

(** The pause marker is there at first and is removed before the third
    look at it. *)
Definition pause_twice : User :=
  fun t _ => {| pause_present := t <? 2; stop_present := false |}.

Definition af_paused_env : Agentflow.Env :=
  {| Agentflow.rt := rt;
     Agentflow.user := pause_twice;
     Agentflow.which := fun _ _ => true;
     Agentflow.process := fun _ _ => (0%Z, "done");
     Agentflow.dumps_state := fun _ => "{}";
     Agentflow.loads_state := fun _ => Agentflow.Malformed;
     Agentflow.dumps_row := fun _ => "{}";
     Agentflow.now_stamp := fun _ => "20260101-000000" |}.

(** A [json] pair that reads the default state back from its text. *)
Definition af_default_env : Agentflow.Env :=
  {| Agentflow.rt := rt;
     Agentflow.user := absent;
     Agentflow.which := fun _ _ => true;
     Agentflow.process := fun _ _ => (0%Z, "done");
     Agentflow.dumps_state := fun _ => "{}";
     Agentflow.loads_state := fun text =>
       if String.eqb text "{}" then Agentflow.StateDoc Agentflow.State_default
       else Agentflow.Malformed;
     Agentflow.dumps_row := fun _ => "{}";
     Agentflow.now_stamp := fun _ => "20260101-000000" |}.

(** Every tool exits with code 0 and prints a payload that reports an
    error. *)
Definition af_error_env : Agentflow.Env :=
  {| Agentflow.rt := rt;
     Agentflow.user := absent;
     Agentflow.which := fun _ _ => true;
     Agentflow.process := fun _ inv =>
       match Agentflow.inv_engine inv with
       | Agentflow.gemini => (0%Z, gemini_error_payload)
       | _ => (0%Z, claude_error_payload)
       end;
     Agentflow.dumps_state := fun _ => "{}";
     Agentflow.loads_state := fun _ => Agentflow.Malformed;
     Agentflow.dumps_row := fun _ => "{}";
     Agentflow.now_stamp := fun _ => "20260101-000000" |}.

Definition af_locals : Agentflow.Locals :=
  {| Agentflow.l_claude_session := JNull; Agentflow.l_codex_can_resume := false;
     Agentflow.l_gemini_resume := None |}.

Definition af_task (tid : string) : Agentflow.Task :=
  {| Agentflow.task_id := tid; Agentflow.spec := "do it"; Agentflow.title := "";
     Agentflow.engine := None |}.

Definition af_args : Agentflow.Args :=
  {| Agentflow.arg_engine := "codex"; Agentflow.arg_fallback := ["claude"];
     Agentflow.arg_after := []; Agentflow.arg_resume := true;
     Agentflow.arg_start_task := None |}.

Definition af_row (tid : string) : Agentflow.Row :=
  {| Agentflow.col_id := Some tid; Agentflow.col_title := None;
     Agentflow.col_spec := Some "do it"; Agentflow.col_engine := None |}.

(** A task whose MAIN step succeeded with codex, about to run its first
    follow-up prompt. *)
Definition af_state_after_main : Agentflow.State :=
  {| Agentflow.cursor := {| Agentflow.task_index := 0; Agentflow.phase := "after";
                            Agentflow.after_index := 0 |};
     Agentflow.tasks :=
       {[ "T1-1" := {| Agentflow.history := [];
                       Agentflow.claude_session_id := JNull;
                       Agentflow.codex_can_resume := true;
                       Agentflow.gemini_resume := None;
                       Agentflow.last_ok_engine := Some Agentflow.codex;
                       Agentflow.status := Some "main_ok" |} ]} |}.

(** The steps and engines of the calls of [run_with_engine] in a trace. *)
Definition attempted (tr : list Agentflow.Effect) : list (string * Agentflow.engine_name) :=
  omap (fun e => match e with
                 | Agentflow.EAttempt inv =>
                     Some (Agentflow.inv_step inv, Agentflow.inv_engine inv)
                 | _ => None
                 end) tr.

(** agent_csv_runner.py *)

Definition csv_cfg : CsvRunner.Config :=
  {| CsvRunner.state_file := {| Fs.parent := ".t2"; Fs.name := "state.json" |};
     CsvRunner.commands := ∅;
     CsvRunner.retries := 2;
     CsvRunner.verify_after_prompts := false;
     CsvRunner.after_agent := "same";
     CsvRunner.claude_output_format := "json";
     CsvRunner.gemini_output_format := "json";
     CsvRunner.gemini_resume_strategy := "per_task";
     CsvRunner.gemini_capture_session_id := true |}.

Definition csv_world : CsvRunner.World :=
  {| CsvRunner.now := 0; CsvRunner.markers := no_markers;
     CsvRunner.files := ∅; CsvRunner.trace := [] |}.

Definition csv_ctx : CsvRunner.Ctx :=
  {| CsvRunner.done_ids := []; CsvRunner.claude_sessions := ∅;
     CsvRunner.gemini_sessions := ∅;
     CsvRunner.sessions := {| CsvRunner.codex_started := false;
                              CsvRunner.claude_session_id := None;
                              CsvRunner.gemini_session_id := None |};
     CsvRunner.world := csv_world |}.

Definition csv_args : CsvRunner.Args :=
  {| CsvRunner.arg_series := "T2"; CsvRunner.arg_commit := false;
     CsvRunner.arg_pause_after_task := false;
     CsvRunner.primary_default := CsvRunner.codex;
     CsvRunner.fallback_order := [CsvRunner.claude] |}.

Definition csv_row (tid : string) : CsvRunner.Row :=
  {| CsvRunner.col_id := Some tid; CsvRunner.col_title := None;
     CsvRunner.col_spec := Some "do it"; CsvRunner.col_agent := None;
     CsvRunner.other_items := [] |}.

Definition csv_out (rc : Z) (out : string) : CsvRunner.RunResult :=
  {| CsvRunner.returncode := rc; CsvRunner.stdout := out; CsvRunner.stderr := "" |}.

(** Every tool prints [out] and exits with code [rc]. *)
Definition csv_env (rc : Z) (out : string) : CsvRunner.Env :=
  {| CsvRunner.rt := rt;
     CsvRunner.user := absent;
     CsvRunner.tool := fun _ _ => csv_out rc out;
     CsvRunner.shell := fun _ _ => csv_out 0 "";
     CsvRunner.dumps := fun _ => "{}" |}.

(** A task whose gemini session is known. *)
Definition csv_gemini_sessions : CsvRunner.TaskSessions :=
  {| CsvRunner.codex_started := false; CsvRunner.claude_session_id := None;
     CsvRunner.gemini_session_id := Some "abc" |}.

(** Both marker files stay in place. *)
Definition csv_stuck_env : CsvRunner.Env :=
  {| CsvRunner.rt := rt;
     CsvRunner.user := both_markers;
     CsvRunner.tool := fun _ _ => csv_out 0 "";
     CsvRunner.shell := fun _ _ => csv_out 0 "";
     CsvRunner.dumps := fun _ => "{}" |}.

(** The steps and agents of the tools run in a trace. *)
Definition tools_run (tr : list CsvRunner.Effect)
    : list (string * string * CsvRunner.agent) :=
  omap (fun e => match e with
                 | CsvRunner.ETool c =>
                     Some (CsvRunner.c_task c, CsvRunner.c_stage c, CsvRunner.c_agent c)
                 | _ => None
                 end) tr.

End Sample.

(* ===================================================================== *)
(** ** Reference definitions, written from the description of the tools *)
(* ===================================================================== *)

Module VerifySpec.
Import Py CsvRunner.


(** The commands to run: the configured command of every named check,
    trimmed, with the empty ones skipped. *)
Definition configured_checks (cmds : gmap string string) (names : list string) : list string :=
  List.filter nonempty (map (fun key => strip (default "" (cmds !! key))) names).

(** Running every command of a list, one after the other from clock
    value [t] on, whatever the earlier ones returned. *)
Fixpoint run_all (env : Env) (t : nat) (cmds : list string) : list (string * RunResult) :=
  match cmds with
  | [] => []
  | c :: rest => (c, shell env t c) :: run_all env (S t) rest
  end.

(** The checks that exited non-zero, each with its combined output. *)
Definition failed_checks (runs : list (string * RunResult)) : list (string * string) :=
  omap (fun cr => if negb (returncode (snd cr) =? 0)%Z
                  then Some (fst cr, strip (stdout (snd cr) +:+ "
" +:+ stderr (snd cr)))
                  else None) runs.

(** The world after the commands [cmds] were run from [w] on. *)
Definition after_checks (w : World) (cmds : list string) : World :=
  {| now := now w + length cmds; markers := markers w; files := files w;
     trace := trace w ++ map EExec cmds |}.

End VerifySpec.

Module StreamSpec.
Import Py CsvRunner.

(** Is the line an event (a JSON object) of the given type? *)
Definition is_event (rt : Runtime) (ty : string) (line : string) : bool :=
  match json_loads rt line with
  | Ok (JObj kv) => json_is (dict_get kv "type") ty
  | _ => false
  end.

(** The status of a [result] event as the runner reads it: the text of
    the status field, lower-cased; empty when the field is missing. *)
Definition event_status (rt : Runtime) (line : string) : string :=
  match json_loads rt line with
  | Ok (JObj kv) => lower (py_str rt (py_or (dict_get kv "status") (JStr "")))
  | _ => ""
  end.

(** The session id an [init] event carries, if it carries one. *)
Definition init_session (rt : Runtime) (line : string) : option string :=
  match json_loads rt line with
  | Ok (JObj kv) =>
      if json_is (dict_get kv "type") "init" && truthy (dict_get kv "session_id")
      then Some (py_str rt (dict_get kv "session_id")) else None
  | _ => None
  end.

(** A line the handler can take: not JSON at all, or a JSON object. *)
Definition line_ok (rt : Runtime) (line : string) : bool :=
  match json_loads rt line with
  | Ok (JObj _) => true
  | Ok _ => false
  | Raise _ => true
  end.

Definition has_error_event (rt : Runtime) (lines : list string) : bool :=
  existsb (is_event rt "error") lines.

(** The status of the last [result] event of the stream. *)
Definition terminal_status (rt : Runtime) (lines : list string) : option string :=
  fold_left (fun acc line => if is_event rt "result" line
                             then Some (event_status rt line) else acc) lines None.

(** The session id of the last [init] event that carries one, else the
    id known before. *)
Definition captured_session (rt : Runtime) (lines : list string) (known : option string)
    : option string :=
  fold_left (fun acc line => match init_session rt line with
                             | Some s => Some s
                             | None => acc
                             end) lines known.

End StreamSpec.

Module FlowSpec.
Import Py Agentflow.

(** The effect is no backend call, or a backend call of the given phase
    and step. *)
Definition only_step (ph step : string) (e : Effect) : Prop :=
  match e with
  | EAttempt inv | ESpawn inv => inv_phase inv = ph /\ inv_step inv = step
  | _ => True
  end.

(** The effect is no backend call of the AFTER phase. *)
Definition no_after_call (e : Effect) : Prop :=
  match e with
  | EAttempt inv | ESpawn inv => inv_phase inv <> "after"
  | _ => True
  end.



(** The entry was written for phase [ph] and step [step], and holds the
    outcome of a backend call made for that step with the entry's engine. *)
Definition entry_from (env : Env) (cfg : Engine) (task : Task) (ph step : string)
    (aidx : option nat) (r : StepRecord) : Prop :=
  sr_phase r = ph /\ sr_after_index r = aidx
  /\ exists L w0,
       let res := fst (run_with_engine env cfg task L (sr_engine r) ph step w0) in
       sr_ok r = ok res /\ sr_exit_code r = exit_code res.

(** The effect is the start of a backend call of the given phase and step. *)
Definition is_attempt (ph step : string) (e : Effect) : Prop :=
  exists inv, e = EAttempt inv /\ inv_phase inv = ph /\ inv_step inv = step.




End FlowSpec.

Module RunnerSpec.
Import Py CsvRunner.

(** The effect is no agent run, or an agent run of the given stage. *)
Definition only_stage (stage : string) (e : Effect) : Prop :=
  match e with
  | ETool call => c_stage call = stage
  | _ => True
  end.

(** The agent runs of a trace, in order. *)
Definition tools_of (tr : list Effect) : list Call :=
  omap (fun e => match e with ETool call => Some call | _ => None end) tr.

(** The stage names [fix<s>], [fix<s+1>], ... of [n] fix attempts. *)
Definition fix_stages (s n : nat) : list string :=
  map (fun i => "fix" +:+ str_of_nat i) (seq s n).

End RunnerSpec.

Module TextSpec.

(** Does the text hold a character that is not white space? *)
Fixpoint has_nonspace (s : string) : bool :=
  match s with
  | EmptyString => false
  | String c r => negb (Py.is_space c) || has_nonspace r
  end.

(** Does the text hold the character [ch]? *)
Fixpoint has_char (ch : ascii) (s : string) : bool :=
  match s with
  | EmptyString => false
  | String c r => Ascii.eqb c ch || has_char ch r
  end.

(** Does the text hold white space? *)
Fixpoint has_space (s : string) : bool :=
  match s with
  | EmptyString => false
  | String c r => Py.is_space c || has_space r
  end.

End TextSpec.

Module IdSpec.
Import AgentflowUtil.

(** A parsed id as it reads once written out and parsed again: every
    width is the length of the number as written, 0 for a missing part. *)
Definition normalize (p : ParsedTaskId) : ParsedTaskId :=
  {| module_num := module_num p;
     module_width := match module_num p with
                     | Some n => String.length (zero_padded (module_width p) n)
                     | None => 0
                     end;
     task_num := task_num p;
     task_width := String.length (zero_padded (task_width p) (task_num p));
     sub_num := sub_num p;
     sub_width := match sub_num p with
                  | Some n => String.length (zero_padded (sub_width p) n)
                  | None => 0
                  end |}.

(** The id that follows: the sub-number when there is one, else the
    task number, is one higher. *)
Definition successor (p : ParsedTaskId) : ParsedTaskId :=
  match sub_num p with
  | Some n =>
      {| module_num := module_num p; module_width := module_width p;
         task_num := task_num p; task_width := task_width p;
         sub_num := Some (n + 1); sub_width := sub_width p |}
  | None =>
      {| module_num := module_num p; module_width := module_width p;
         task_num := task_num p + 1; task_width := task_width p;
         sub_num := None; sub_width := sub_width p |}
  end.

(** An id written from its groups: [M<m>-T<t>-<sub>]. *)
Definition written (m : option string) (t : string) (sub : option string) : string :=
  let tpart := match sub with
               | Some ss => String "T" t +:+ String "-" ss
               | None => String "T" t
               end in
  match m with
  | Some ms => String "M" ms +:+ String "-" tpart
  | None => tpart
  end.

End IdSpec.

(* ===================================================================== *)
(** * The definitions at work *)
(* ===================================================================== *)

Example strip_sample : Py.strip ("  a b " +:+ Sample.nl) = "a b".
Proof. reflexivity. Qed.

Example lower_sample : Py.lower "SUCCESS" = "success".
Proof. reflexivity. Qed.

Example with_suffix_tmp :
  Fs.with_suffix {| Fs.parent := ".agentflow"; Fs.name := "state.json" |} ".tmp"
  = {| Fs.parent := ".agentflow"; Fs.name := "state.tmp" |}.
Proof. reflexivity. Qed.

Example with_suffix_dotfile :
  Fs.with_suffix {| Fs.parent := "."; Fs.name := ".profile" |} ".tmp"
  = {| Fs.parent := "."; Fs.name := ".profile.tmp" |}.
Proof. reflexivity. Qed.

Example normalize_engine_alias : Agentflow.normalize_engine " OpenAI " = Py.Ok Agentflow.codex.
Proof. reflexivity. Qed.

Example normalize_engine_unknown :
  Agentflow.normalize_engine "llama"
  = Py.Raise (Py.ValueError "Unknown engine 'llama' (expected: codex|claude|gemini)").
Proof. reflexivity. Qed.

Example engine_order_sample :
  Agentflow.engine_order (Some Agentflow.gemini) Agentflow.codex
    [Agentflow.claude; Agentflow.gemini]
  = [Agentflow.gemini; Agentflow.claude].
Proof. reflexivity. Qed.

Example try_parse_suffix :
  Agentflow.try_parse_json_object Sample.rt ("thinking... " +:+ Sample.claude_error_payload)
  = Some (Py.JObj [("is_error", Py.JBool true); ("session_id", Py.JStr "s1")]).
Proof. vm_compute. reflexivity. Qed.

Example task_id_shapes :
  map CsvRunner.TASK_ID_RE_fullmatch ["T2-2"; "M02-T2-3"; "T2"; "T2--2"; "T2-"; "bad id"; ""]
  = [true; true; false; false; false; false; false].
Proof. reflexivity. Qed.

Example sanitize_trims : CsvRunner.sanitize_task_id " T2-2 " = Py.Ok "T2-2".
Proof. reflexivity. Qed.

Example stream_lines_sample :
  CsvRunner.stream_lines ("a" +:+ Sample.nl +:+ "b" +:+ Sample.nl) = ["a"; "b"].
Proof. reflexivity. Qed.

Example agent_try_order_sample :
  CsvRunner.agent_try_order [CsvRunner.gemini; CsvRunner.claude; CsvRunner.gemini]
    CsvRunner.claude
  = [CsvRunner.claude; CsvRunner.gemini].
Proof. reflexivity. Qed.

Example sorted_sample : CsvRunner.sorted ["T1-2"; "T1-10"; "T1-1"] = ["T1-1"; "T1-10"; "T1-2"].
Proof. reflexivity. Qed.

Example save_state_ops_sample :
  Agentflow.save_state_ops (Agentflow.state_path Sample.af_cfg) "{}"
  = [Fs.Mkdir ".agentflow"; Fs.Truncate ".agentflow/state.tmp";
     Fs.Append ".agentflow/state.tmp" "{}";
     Fs.Replace ".agentflow/state.tmp" ".agentflow/state.json"].
Proof. reflexivity. Qed.

Example parse_task_id_sample :
  AgentflowUtil.parse_task_id " m02-T007-9 "
  = Some {| AgentflowUtil.module_num := Some 2; AgentflowUtil.module_width := 2;
            AgentflowUtil.task_num := 7; AgentflowUtil.task_width := 3;
            AgentflowUtil.sub_num := Some 9; AgentflowUtil.sub_width := 1 |}.
Proof. reflexivity. Qed.

Example next_task_id_samples :
  map AgentflowUtil.next_task_id ["T2-2"; "M2-T2"; "M02-T09"; "t2-9"; "T99"; "row7"; "M2-2"]
  = ["T2-3"; "M2-T3"; "M02-T10"; "T2-10"; "T100"; "row7"; "M2-2"].
Proof. vm_compute. reflexivity. Qed.

(* ===================================================================== *)
(** * Properties *)
(* ===================================================================== *)

(** ** The verify step of agent_csv_runner.py *)

Lemma run_verify_from_spec (env : CsvRunner.Env) (cmds : gmap string string)
    (keys : list string) :
  forall (failures : list (string * string)) (w : CsvRunner.World),
    CsvRunner.run_verify_from env cmds keys failures w
    = (failures ++ VerifySpec.failed_checks
                     (VerifySpec.run_all env (CsvRunner.now w)
                        (VerifySpec.configured_checks cmds keys)),
       VerifySpec.after_checks w (VerifySpec.configured_checks cmds keys)).
Proof.
  induction keys as [|key keys IH]; intros failures w.
  - cbn. rewrite app_nil_r. unfold VerifySpec.after_checks. cbn.
    rewrite Nat.add_0_r, app_nil_r. by destruct w.
  - cbn [CsvRunner.run_verify_from VerifySpec.configured_checks map List.filter].
    destruct (Py.nonempty (Py.strip (default "" (cmds !! key)))) eqn:Hne; cbn [negb].
    + unfold CsvRunner.run_bash.
      cbn [VerifySpec.run_all VerifySpec.failed_checks omap list_omap fst snd].
      fold (VerifySpec.configured_checks cmds keys).
      destruct (negb (CsvRunner.returncode
                        (CsvRunner.shell env (CsvRunner.now w)
                           (Py.strip (default "" (cmds !! key)))) =? 0)%Z) eqn:Hrc.
      * rewrite IH. cbn. rewrite <- app_assoc. f_equal.
        unfold VerifySpec.after_checks. cbn. f_equal; [lia|].
        by rewrite <- app_assoc.
      * rewrite IH. cbn. f_equal.
        unfold VerifySpec.after_checks. cbn. f_equal; [lia|].
        by rewrite <- app_assoc.
    + fold (VerifySpec.configured_checks cmds keys). apply IH.
Qed.


(** ** Persistence of the state document *)

Lemma string_app_inv_head (d a b : string) : d +:+ a = d +:+ b -> a = b.
Proof.
  induction d as [|c d IH]; cbn; intros H; [exact H|].
  injection H as H. by apply IH.
Qed.

Lemma string_app_empty_l (s : string) : "" +:+ s = s.
Proof. reflexivity. Qed.

(** The temporary file of agentflow's state file is another file. *)
Lemma agentflow_tmp_differs (cfg : Agentflow.Engine) :
  Fs.path_str (Fs.with_suffix (Agentflow.state_path cfg) ".tmp")
  <> Fs.path_str (Agentflow.state_path cfg).
Proof.
  unfold Fs.path_str. cbn. intros H.
  apply string_app_inv_head in H. discriminate H.
Qed.

(** agentflow.py, [save_state]: whenever the process is killed, the state
    file holds either what it held before or the complete new text. *)
Lemma agentflow_save_state_atomic (path : Fs.Path) (text : string)
    (files files' : gmap string string) :
  Fs.path_str (Fs.with_suffix path ".tmp") <> Fs.path_str path ->
  Fs.crash_point (Agentflow.save_state_ops path text) files files' ->
  files' !! Fs.path_str path = files !! Fs.path_str path
  \/ files' !! Fs.path_str path = Some text.
Proof.
  intros Hne Hc. unfold Agentflow.save_state_ops, Fs.write_text in Hc. cbn in Hc.
  set (tmp := Fs.path_str (Fs.with_suffix path ".tmp")) in *.
  set (p := Fs.path_str path) in *.
  inversion Hc as [| o ops f f' H1 |]; subst; [by left|]. cbn in H1.
  inversion H1 as [| o ops f f' H2 |]; subst; [by left|]. cbn in H2.
  inversion H2 as [| o ops f f' H3 | f d1 d2 ops f0]; subst.
  - left. by rewrite lookup_insert_ne.
  - cbn in H3. rewrite lookup_insert_eq in H3. cbn in H3.
    inversion H3 as [| o ops f f' H4 |]; subst.
    + left. by rewrite !lookup_insert_ne.
    + cbn in H4. rewrite lookup_insert_eq in H4.
      inversion H4; subst. right. by rewrite lookup_insert_eq.
  - left. cbn. by rewrite !lookup_insert_ne.
Qed.

(** C3. agent_csv_runner.py writes its state file in place: [write_json]
    uses no temporary file and no rename, and a kill right after the file
    was opened leaves an empty state file, which is not the document
    being written. *)
Theorem write_json_not_atomic (path : Fs.Path) (text : string)
    (files : gmap string string) :
  Forall (fun o => forall a b, o <> Fs.Replace a b) (CsvRunner.write_json_ops path text)
  /\ exists files',
       Fs.crash_point (CsvRunner.write_json_ops path text) files files'
       /\ files' !! Fs.path_str path = Some ""
       /\ "" <> text +:+ "
".
Proof.
  split.
  - unfold CsvRunner.write_json_ops, Fs.write_text. cbn.
    repeat constructor; intros a b H; discriminate H.
  - exists (<[Fs.path_str path := ""]> files). split; [|split].
    + unfold CsvRunner.write_json_ops, Fs.write_text. cbn.
      apply Fs.crash_later. cbn. apply Fs.crash_later. cbn. apply Fs.crash_here.
    + apply lookup_insert_eq.
    + destruct text; discriminate.
Qed.

(** ** Loading a corrupt state file (agentflow.py) *)

(** C10. When the state file exists and does not parse, [load_state]
    copies it to a time-stamped backup next to it and returns the default
    state (cursor at task 0, phase main, after-index 0, no tasks); a run
    started with the resume option then goes through the task list from
    that cursor instead of failing. *)
Theorem load_state_corrupt_restarts (env : Agentflow.Env) (cfg : Agentflow.Engine)
    (w : Agentflow.World) (text : string) (iters pollfuel : nat)
    (args : Agentflow.Args) (rows : list Agentflow.Row)
    (primary : Agentflow.engine_name) (fb : list Agentflow.engine_name) :
  Agentflow.files w !! Fs.path_str (Agentflow.state_path cfg) = Some text ->
  Agentflow.loads_state env text = Agentflow.Malformed ->
  Agentflow.normalize_engine (Agentflow.arg_engine args) = Py.Ok primary ->
  Agentflow.normalize_all (Agentflow.arg_fallback args) = Py.Ok fb ->
  rows <> [] ->
  Agentflow.arg_resume args = true ->
  Agentflow.arg_start_task args = None ->
  let backup :=
    Agentflow.app_dir cfg +:+ "/" +:+ "state.corrupt."
    +:+ Agentflow.now_stamp env (Agentflow.now w) +:+ ".json" in
  let w' := {| Agentflow.now := Agentflow.now w;
               Agentflow.markers := Agentflow.markers w;
               Agentflow.files := <[backup := text]> (Agentflow.files w);
               Agentflow.trace := Agentflow.trace w |} in
  Agentflow.load_state env (Agentflow.state_path cfg) w
    = (Agentflow.StateDoc Agentflow.State_default, w')
  /\ Agentflow.get_cursor Agentflow.State_default
     = {| Agentflow.task_index := 0; Agentflow.phase := "main";
          Agentflow.after_index := 0 |}
  /\ Agentflow.tasks Agentflow.State_default = ∅
  /\ Agentflow.main env cfg iters pollfuel args (Some rows) w
     = Agentflow.main_loop env cfg iters pollfuel
         (Agentflow.tasks_of_rows env 0 rows) (Agentflow.arg_after args) primary
         (List.filter (fun e => negb (Agentflow.engine_eqb e primary)) fb)
         Agentflow.State_default
         {| Agentflow.task_index := 0; Agentflow.phase := "main";
            Agentflow.after_index := 0 |} w'.
Proof.
  intros Hfile Hbad Hprim Hfb Hrows Hres Hstart backup w'.
  assert (Hload : Agentflow.load_state env (Agentflow.state_path cfg) w
                  = (Agentflow.StateDoc Agentflow.State_default, w')).
  { unfold Agentflow.load_state. rewrite Hfile, Hbad.
    unfold Agentflow.do_ops. cbn. rewrite Hfile. reflexivity. }
  split; [exact Hload|]. split; [reflexivity|]. split; [reflexivity|].
  unfold Agentflow.main. rewrite Hprim, Hfb. cbn.
  destruct rows as [|r rows]; [done|].
  cbn [Agentflow.tasks_of_rows]. rewrite Hload, Hstart, Hres. reflexivity.
Qed.

Lemma load_state_corrupt_restarts_witness :
  Agentflow.load_state Sample.af_failing_env (Agentflow.state_path Sample.af_cfg)
    (Sample.af_world {[ ".agentflow/state.json" := "{not json" ]})
  = (Agentflow.StateDoc Agentflow.State_default,
     {| Agentflow.now := 0; Agentflow.markers := Ctl.no_markers;
        Agentflow.files :=
          <[".agentflow/state.corrupt.20260101-000000.json" := "{not json"]>
            {[ ".agentflow/state.json" := "{not json" ]};
        Agentflow.trace := [] |}).
Proof.
  refine (proj1 (load_state_corrupt_restarts Sample.af_failing_env Sample.af_cfg
                   (Sample.af_world {[ ".agentflow/state.json" := "{not json" ]})
                   "{not json" 1 1 Sample.af_args [Sample.af_row "T1-1"]
                   Agentflow.codex [Agentflow.claude] _ _ _ _ _ _ _)).
  - reflexivity.
  - reflexivity.
  - reflexivity.
  - reflexivity.
  - discriminate.
  - reflexivity.
  - reflexivity.
Defined.

(** ** Waiting on the pause marker *)

(** agentflow.py: while the pause marker stays, the wait goes on,
    whatever happens to the stop marker. *)
Lemma agentflow_wait_needs_pause_removed (env : Agentflow.Env) :
  (forall t m, Ctl.pause_present (Agentflow.user env t m) = true) ->
  forall fuel w, Agentflow.wait_if_paused env fuel w = None.
Proof.
  intros Hp fuel. induction fuel as [|fuel IH]; intros w; [reflexivity|].
  cbn. rewrite Hp. apply IH.
Qed.

(** agentflow.py: without a pause marker the wait returns at once. *)
Lemma agentflow_wait_unpaused (env : Agentflow.Env) (fuel : nat) (w : Agentflow.World) :
  Ctl.pause_present (Agentflow.user env (Agentflow.now w) (Agentflow.markers w)) = false ->
  Agentflow.wait_if_paused env (S fuel) w = Some (snd (Agentflow.observe env w)).
Proof. intros Hp. cbn. by rewrite Hp. Qed.

(** agent_csv_runner.py: the wait returns on the first poll that finds
    the pause marker gone or the stop marker there. *)
Lemma csv_wait_returns_on_stop (env : CsvRunner.Env) (fuel : nat) (w : CsvRunner.World) :
  (forall t m, Ctl.stop_present (CsvRunner.user env t m) = true) ->
  exists w', CsvRunner.wait_if_paused env (S fuel) w = Some w'.
Proof.
  intros Hs. cbn.
  destruct (Ctl.pause_present (CsvRunner.user env (CsvRunner.now w) (CsvRunner.markers w)));
    [|by eexists].
  rewrite Hs. by eexists.
Qed.

(** C4. agentflow.py, with the pause and the stop marker both present and
    left in place: [ControlFiles.wait_if_paused] is still polling after
    any number of polls; the stop marker does not end the wait. *)
Theorem agentflow_pause_wait_ignores_stop (fuel : nat) (w : Agentflow.World) :
  Ctl.stop_present (fst (Agentflow.observe Sample.af_stuck_env w)) = true
  /\ Agentflow.wait_if_paused Sample.af_stuck_env fuel w = None.
Proof.
  split; [reflexivity|].
  by apply agentflow_wait_needs_pause_removed.
Qed.

(** ** The order of the engines for a follow-up prompt (agentflow.py) *)

Lemma after_engine_order_repeats_primary (ts : Agentflow.TaskState)
    (primary : Agentflow.engine_name) (fb : list Agentflow.engine_name) :
  Agentflow.last_ok_engine ts = Some primary \/ Agentflow.last_ok_engine ts = None ->
  exists rest, Agentflow.after_engine_order ts primary fb = primary :: primary :: rest.
Proof.
  intros [H|H]; unfold Agentflow.after_engine_order; rewrite H; cbn; by eexists.
Qed.

(** C9. agentflow.py, primary codex with fallbacks claude and gemini, a
    task whose MAIN step succeeded with codex, one follow-up prompt, every
    tool failing: the follow-up is tried with codex, with codex again,
    then with claude and gemini. *)
Theorem after_prompt_retries_primary :
  match Agentflow.run_task Sample.af_failing_env Sample.af_cfg 1 (Sample.af_task "T1-1")
          ["tidy up"] Agentflow.codex [Agentflow.claude; Agentflow.gemini]
          Sample.af_state_after_main
          (Agentflow.cursor Sample.af_state_after_main) (Sample.af_world ∅) with
  | Py.Returned (_, _, w') => Sample.attempted (Agentflow.trace w')
  | _ => []
  end
  = [("after1", Agentflow.codex); ("after1", Agentflow.codex);
     ("after1", Agentflow.claude); ("after1", Agentflow.gemini)].
Proof. vm_compute. reflexivity. Qed.

(** ** A reported error in the final payload *)

(** agentflow.py, [run_claude]. *)
Lemma agentflow_run_claude_reported_error (env : Agentflow.Env) (inv : Agentflow.Invocation)
    (w : Agentflow.World) (out : string) (kv : list (string * Py.json)) :
  Agentflow.which env (Agentflow.now w) Agentflow.claude = true ->
  Agentflow.process env (Agentflow.now w) inv = (0%Z, out) ->
  Agentflow.try_parse_json_object (Agentflow.rt env) out = Some (Py.JObj kv) ->
  Py.dict_get kv "is_error" = Py.JBool true \/ Py.dict_get kv "subtype" = Py.JStr "error" ->
  Agentflow.ok (fst (Agentflow.run_claude env inv w)) = false
  /\ Agentflow.exit_code (fst (Agentflow.run_claude env inv w)) = 0%Z.
Proof.
  intros Hw Hp Hj Herr. unfold Agentflow.run_claude, Agentflow.run_process.
  rewrite Hw, Hp. cbn. rewrite Hj.
  assert (Hrep : Agentflow.claude_reports_error kv = true).
  { unfold Agentflow.claude_reports_error. destruct Herr as [-> | ->]; [reflexivity|].
    by destruct (Py.dict_get kv "is_error") as [| [] | | | |]. }
  rewrite Hrep. by cbn.
Qed.

(** agentflow.py, [run_gemini]. *)
Lemma agentflow_run_gemini_reported_error (env : Agentflow.Env) (inv : Agentflow.Invocation)
    (w : Agentflow.World) (out : string) (kv : list (string * Py.json)) :
  Agentflow.which env (Agentflow.now w) Agentflow.gemini = true ->
  Agentflow.process env (Agentflow.now w) inv = (0%Z, out) ->
  Agentflow.try_parse_json_object (Agentflow.rt env) out = Some (Py.JObj kv) ->
  Py.truthy (Py.dict_get kv "error") = true ->
  Agentflow.ok (fst (Agentflow.run_gemini env inv w)) = false
  /\ Agentflow.exit_code (fst (Agentflow.run_gemini env inv w)) = 0%Z.
Proof.
  intros Hw Hp Hj Herr. unfold Agentflow.run_gemini, Agentflow.run_process.
  rewrite Hw, Hp. cbn. rewrite Hj, Herr. by cbn.
Qed.

(** agent_csv_runner.py, [claude_run]: the result handed back is the
    one of the process, whatever the payload says. *)
Lemma csv_claude_run_keeps_returncode (env : CsvRunner.Env) (cfg : CsvRunner.Config)
    (stage task_id : string) (S : CsvRunner.TaskSessions) (w : CsvRunner.World) :
  exists c, fst (fst (fst (CsvRunner.claude_run env cfg stage task_id S w)))
            = CsvRunner.tool env (CsvRunner.now w) c.
Proof. unfold CsvRunner.claude_run, CsvRunner.run_tool. cbn. by eexists. Qed.

(** C6. agent_csv_runner.py, [claude_run] with JSON output: the process
    exits with code 0 and prints a payload whose [is_error] is true; the
    result comes back with return code 0, and the implement loop takes
    claude as the agent that succeeded. *)
Theorem csv_claude_run_accepts_reported_error :
  let env := Sample.csv_env 0 Sample.claude_error_payload in
  Py.json_loads (CsvRunner.rt env) Sample.claude_error_payload
    = Py.Ok (Py.JObj [("is_error", Py.JBool true); ("session_id", Py.JStr "s1")])
  /\ CsvRunner.returncode
       (fst (fst (fst (CsvRunner.claude_run env Sample.csv_cfg "impl" "T1-1"
                         (CsvRunner.sessions Sample.csv_ctx) Sample.csv_world)))) = 0%Z
  /\ match CsvRunner.impl_loop env Sample.csv_cfg 1 "T1-1" [CsvRunner.claude]
             Sample.csv_ctx with
     | Py.Returned (r, _) => r
     | _ => CsvRunner.ImplNone
     end = CsvRunner.ImplUsed CsvRunner.claude.
Proof. repeat split; vm_compute; reflexivity. Qed.

(** ** The streamed gemini variant (agent_csv_runner.py) *)

Lemma handle_line_spec (rt : Py.Runtime) (line : string) (h : CsvRunner.StreamState) :
  StreamSpec.line_ok rt line = true ->
  exists h', CsvRunner.handle_line rt line h = Py.Ok h'
    /\ CsvRunner.ss_session_id h'
       = match StreamSpec.init_session rt line with
         | Some s => Some s
         | None => CsvRunner.ss_session_id h
         end
    /\ CsvRunner.ss_result_status h'
       = (if StreamSpec.is_event rt "result" line
          then Some (StreamSpec.event_status rt line)
          else CsvRunner.ss_result_status h)
    /\ (match CsvRunner.ss_errors h' with [] => false | _ => true end
        = (match CsvRunner.ss_errors h with [] => false | _ => true end
           || StreamSpec.is_event rt "error" line)).
Proof.
  unfold StreamSpec.line_ok, CsvRunner.handle_line, StreamSpec.init_session,
    StreamSpec.is_event, StreamSpec.event_status.
  intros Hok.
  destruct (Py.json_loads rt line) as [v|e].
  2:{ exists h. repeat split; [by destruct (CsvRunner.ss_errors h)]. }
  destruct v as [| | | | |kv]; try discriminate Hok.
  destruct (Py.dict_get kv "type") as [| | |ty| |] eqn:Hty; cbn;
    try (exists h; repeat split; by destruct (CsvRunner.ss_errors h)).
  destruct (String.eqb ty "init") eqn:Hinit.
  { apply String.eqb_eq in Hinit. subst ty. cbn.
    destruct (Py.truthy (Py.dict_get kv "session_id"));
      eexists; (split; [reflexivity|]); cbn; repeat split;
      by destruct (CsvRunner.ss_errors h). }
  destruct (String.eqb ty "error") eqn:Herr.
  { apply String.eqb_eq in Herr. subst ty. cbn.
    eexists; (split; [reflexivity|]); cbn; repeat split.
    destruct (CsvRunner.ss_errors h); reflexivity. }
  destruct (String.eqb ty "message") eqn:Hmsg.
  { apply String.eqb_eq in Hmsg. subst ty. cbn.
    destruct (CsvRunner.json_is (Py.dict_get kv "role") "assistant");
      eexists; (split; [reflexivity|]); cbn; repeat split;
      by destruct (CsvRunner.ss_errors h). }
  destruct (String.eqb ty "result") eqn:Hres.
  { eexists; (split; [reflexivity|]); cbn; repeat split.
    by destruct (CsvRunner.ss_errors h). }
  exists h. repeat split. by destruct (CsvRunner.ss_errors h).
Qed.

Lemma handle_lines_spec (rt : Py.Runtime) (lines : list string) :
  forallb (StreamSpec.line_ok rt) lines = true ->
  forall h, exists h', CsvRunner.handle_lines rt lines h = Py.Ok h'
    /\ CsvRunner.ss_session_id h'
       = fold_left (fun acc line => match StreamSpec.init_session rt line with
                                    | Some s => Some s
                                    | None => acc
                                    end) lines (CsvRunner.ss_session_id h)
    /\ CsvRunner.ss_result_status h'
       = fold_left (fun acc line => if StreamSpec.is_event rt "result" line
                                    then Some (StreamSpec.event_status rt line) else acc)
                   lines (CsvRunner.ss_result_status h)
    /\ (match CsvRunner.ss_errors h' with [] => false | _ => true end
        = (match CsvRunner.ss_errors h with [] => false | _ => true end
           || existsb (StreamSpec.is_event rt "error") lines)).
Proof.
  induction lines as [|line lines IH]; intros Hok h.
  - exists h. cbn. repeat split. by rewrite orb_false_r.
  - cbn in Hok. apply andb_prop in Hok as [Hl Hls].
    destruct (handle_line_spec rt line h Hl) as (h1 & E1 & S1 & R1 & X1).
    destruct (IH Hls h1) as (h2 & E2 & S2 & R2 & X2).
    exists h2. cbn [CsvRunner.handle_lines fold_left existsb]. rewrite E1.
    split; [exact E2|]. rewrite S2, R2, X2, S1, R1, X1.
    repeat split. by rewrite orb_assoc.
Qed.

Lemma stream_effective_rc_failed (rc : Z) (h : CsvRunner.StreamState) :
  CsvRunner.ss_errors h <> []
  \/ (exists s, CsvRunner.ss_result_status h = Some s /\ s <> "" /\ s <> "success") ->
  CsvRunner.stream_effective_rc rc h <> 0%Z.
Proof.
  intros H. unfold CsvRunner.stream_effective_rc.
  destruct (rc =? 0)%Z eqn:Hrc; cbn.
  2:{ by apply Z.eqb_neq in Hrc. }
  destruct H as [He | (s & Hs & Hne & Hsucc)].
  - destruct (CsvRunner.ss_errors h); [done|].
    by destruct (match CsvRunner.ss_result_status h with
                 | Some s => _ | None => false end).
  - rewrite Hs. unfold Py.nonempty.
    destruct (String.eqb_spec s ""); [done|].
    destruct (String.eqb_spec s "success"); [done|]. by cbn.
Qed.

(** C1 (as the code has it). With the streamed output format, and every
    output line either not JSON or a JSON object: [gemini_run] returns; a
    non-zero exit code of the process is kept; any [error] event, or a
    last [result] event whose lower-cased status is neither empty nor
    "success", gives a non-zero return code even when the process exited
    with code 0; and the session id handed back and stored is the one of
    the last [init] event carrying a non-empty one (else the id already
    known). *)
Theorem gemini_stream_marks_failure (env : CsvRunner.Env) (cfg : CsvRunner.Config)
    (stage task_id : string) (S : CsvRunner.TaskSessions) (w : CsvRunner.World) :
  let out := CsvRunner.tool env (CsvRunner.now w) (CsvRunner.gemini_call cfg stage task_id S) in
  let lines := CsvRunner.stream_lines (CsvRunner.stdout out) in
  let sid := StreamSpec.captured_session (CsvRunner.rt env) lines
               (CsvRunner.gemini_session_id S) in
  CsvRunner.gemini_outfmt cfg S = "stream-json" ->
  forallb (StreamSpec.line_ok (CsvRunner.rt env)) lines = true ->
  exists rr S' w',
    CsvRunner.gemini_run env cfg stage task_id S w = Py.Ok ((rr, sid), S', w')
    /\ CsvRunner.gemini_session_id S' = sid
    /\ (CsvRunner.returncode out <> 0%Z ->
        CsvRunner.returncode rr = CsvRunner.returncode out)
    /\ (StreamSpec.has_error_event (CsvRunner.rt env) lines = true ->
        CsvRunner.returncode rr <> 0%Z)
    /\ (forall s, StreamSpec.terminal_status (CsvRunner.rt env) lines = Some s ->
                  s <> "" -> s <> "success" -> CsvRunner.returncode rr <> 0%Z).
Proof.
  intros out lines sid Hfmt Hok.
  unfold CsvRunner.gemini_run. rewrite Hfmt. cbn [String.eqb Ascii.eqb Bool.eqb].
  change (String.eqb "stream-json" "stream-json") with true. cbn iota.
  unfold CsvRunner.run_tool.
  fold out. fold lines.
  destruct (handle_lines_spec (CsvRunner.rt env) lines Hok
              {| CsvRunner.ss_session_id := CsvRunner.gemini_session_id S;
                 CsvRunner.ss_result_status := None;
                 CsvRunner.ss_errors := [];
                 CsvRunner.ss_assistant_chunks := [] |})
    as (h & Eh & Hs & Hr & Hx).
  cbn in Hs, Hr, Hx. rewrite Eh.
  fold (StreamSpec.captured_session (CsvRunner.rt env) lines (CsvRunner.gemini_session_id S))
    in Hs. fold sid in Hs.
  fold (StreamSpec.terminal_status (CsvRunner.rt env) lines) in Hr.
  fold (StreamSpec.has_error_event (CsvRunner.rt env) lines) in Hx.
  rewrite Hs.
  eexists _, _, _. split; [reflexivity|]. cbn.
  split; [reflexivity|]. split; [|split].
  - intros Hrc. unfold CsvRunner.stream_effective_rc.
    destruct (CsvRunner.returncode out =? 0)%Z eqn:E; [|reflexivity].
    by apply Z.eqb_eq in E.
  - intros He. apply stream_effective_rc_failed. left.
    rewrite He in Hx. by destruct (CsvRunner.ss_errors h).
  - intros s Hst Hne Hsucc. apply stream_effective_rc_failed. right.
    exists s. rewrite Hr. done.
Qed.

Lemma gemini_stream_marks_failure_witness :
  let env := Sample.csv_env 0 (Sample.init_line +:+ Sample.nl +:+ Sample.error_line
                               +:+ Sample.nl) in
  exists rr S' w',
    CsvRunner.gemini_run env Sample.csv_cfg "impl" "T1-1"
      (CsvRunner.sessions Sample.csv_ctx) Sample.csv_world
    = Py.Ok ((rr, Some "abc"), S', w')
    /\ CsvRunner.returncode rr <> 0%Z.
Proof.
  intros env.
  destruct (gemini_stream_marks_failure env Sample.csv_cfg "impl" "T1-1"
              (CsvRunner.sessions Sample.csv_ctx) Sample.csv_world)
    as (rr & S' & w' & Hrun & _ & _ & Herr & _).
  - reflexivity.
  - reflexivity.
  - exists rr, S', w'. split; [exact Hrun|]. apply Herr. reflexivity.
Defined.

(** C1, the claim as worded, on the streamed variant with the process
    exiting with code 0: a last [result] event whose status is the empty
    text, or "SUCCESS" in capitals, is not "success", and yet the result
    comes back with return code 0. *)
Lemma gemini_stream_blank_status_accepted :
  (let env := Sample.csv_env 0 (Sample.result_blank_line +:+ Sample.nl) in
   Py.json_loads (CsvRunner.rt env) Sample.result_blank_line
     = Py.Ok (Py.JObj [("type", Py.JStr "result"); ("status", Py.JStr "")])
   /\ CsvRunner.gemini_outfmt Sample.csv_cfg (CsvRunner.sessions Sample.csv_ctx)
      = "stream-json"
   /\ match CsvRunner.gemini_run env Sample.csv_cfg "impl" "T1-1"
              (CsvRunner.sessions Sample.csv_ctx) Sample.csv_world with
      | Py.Ok ((rr, _), _, _) => CsvRunner.returncode rr
      | Py.Raise _ => 1%Z
      end = 0%Z)
  /\
  (let env := Sample.csv_env 0 (Sample.result_upper_line +:+ Sample.nl) in
   Py.json_loads (CsvRunner.rt env) Sample.result_upper_line
     = Py.Ok (Py.JObj [("type", Py.JStr "result"); ("status", Py.JStr "SUCCESS")])
   /\ match CsvRunner.gemini_run env Sample.csv_cfg "impl" "T1-1"
              (CsvRunner.sessions Sample.csv_ctx) Sample.csv_world with
      | Py.Ok ((rr, _), _, _) => CsvRunner.returncode rr
      | Py.Raise _ => 1%Z
      end = 0%Z).
Proof. repeat split; vm_compute; reflexivity. Qed.

(** ** The task state machine of agentflow.py *)

Section AgentflowRun.
Import Agentflow.
Variables (env : Env) (cfg : Engine) (task : Task).

Lemma observe_trace (w : World) : trace (snd (observe env w)) = trace w.
Proof. reflexivity. Qed.


Lemma wait_if_paused_trace (fuel : nat) :
  forall w w', wait_if_paused env fuel w = Some w' ->
    exists new, trace w' = trace w ++ new /\ Forall (fun e => e = ESleep) new.
Proof.
  induction fuel as [|fuel IH]; intros w w' H; [discriminate|].
  cbn in H.
  destruct (Ctl.pause_present (user env (now w) (markers w))).
  - apply IH in H as (new & Ht & Hall). cbn in Ht.
    exists (ESleep :: new). split; [by rewrite Ht, <- app_assoc|].
    by constructor.
  - injection H as <-. exists []. split; [by rewrite app_nil_r|constructor].
Qed.

Lemma save_state_trace (p : Fs.Path) (st : State) (w : World) :
  trace (save_state env p st w) = trace w.
Proof. reflexivity. Qed.

Lemma run_with_engine_trace (L : Locals) (eng : engine_name) (ph step : string) (w : World) :
  trace (snd (run_with_engine env cfg task L eng ph step w))
  = trace w ++ EAttempt (invocation_of cfg task L eng ph step)
      :: (if which env (now w) eng
          then [ESpawn (invocation_of cfg task L eng ph step)] else []).
Proof.
  unfold run_with_engine. set (inv := invocation_of cfg task L eng ph step).
  destruct eng; cbn;
    [unfold run_codex | unfold run_claude | unfold run_gemini];
    unfold run_process; cbn;
    match goal with |- context [which env ?t ?e] => destruct (which env t e) end; cbn;
    try reflexivity;
    destruct (process env (now w) inv) as [rc out]; cbn.
  - by rewrite <- app_assoc.
  - destruct (try_parse_json_object (rt env) out) as [[| | | | |kv]|]; cbn;
      by rewrite <- app_assoc.
  - destruct (try_parse_json_object (rt env) out) as [[| | | | |kv]|]; cbn;
      by rewrite <- app_assoc.
Qed.

Lemma run_with_engine_only_step (L : Locals) (eng : engine_name) (ph step : string)
    (w : World) :
  exists new,
    trace (snd (run_with_engine env cfg task L eng ph step w)) = trace w ++ new
    /\ Forall (FlowSpec.only_step ph step) new
    /\ Exists (FlowSpec.is_attempt ph step) new.
Proof.
  rewrite run_with_engine_trace. eexists. split; [reflexivity|]. split.
  - destruct (which env (now w) eng); repeat constructor; done.
  - apply Exists_cons_hd. by eexists.
Qed.

Lemma record_attempt_spec (ph hphase : string) (aidx : option nat) (eng : engine_name)
    (r : RunResult) (L : Locals) (ts : TaskState) (w : World) :
  exists L' ts',
    record_attempt task ph hphase aidx eng r L ts w
      = (L', ts', emit (EHandoff (task_id task) hphase eng (ok r) (exit_code r)) w)
    /\ history ts'
       = history ts ++ [{| sr_ts := now w; sr_phase := ph; sr_after_index := aidx;
                           sr_engine := eng; sr_ok := ok r;
                           sr_exit_code := exit_code r |}].
Proof.
  unfold record_attempt.
  destruct (engine_eqb eng claude && Py.truthy (session_id r));
    destruct (engine_eqb eng codex);
    destruct (engine_eqb eng gemini && negb (ok r)
              && Py.contains "INVALID_ARGUMENT" (stdout r));
    cbn; eexists _, _; split; reflexivity.
Qed.

Lemma attempts_spec (ph step hphase : string) (aidx : option nat) :
  forall (order : list engine_name) (last : option RunResult)
         (L : Locals) (ts : TaskState) (w : World),
  exists res L' ts' w' recs new,
    attempts env cfg task ph step hphase aidx order last L ts w = (res, L', ts', w')
    /\ history ts' = history ts ++ recs
    /\ trace w' = trace w ++ new
    /\ Forall (FlowSpec.only_step ph step) new
    /\ Forall (FlowSpec.entry_from env cfg task ph step aidx) recs
    /\ ((order = [] /\ res = last /\ recs = [])
        \/ (exists L0 e w0, In e order
                            /\ res = Some (fst (run_with_engine env cfg task L0 e ph step w0)))
           /\ recs <> [] /\ Exists (FlowSpec.is_attempt ph step) new).
Proof.
  induction order as [|eng rest IH]; intros last L ts w.
  - exists last, L, ts, w, [], []. cbn. rewrite !app_nil_r.
    split_and!; [done | done | done | constructor | constructor | by left].
  - cbn [attempts].
    destruct (run_with_engine env cfg task L eng ph step w) as [r w1] eqn:E.
    assert (Er : r = fst (run_with_engine env cfg task L eng ph step w)) by by rewrite E.
    destruct (run_with_engine_only_step L eng ph step w) as (new1 & Ht1 & Hall1 & Hex1).
    rewrite E in Ht1. cbn in Ht1.
    destruct (record_attempt_spec ph hphase aidx eng r L ts w1) as (L2 & ts2 & Hrec & Hh).
    rewrite Hrec.
    set (rec := {| sr_ts := now w1; sr_phase := ph; sr_after_index := aidx;
                   sr_engine := eng; sr_ok := ok r; sr_exit_code := exit_code r |}) in *.
    assert (Hentry : FlowSpec.entry_from env cfg task ph step aidx rec).
    { split; [done|]. split; [done|]. exists L, w. cbn. by rewrite <- Er. }
    destruct (ok r) eqn:Hok.
    + eexists _, _, _, _, [rec], (new1 ++ [_]). split; [reflexivity|]. cbn.
      rewrite Ht1, <- app_assoc. split_and!; [done | done | | | ].
      * apply Forall_app. split; [done|]. repeat constructor.
      * by constructor.
      * right. split_and!; [| done |].
        -- exists L, eng, w. split; [by left|]. by rewrite <- Er.
        -- apply Exists_app. by left.
    + destruct (IH (Some r) L2 ts2
                   (emit (EHandoff (task_id task) hphase eng (ok r) (exit_code r)) w1))
        as (res & L' & ts' & w' & recs & new & Hrun & Hh' & Ht' & Hall' & Hrecs' & Hres).
      rewrite Hok in Hrun. rewrite Hrun.
      eexists res, L', ts', w', (rec :: recs), (new1 ++ [_] ++ new).
      split; [reflexivity|]. rewrite Hh', Hh, Ht'. cbn. rewrite Ht1.
      rewrite <- !app_assoc. split_and!; [done | done | | | ].
      * apply Forall_app. split; [done|]. by constructor.
      * by constructor.
      * right. split_and!; [| done |].
        -- destruct Hres as [(-> & -> & _) | ((L0 & e & w0 & Hin & ->) & _)].
           ++ exists L, eng, w. split; [by left|]. by rewrite <- Er.
           ++ exists L0, e, w0. split; [by right|done].
        -- apply Exists_app. by left.
Qed.

Lemma only_main_no_after (new : list Effect) :
  Forall (FlowSpec.only_step "main" "run") new -> Forall FlowSpec.no_after_call new.
Proof.
  intros HF. eapply Forall_impl; [exact HF|].
  intros [inv|inv| |] H; cbn in *; try done;
    destruct H as [H _]; rewrite H; discriminate.
Qed.

Lemma sleeps_no_after (new : list Effect) :
  Forall (fun e => e = ESleep) new -> Forall FlowSpec.no_after_call new.
Proof. intros HF. eapply Forall_impl; [exact HF|]. by intros e ->. Qed.

(** The MAIN step when every engine of the order fails. *)
Lemma run_task_main_exhausted (pollfuel : nat) (after_prompts : list string)
    (primary : engine_name) (fb : list engine_name) (st : State) (cur : Cursor)
    (w w1 : World) (re : option engine_name) :
  phase cur = "main" ->
  row_engine_of task = Py.Ok re ->
  wait_if_paused env pollfuel w = Some w1 ->
  Ctl.stop_present (user env (now w1) (markers w1)) = false ->
  (forall L e w0, In e (engine_order re primary fb) ->
     ok (fst (run_with_engine env cfg task L e "main" "run" w0)) = false) ->
  exists st' w' ts' new,
    run_task env cfg pollfuel task after_prompts primary fb st cur w
      = Py.Returned (st', next_task_cursor cur, w')
    /\ cursor st' = next_task_cursor cur
    /\ tasks st' !! task_id task = Some ts'
    /\ status ts' = Some "failed"
    /\ trace w' = trace w ++ new
    /\ Forall FlowSpec.no_after_call new.
Proof.
  intros Hph Hre Hwait Hstop Hfail. unfold run_task.
  destruct (ensure_task_state st (task_id task)) as [st0 ts0].
  rewrite Hre, Hph. cbn [String.eqb Ascii.eqb Bool.eqb].
  change (String.eqb "main" "main") with true. cbn iota.
  rewrite Hwait. unfold should_stop, observe. rewrite Hstop.
  destruct (wait_if_paused_trace pollfuel w w1 Hwait) as (sl & Hsl & Hsleep).
  match goal with |- context [attempts env cfg task "main" "run" "main" None ?o None ?L ?t ?ww] =>
    destruct (attempts_spec "main" "run" "main" None o None L t ww)
      as (res & L' & ts' & w' & recs & new & Hrun & Hh & Ht & Hall & Hrecs & Hres)
  end.
  rewrite Hrun. cbn in Ht.
  destruct Hres as [(Hnil & _) | ((L0 & e & w0 & Hin & ->) & _)].
  { unfold engine_order in Hnil. discriminate Hnil. }
  rewrite (Hfail L0 e w0 Hin). cbn.
  eexists _, _, _, (sl ++ new). split; [reflexivity|]. cbn.
  split_and!; [done | apply lookup_insert_eq | done | | ].
  - by rewrite Ht, Hsl, <- app_assoc.
  - apply Forall_app. split; [by apply sleeps_no_after | by apply only_main_no_after].
Qed.

(** One round of the loop of [main]. *)
Lemma main_loop_next (iters pollfuel : nat) (task_list : list Task)
    (after_prompts : list string) (primary : engine_name) (fb : list engine_name)
    (st st' : State) (cur cur' : Cursor) (w w' : World) :
  task_list !! task_index cur = Some task ->
  run_task env cfg pollfuel task after_prompts primary fb st cur w
    = Py.Returned (st', cur', w') ->
  Ctl.stop_present (user env (now w') (markers w')) = false ->
  main_loop env cfg (S iters) pollfuel task_list after_prompts primary fb st cur w
  = main_loop env cfg iters pollfuel task_list after_prompts primary fb st' cur'
      (snd (observe env (save_state env (state_path cfg) st' w'))).
Proof.
  intros Hl Hrun Hstop. cbn [main_loop]. rewrite Hl, Hrun.
  unfold should_stop, observe. cbn. by rewrite Hstop.
Qed.

End AgentflowRun.

(** ** The row loop of agent_csv_runner.py *)

Section CsvRun.
Import CsvRunner.
Variables (env : Env) (cfg : Config).

Lemma csv_wait_if_paused_trace (fuel : nat) :
  forall w w', wait_if_paused env fuel w = Some w' ->
    exists new, trace w' = trace w ++ new /\ Forall (fun e => e = ESleep) new.
Proof.
  induction fuel as [|fuel IH]; intros w w' H; [discriminate|].
  cbn in H.
  destruct (Ctl.pause_present (user env (now w) (markers w))).
  - match type of H with
    | context [Ctl.stop_present ?m] => destruct (Ctl.stop_present m)
    end.
    + injection H as <-. exists []. split; [by rewrite app_nil_r|constructor].
    + apply IH in H as (new & Ht & Hall). cbn in Ht.
      exists (ESleep :: new). split; [by rewrite Ht, <- app_assoc|]. by constructor.
  - injection H as <-. exists []. split; [by rewrite app_nil_r|constructor].
Qed.

(** A checkpoint only looks at the markers and sleeps. *)
Lemma checkpoint_frame (fuel : nat) (c c1 : Ctx) (b : bool) :
  checkpoint env fuel c = Py.Returned (b, c1) ->
  c1 = with_world c (world c1)
  /\ exists new, trace (world c1) = trace (world c) ++ new
                 /\ Forall (fun e => e = ESleep) new.
Proof.
  unfold checkpoint. intros H.
  destruct (wait_if_paused env fuel (world c)) as [w1|] eqn:Hw; [|discriminate].
  unfold stop_requested, observe in H. cbn in H. injection H as <- <-.
  split; [reflexivity|]. cbn.
  by apply csv_wait_if_paused_trace in Hw.
Qed.

(** A stage runs one agent tool, for that stage. *)
Lemma run_stage_trace (task_id : string) (a : agent) (stage : string)
    (c c1 : Ctx) (rr : RunResult) :
  run_stage env cfg task_id a stage c = Py.Returned (rr, c1) ->
  done_ids c1 = done_ids c
  /\ exists call, trace (world c1) = trace (world c) ++ [ETool call]
                  /\ c_stage call = stage /\ c_task call = task_id.
Proof.
  unfold run_stage. destruct a.
  - unfold codex_run, run_tool. cbn. intros H. injection H as <- <-. cbn.
    split; [done|]. by eexists.
  - unfold claude_run, run_tool. cbn. intros H. injection H as <- <-. cbn.
    split; [done|]. by eexists.
  - unfold gemini_run, run_tool.
    destruct (String.eqb (gemini_outfmt cfg (sessions c)) "stream-json").
    + cbn. destruct (handle_lines _ _ _); [|discriminate].
      intros H. injection H as <- <-. cbn. split; [done|]. by eexists.
    + cbn. intros H. injection H as <- <-. cbn. split; [done|]. by eexists.
Qed.

(** The implement loop when every agent of the order fails. *)
Lemma impl_loop_exhausted (fuel : nat) (task_id : string) :
  (forall c0, exists c1, checkpoint env fuel c0 = Py.Returned (false, c1)) ->
  forall (order : list agent) (c : Ctx),
    (forall a c0, In a order ->
       exists rr c1, run_stage env cfg task_id a "impl" c0 = Py.Returned (rr, c1)
                     /\ returncode rr <> 0%Z) ->
    exists c' new,
      impl_loop env cfg fuel task_id order c = Py.Returned (ImplNone, c')
      /\ done_ids c' = done_ids c
      /\ trace (world c') = trace (world c) ++ new
      /\ Forall (RunnerSpec.only_stage "impl") new.
Proof.
  intros Hchk order. induction order as [|a rest IH]; intros c Hfail.
  - exists c, []. cbn. rewrite app_nil_r. split_and!; [done | done | done | constructor].
  - destruct (Hchk c) as (c1 & Hc1).
    destruct (checkpoint_frame fuel c c1 false Hc1) as (Hfr & sl & Hsl & Hsleep).
    destruct (Hfail a c1 (or_introl eq_refl)) as (rr & c2 & Hrun & Hrc).
    destruct (run_stage_trace task_id a "impl" c1 c2 rr Hrun) as (Hd2 & call & Ht2 & Hst & _).
    destruct (IH (with_world c2 (do_ops (write_json_ops (state_file cfg)
                   (dumps env {| completed_task_ids := sorted (done_ids c2);
                                 doc_claude_sessions := claude_sessions c2;
                                 doc_gemini_sessions := gemini_sessions c2;
                                 updated_at := now (world c2) |})) (world c2))))
      as (c' & new & Hloop & Hd' & Ht' & Hall').
    { intros a' c0 Hin. apply Hfail. by right. }
    exists c', (sl ++ [ETool call] ++ new).
    cbn [impl_loop]. unfold bind at 1. rewrite Hc1.
    unfold bind at 1. rewrite Hrun. unfold bind at 1. unfold persist_state at 1.
    apply Z.eqb_neq in Hrc. rewrite Hrc. rewrite Hloop.
    split_and!; [done | | | ].
    + rewrite Hd'. cbn. rewrite Hd2, Hfr. done.
    + rewrite Ht'. cbn. rewrite Ht2, Hsl. by rewrite <- !app_assoc.
    + apply Forall_app. split.
      * eapply Forall_impl; [exact Hsleep|]. by intros e ->.
      * constructor; [exact Hst | exact Hall'].
Qed.

(** A row whose implement step fails with every agent ends the run. *)
Lemma main_rows_impl_exhausted (fuel : nat) (args : Args)
    (after_prompts : list (string * string)) (idx : nat) (row : Row) (rest : list Row)
    (c : Ctx) (task_id : string) :
  (forall c0, exists c1, checkpoint env fuel c0 = Py.Returned (false, c1)) ->
  row_task_id args idx row = Py.Ok task_id ->
  existsb (String.eqb task_id) (done_ids c) = false ->
  Py.nonempty (row_spec row) = true ->
  (forall a c0, In a (agent_try_order (fallback_order args) (row_primary args row)) ->
     exists rr c1, run_stage env cfg task_id a "impl" c0 = Py.Returned (rr, c1)
                   /\ returncode rr <> 0%Z) ->
  exists c' new,
    main_rows env cfg fuel args after_prompts idx (row :: rest) c = Py.Returned (1%Z, c')
    /\ trace (world c') = trace (world c) ++ new
    /\ Forall (RunnerSpec.only_stage "impl") new.
Proof.
  intros Hchk Hid Hdone Hspec Hfail.
  destruct (Hchk c) as (c1 & Hc1).
  destruct (checkpoint_frame fuel c c1 false Hc1) as (Hfr & sl & Hsl & Hsleep).
  destruct (impl_loop_exhausted fuel task_id Hchk
              (agent_try_order (fallback_order args) (row_primary args row))
              {| done_ids := done_ids c1; claude_sessions := claude_sessions c1;
                 gemini_sessions := gemini_sessions c1;
                 sessions := {| codex_started := false;
                                claude_session_id := claude_sessions c1 !! task_id;
                                gemini_session_id := gemini_sessions c1 !! task_id |};
                 world := world c1 |} Hfail)
    as (c' & new & Hloop & _ & Ht' & Hall').
  exists c', (sl ++ new).
  cbn [main_rows]. unfold bind at 1. unfold run_row. unfold bind at 1. rewrite Hc1.
  rewrite Hid. rewrite Hfr at 1. cbn [done_ids with_world]. rewrite Hdone, Hspec. cbn [negb].
  unfold run_task_steps. unfold bind at 1. unfold start_task at 1.
  unfold bind at 1. rewrite Hloop. cbn.
  split_and!; [done | | ].
  - rewrite Ht'. cbn. by rewrite Hsl, <- app_assoc.
  - apply Forall_app. split; [|done].
    eapply Forall_impl; [exact Hsleep|]. by intros e ->.
Qed.

End CsvRun.

(** ** Exhausting every backend on the implement step *)

(** C2 (as the code has it). When every backend of the order fails the
    implement step of a task: agentflow.py marks the task failed, moves
    the cursor to the MAIN state of the next task with after-index 0,
    makes no AFTER call for the task, and its main loop goes on with
    that cursor unless the stop marker is there; agent_csv_runner.py
    runs no further stage for the task and returns exit code 1 at once. *)
Theorem impl_exhaustion_per_script
    (env : Agentflow.Env) (cfg : Agentflow.Engine) (task : Agentflow.Task)
    (iters pollfuel : nat) (task_list : list Agentflow.Task) (after_prompts : list string)
    (primary : Agentflow.engine_name) (fb : list Agentflow.engine_name)
    (st : Agentflow.State) (cur : Agentflow.Cursor) (w w1 : Agentflow.World)
    (re : option Agentflow.engine_name)
    (cenv : CsvRunner.Env) (ccfg : CsvRunner.Config) (cfuel : nat) (args : CsvRunner.Args)
    (cafter : list (string * string)) (idx : nat) (row : CsvRunner.Row)
    (rest : list CsvRunner.Row) (c : CsvRunner.Ctx) (tid : string) :
  Agentflow.phase cur = "main" ->
  Agentflow.row_engine_of task = Py.Ok re ->
  Agentflow.wait_if_paused env pollfuel w = Some w1 ->
  Ctl.stop_present (Agentflow.user env (Agentflow.now w1) (Agentflow.markers w1)) = false ->
  (forall L e w0, In e (Agentflow.engine_order re primary fb) ->
     Agentflow.ok (fst (Agentflow.run_with_engine env cfg task L e "main" "run" w0)) = false) ->
  (forall c0, exists c1, CsvRunner.checkpoint cenv cfuel c0 = Py.Returned (false, c1)) ->
  CsvRunner.row_task_id args idx row = Py.Ok tid ->
  existsb (String.eqb tid) (CsvRunner.done_ids c) = false ->
  Py.nonempty (CsvRunner.row_spec row) = true ->
  (forall a c0,
     In a (CsvRunner.agent_try_order (CsvRunner.fallback_order args)
             (CsvRunner.row_primary args row)) ->
     exists rr c1, CsvRunner.run_stage cenv ccfg tid a "impl" c0 = Py.Returned (rr, c1)
                   /\ CsvRunner.returncode rr <> 0%Z) ->
  (exists st' w' ts' new,
     Agentflow.run_task env cfg pollfuel task after_prompts primary fb st cur w
       = Py.Returned (st', Agentflow.next_task_cursor cur, w')
     /\ Agentflow.next_task_cursor cur
        = {| Agentflow.task_index := Agentflow.task_index cur + 1;
             Agentflow.phase := "main"; Agentflow.after_index := 0 |}
     /\ Agentflow.cursor st' = Agentflow.next_task_cursor cur
     /\ Agentflow.tasks st' !! Agentflow.task_id task = Some ts'
     /\ Agentflow.status ts' = Some "failed"
     /\ Agentflow.trace w' = Agentflow.trace w ++ new
     /\ Forall FlowSpec.no_after_call new
     /\ (task_list !! Agentflow.task_index cur = Some task ->
         Ctl.stop_present (Agentflow.user env (Agentflow.now w') (Agentflow.markers w'))
           = false ->
         Agentflow.main_loop env cfg (S iters) pollfuel task_list after_prompts primary fb
           st cur w
         = Agentflow.main_loop env cfg iters pollfuel task_list after_prompts primary fb
             st' (Agentflow.next_task_cursor cur)
             (snd (Agentflow.observe env
                     (Agentflow.save_state env (Agentflow.state_path cfg) st' w')))))
  /\ (exists c' new,
        CsvRunner.main_rows cenv ccfg cfuel args cafter idx (row :: rest) c
          = Py.Returned (1%Z, c')
        /\ CsvRunner.trace (CsvRunner.world c')
           = CsvRunner.trace (CsvRunner.world c) ++ new
        /\ Forall (RunnerSpec.only_stage "impl") new).
Proof.
  intros Hph Hre Hwait Hstop Hfail Hchk Hid Hdone Hspec Hcfail. split.
  - destruct (run_task_main_exhausted env cfg task pollfuel after_prompts primary fb
                st cur w w1 re Hph Hre Hwait Hstop Hfail)
      as (st' & w' & ts' & new & Hrun & Hcur & Hts & Hstat & Htr & Hall).
    exists st', w', ts', new.
    split_and!; [done | done | done | done | done | done | done |].
    intros Hl Hs. by apply (main_loop_next env cfg task).
  - by apply (main_rows_impl_exhausted cenv ccfg cfuel args cafter idx row rest c tid).
Qed.

Lemma sample_engines_fail (L : Agentflow.Locals) (e : Agentflow.engine_name)
    (ph step : string) (w0 : Agentflow.World) :
  Agentflow.ok (fst (Agentflow.run_with_engine Sample.af_failing_env Sample.af_cfg
                       (Sample.af_task "T1-1") L e ph step w0)) = false.
Proof. destruct e; reflexivity. Qed.

Lemma sample_checkpoint (rc : Z) (out : string) (c0 : CsvRunner.Ctx) :
  exists c1, CsvRunner.checkpoint (Sample.csv_env rc out) 1 c0 = Py.Returned (false, c1).
Proof. by eexists. Qed.

Lemma impl_exhaustion_per_script_witness :
  (exists st' w',
     Agentflow.run_task Sample.af_failing_env Sample.af_cfg 1 (Sample.af_task "T1-1")
       ["tidy up"] Agentflow.codex [Agentflow.claude] Agentflow.State_default
       Agentflow.Cursor_default (Sample.af_world ∅)
     = Py.Returned (st', {| Agentflow.task_index := 1; Agentflow.phase := "main";
                            Agentflow.after_index := 0 |}, w'))
  /\ (exists c',
        CsvRunner.main_rows (Sample.csv_env 1 "failed") Sample.csv_cfg 1 Sample.csv_args []
          1 [Sample.csv_row "T1-1"; Sample.csv_row "T1-2"] Sample.csv_ctx
        = Py.Returned (1%Z, c')).
Proof.
  destruct (impl_exhaustion_per_script
              Sample.af_failing_env Sample.af_cfg (Sample.af_task "T1-1") 1 1
              [Sample.af_task "T1-1"] ["tidy up"] Agentflow.codex [Agentflow.claude]
              Agentflow.State_default Agentflow.Cursor_default (Sample.af_world ∅)
              (snd (Agentflow.observe Sample.af_failing_env (Sample.af_world ∅))) None
              (Sample.csv_env 1 "failed") Sample.csv_cfg 1 Sample.csv_args [] 1
              (Sample.csv_row "T1-1") [Sample.csv_row "T1-2"] Sample.csv_ctx "T1-1")
    as [(st' & w' & _ & _ & Hrun & _) (c' & _ & Hmain & _)].
  - reflexivity.
  - reflexivity.
  - reflexivity.
  - reflexivity.
  - intros L e w0 _. apply sample_engines_fail.
  - apply sample_checkpoint.
  - reflexivity.
  - reflexivity.
  - reflexivity.
  - intros a c0 [<-|[<-|[]]]; eexists _, _; (split; [reflexivity|discriminate]).
  - split; [by exists st', w' | by exists c'].
Defined.

(** C2, the claim as worded, on agent_csv_runner.py: two tasks, every
    agent failing; the run returns exit code 1 after the implement step
    of the first task, and the second task is never started. *)
Lemma csv_run_aborts_on_impl_exhaustion :
  match CsvRunner.main (Sample.csv_env 1 "failed") Sample.csv_cfg 1 Sample.csv_args []
          [Sample.csv_row "T1-1"; Sample.csv_row "T1-2"] Sample.csv_ctx with
  | Py.Returned (code, c') => (code, Sample.tools_run (CsvRunner.trace (CsvRunner.world c')))
  | _ => (0%Z, [])
  end
  = (1%Z, [("T1-1", "impl", CsvRunner.codex); ("T1-1", "impl", CsvRunner.claude)]).
Proof. vm_compute. reflexivity. Qed.

(** ** Task ids *)

Lemma sanitize_task_id_spec (s : string) :
  (CsvRunner.TASK_ID_RE_fullmatch (Py.strip s) = true ->
   CsvRunner.sanitize_task_id s = Py.Ok (Py.strip s))
  /\ (CsvRunner.TASK_ID_RE_fullmatch (Py.strip s) = false ->
      exists msg, CsvRunner.sanitize_task_id s = Py.Raise (Py.ValueError msg)).
Proof.
  unfold CsvRunner.sanitize_task_id. split; intros H.
  - destruct (Py.strip s) as [|ch r] eqn:E; [discriminate H|]. cbn. by rewrite H.
  - destruct (Py.nonempty (Py.strip s)); cbn; [rewrite H; cbn|]; by eexists.
Qed.

(** C8 (as the code has it). agentflow.py's loader takes every row and
    every task id as it is, and never raises for an id. agent_csv_runner.py
    checks the id of a row when its loop reaches that row, after the stop
    check: an id that does not have the expected shape raises ValueError,
    which ends the run there; a row whose id is already among the
    completed ids is skipped and the loop goes on with the next row. *)
Theorem task_ids_checked_row_by_row
    (aenv : Agentflow.Env) (arows : list Agentflow.Row)
    (env : CsvRunner.Env) (cfg : CsvRunner.Config) (fuel : nat) (args : CsvRunner.Args)
    (after_prompts : list (string * string)) (idx : nat) (row : CsvRunner.Row)
    (rest : list CsvRunner.Row) (c c1 : CsvRunner.Ctx) :
  CsvRunner.checkpoint env fuel c = Py.Returned (false, c1) ->
  (Agentflow.load_tasks_from_csv aenv (Some arows)
     = Py.Ok (Agentflow.tasks_of_rows aenv 0 arows)
   /\ length (Agentflow.tasks_of_rows aenv 0 arows) = length arows)
  /\ (forall s,
        (CsvRunner.TASK_ID_RE_fullmatch (Py.strip s) = true ->
         CsvRunner.sanitize_task_id s = Py.Ok (Py.strip s))
        /\ (CsvRunner.TASK_ID_RE_fullmatch (Py.strip s) = false ->
            exists msg, CsvRunner.sanitize_task_id s = Py.Raise (Py.ValueError msg)))
  /\ match CsvRunner.row_task_id args idx row with
     | Py.Raise e =>
         CsvRunner.main_rows env cfg fuel args after_prompts idx (row :: rest) c
         = Py.Raised e
     | Py.Ok tid =>
         existsb (String.eqb tid) (CsvRunner.done_ids c) = true ->
         CsvRunner.main_rows env cfg fuel args after_prompts idx (row :: rest) c
         = CsvRunner.main_rows env cfg fuel args after_prompts (S idx) rest c1
     end.
Proof.
  intros Hchk. split_and!.
  - reflexivity.
  - generalize 0. induction arows as [|r rows IH]; intros n; [done|]. cbn. by rewrite IH.
  - apply sanitize_task_id_spec.
  - destruct (checkpoint_frame env fuel c c1 false Hchk) as (Hfr & _).
    destruct (CsvRunner.row_task_id args idx row) as [tid|e] eqn:Hid.
    + intros Hdone.
      cbn [CsvRunner.main_rows]. unfold CsvRunner.bind at 1. unfold CsvRunner.run_row.
      unfold CsvRunner.bind at 1. rewrite Hchk, Hid.
      rewrite Hfr at 1. cbn [CsvRunner.done_ids CsvRunner.with_world].
      by rewrite Hdone.
    + cbn [CsvRunner.main_rows]. unfold CsvRunner.bind at 1. unfold CsvRunner.run_row.
      unfold CsvRunner.bind at 1. by rewrite Hchk, Hid.
Qed.

Lemma task_ids_checked_row_by_row_witness :
  exists e,
    CsvRunner.main_rows (Sample.csv_env 0 "done") Sample.csv_cfg 1 Sample.csv_args [] 2
      [Sample.csv_row "bad id"; Sample.csv_row "T1-3"] Sample.csv_ctx
    = Py.Raised e.
Proof.
  eexists.
  exact (proj2 (proj2 (task_ids_checked_row_by_row
                         Sample.af_failing_env [Sample.af_row "T1-1"]
                         (Sample.csv_env 0 "done") Sample.csv_cfg 1 Sample.csv_args [] 2
                         (Sample.csv_row "bad id") [Sample.csv_row "T1-3"] Sample.csv_ctx
                         _ eq_refl))).
Defined.

(** C8, the claim as worded. agentflow.py loads a list with a repeated id
    and an id of no known shape without any error. agent_csv_runner.py
    runs the first task to its end before it raises ValueError for the
    malformed id of the second row; and given the same id twice it runs
    the task once, skips the second row and returns exit code 0. *)
Lemma task_ids_not_checked_up_front :
  Agentflow.load_tasks_from_csv Sample.af_failing_env
    (Some [Sample.af_row "T1-1"; Sample.af_row "T1-1"; Sample.af_row "not an id!"])
  = Py.Ok [Sample.af_task "T1-1"; Sample.af_task "T1-1"; Sample.af_task "not an id!"]
  /\ match CsvRunner.run_row (Sample.csv_env 0 "done") Sample.csv_cfg 1 Sample.csv_args []
             1 (Sample.csv_row "T1-1") Sample.csv_ctx with
     | Py.Returned (CsvRunner.RowNext, c1) =>
         (CsvRunner.done_ids c1,
          Sample.tools_run (CsvRunner.trace (CsvRunner.world c1)),
          match CsvRunner.main_rows (Sample.csv_env 0 "done") Sample.csv_cfg 1
                  Sample.csv_args [] 2 [Sample.csv_row "bad id"] c1 with
          | Py.Raised (Py.ValueError _) => true
          | _ => false
          end)
     | _ => ([], [], false)
     end = (["T1-1"], [("T1-1", "impl", CsvRunner.codex)], true)
  /\ match CsvRunner.main (Sample.csv_env 0 "done") Sample.csv_cfg 1 Sample.csv_args []
             [Sample.csv_row "T1-1"; Sample.csv_row "bad id"] Sample.csv_ctx with
     | Py.Raised (Py.ValueError _) => true
     | _ => false
     end = true
  /\ match CsvRunner.main (Sample.csv_env 0 "done") Sample.csv_cfg 1 Sample.csv_args []
             [Sample.csv_row "T1-1"; Sample.csv_row "T1-1"] Sample.csv_ctx with
     | Py.Returned (code, c') =>
         (code, Sample.tools_run (CsvRunner.trace (CsvRunner.world c')))
     | _ => (1%Z, [])
     end = (0%Z, [("T1-1", "impl", CsvRunner.codex)]).
Proof. split_and!; vm_compute; reflexivity. Qed.

(** ** The follow-up prompts of agentflow.py *)

Section AgentflowAfter.
Import Agentflow.
Variables (env : Env) (cfg : Engine) (task : Task).
Variables (pollfuel : nat) (primary : engine_name) (fb : list engine_name) (total : nat).
Hypothesis Hwait : forall w0, exists w1, wait_if_paused env pollfuel w0 = Some w1.
Hypothesis Hstop : forall t m, Ctl.stop_present (user env t m) = false.


End AgentflowAfter.




(** The same run, step by step: the second prompt is tried with every
    engine of the order and fails, the third is run all the same. *)
Example followup_run_sample :
  match Agentflow.run_task Sample.af_after2_failing_env Sample.af_cfg 1
          (Sample.af_task "T1-1") ["first"; "second"; "third"] Agentflow.codex
          [Agentflow.claude] Sample.af_state_after_main
          (Agentflow.cursor Sample.af_state_after_main) (Sample.af_world ∅) with
  | Py.Returned (st', _, w') =>
      (Sample.attempted (Agentflow.trace w'),
       match Agentflow.tasks st' !! "T1-1" with
       | Some ts => map (fun r => (Agentflow.sr_after_index r, Agentflow.sr_ok r))
                        (Agentflow.history ts)
       | None => []
       end)
  | _ => ([], [])
  end
  = ([("after1", Agentflow.codex);
      ("after2", Agentflow.codex); ("after2", Agentflow.codex); ("after2", Agentflow.claude);
      ("after3", Agentflow.codex)],
     [(Some 0, true); (Some 1, false); (Some 1, false); (Some 1, false); (Some 2, true)]).
Proof. vm_compute. reflexivity. Qed.

(** ** The JSON variant of gemini (agent_csv_runner.py) *)

Lemma lstrip_has_nonspace (s : string) :
  TextSpec.has_nonspace (Py.lstrip s) = TextSpec.has_nonspace s.
Proof.
  induction s as [|c r IH]; [done|]. cbn.
  destruct (Py.is_space c) eqn:E; cbn; [done|]. by rewrite E.
Qed.

Lemma rev_app_has_nonspace (s1 : string) :
  forall s2, TextSpec.has_nonspace (String.rev_app s1 s2)
             = TextSpec.has_nonspace s1 || TextSpec.has_nonspace s2.
Proof.
  induction s1 as [|c r IH]; intros s2; [done|]. cbn. rewrite IH. cbn.
  destruct (Py.is_space c), (TextSpec.has_nonspace r), (TextSpec.has_nonspace s2); done.
Qed.

Lemma rev_has_nonspace (s : string) :
  TextSpec.has_nonspace (String.rev s) = TextSpec.has_nonspace s.
Proof. unfold String.rev. rewrite rev_app_has_nonspace. cbn. by rewrite orb_false_r. Qed.

Lemma strip_has_nonspace (s : string) :
  TextSpec.has_nonspace (Py.strip s) = TextSpec.has_nonspace s.
Proof.
  unfold Py.strip, Py.rstrip.
  by rewrite rev_has_nonspace, lstrip_has_nonspace, rev_has_nonspace, lstrip_has_nonspace.
Qed.

Lemma app_has_nonspace (a b : string) :
  TextSpec.has_nonspace (a +:+ b) = TextSpec.has_nonspace a || TextSpec.has_nonspace b.
Proof.
  induction a as [|c r IH]; [done|].
  change (String c r +:+ b) with (String c (r +:+ b)).
  cbn [TextSpec.has_nonspace]. by rewrite IH, orb_assoc.
Qed.

Lemma has_nonspace_nonempty (s : string) :
  TextSpec.has_nonspace s = true -> Py.nonempty s = true.
Proof. by destruct s. Qed.

(** The summary of a reported error is never empty. *)
Lemma gemini_error_summary_nonempty (rt : Py.Runtime) (out : string)
    (kv : list (string * Py.json)) :
  Py.startswith "{" (Py.strip out) = true ->
  Py.json_loads rt out = Py.Ok (Py.JObj kv) ->
  Py.truthy (Py.dict_get kv "error") = true ->
  Py.nonempty (CsvRunner.gemini_error_summary rt out) = true.
Proof.
  intros Hs Hl Ht. unfold CsvRunner.gemini_error_summary.
  rewrite Hs, Hl, Ht. unfold Py.py_or at 1. rewrite Ht.
  destruct (Py.dict_get kv "error") as [| | | | |ekv]; try done.
  destruct (Py.py_strip _); [|done].
  apply has_nonspace_nonempty. rewrite strip_has_nonspace, !app_has_nonspace.
  cbn. by rewrite orb_true_r.
Qed.

(** agent_csv_runner.py, [gemini_run] with JSON output: exit code 0 and
    a payload with a non-empty [error] field give return code 1. *)
Lemma csv_gemini_json_reported_error (env : CsvRunner.Env) (cfg : CsvRunner.Config)
    (stage task_id : string) (S : CsvRunner.TaskSessions) (w : CsvRunner.World)
    (kv : list (string * Py.json)) :
  let out := CsvRunner.tool env (CsvRunner.now w) (CsvRunner.gemini_call cfg stage task_id S) in
  CsvRunner.gemini_outfmt cfg S = "json" ->
  CsvRunner.returncode out = 0%Z ->
  Py.startswith "{" (Py.strip (CsvRunner.stdout out)) = true ->
  Py.json_loads (CsvRunner.rt env) (CsvRunner.stdout out) = Py.Ok (Py.JObj kv) ->
  Py.truthy (Py.dict_get kv "error") = true ->
  exists rr sid S' w',
    CsvRunner.gemini_run env cfg stage task_id S w = Py.Ok ((rr, sid), S', w')
    /\ CsvRunner.returncode rr = 1%Z.
Proof.
  intros out Hfmt Hrc Hs Hl Ht. unfold CsvRunner.gemini_run. rewrite Hfmt.
  change (String.eqb "json" "stream-json") with false.
  change (String.eqb "json" "json") with true. cbn iota.
  unfold CsvRunner.run_tool. fold out.
  eexists _, _, _, _. split; [reflexivity|]. cbn.
  by rewrite (gemini_error_summary_nonempty _ _ kv Hs Hl Ht), Hrc.
Qed.

(* ===================================================================== *)
(** * Further properties of the two scripts *)
(* ===================================================================== *)

(** ** Trimming *)

Lemma string_app_cons (c : ascii) (r b : string) : String c r +:+ b = String c (r +:+ b).
Proof. reflexivity. Qed.

Lemma rev_app_rev_app (s1 : string) :
  forall s2 s3, String.rev_app (String.rev_app s1 s2) s3 = String.rev_app s2 (s1 +:+ s3).
Proof.
  induction s1 as [|c r IH]; intros s2 s3; [done|]. cbn [String.rev_app].
  by rewrite IH.
Qed.

Lemma string_app_empty_r (s : string) : s +:+ "" = s.
Proof. induction s as [|c r IH]; [done|]. by rewrite string_app_cons, IH. Qed.

Lemma string_rev_involutive (s : string) : String.rev (String.rev s) = s.
Proof. unfold String.rev. rewrite rev_app_rev_app. cbn. apply string_app_empty_r. Qed.

Lemma rev_app_app (s : string) : forall acc, String.rev_app s acc = String.rev s +:+ acc.
Proof.
  unfold String.rev. induction s as [|c r IH]; intros acc; [done|]. cbn [String.rev_app].
  rewrite IH, (IH (String c "")).
  clear. induction (String.rev_app r "") as [|d t IHt]; [done|].
  by rewrite !string_app_cons, IHt.
Qed.

Lemma rev_app_snoc (s : string) (c : ascii) :
  forall acc, String.rev_app (s +:+ String c "") acc = String c (String.rev_app s acc).
Proof.
  induction s as [|d r IH]; intros acc; [done|].
  rewrite string_app_cons. cbn [String.rev_app]. by rewrite IH.
Qed.

Lemma string_rev_snoc (s : string) (c : ascii) :
  String.rev (s +:+ String c "") = String c (String.rev s).
Proof. apply rev_app_snoc. Qed.

Lemma lstrip_snoc (s : string) (c : ascii) :
  Py.is_space c = false ->
  Py.lstrip (s +:+ String c "") = Py.lstrip s +:+ String c "".
Proof.
  intros Hc. induction s as [|d r IH].
  - rewrite string_app_empty_l. cbn [Py.lstrip]. by rewrite Hc.
  - rewrite string_app_cons. cbn [Py.lstrip]. by destruct (Py.is_space d).
Qed.

(** A text that starts clean is one [lstrip] leaves alone. *)
Lemma lstrip_clean (s : string) :
  match s with String c _ => Py.is_space c = false | EmptyString => True end ->
  Py.lstrip s = s.
Proof. destruct s as [|c r]; [done|]. cbn [Py.lstrip]. by intros ->. Qed.

Lemma lstrip_starts_clean (s : string) :
  match Py.lstrip s with String c _ => Py.is_space c = false | EmptyString => True end.
Proof.
  induction s as [|c r IH]; [done|]. cbn [Py.lstrip].
  destruct (Py.is_space c) eqn:E; [done|]. exact E.
Qed.

Lemma rstrip_keeps_clean_start (s : string) :
  match s with String c _ => Py.is_space c = false | EmptyString => True end ->
  match Py.rstrip s with String c _ => Py.is_space c = false | EmptyString => True end.
Proof.
  destruct s as [|c r]; [done|]. intros Hc. unfold Py.rstrip.
  replace (String.rev (String c r)) with (String.rev r +:+ String c "").
  2:{ unfold String.rev at 2. cbn [String.rev_app]. by rewrite rev_app_app. }
  rewrite lstrip_snoc by done. by rewrite string_rev_snoc.
Qed.

(** [strip] is idempotent. *)
Lemma strip_idempotent (s : string) : Py.strip (Py.strip s) = Py.strip s.
Proof.
  assert (Hstart : match Py.strip s with
                   | String c _ => Py.is_space c = false | EmptyString => True end).
  { unfold Py.strip. apply rstrip_keeps_clean_start, lstrip_starts_clean. }
  assert (Hend : match String.rev (Py.strip s) with
                 | String c _ => Py.is_space c = false | EmptyString => True end).
  { unfold Py.strip, Py.rstrip. rewrite string_rev_involutive. apply lstrip_starts_clean. }
  unfold Py.strip at 1. rewrite (lstrip_clean _ Hstart).
  unfold Py.rstrip. rewrite (lstrip_clean _ Hend). apply string_rev_involutive.
Qed.

(** ** [clamp] *)

(** X1. For a limit of at least 1, [clamp] never returns more than
    [max_chars] characters: a text within the limit comes back as it is,
    a longer one as its first [max_chars - 1] characters and the ellipsis. *)
Theorem clamp_bounded {A} (ellipsis : A) (s : list A) (max_chars : Z) :
  (1 <= max_chars)%Z ->
  (Z.of_nat (length (AgentflowUtil.clamp ellipsis s max_chars)) <= max_chars)%Z
  /\ ((Z.of_nat (length s) <= max_chars)%Z -> AgentflowUtil.clamp ellipsis s max_chars = s)
  /\ ((max_chars < Z.of_nat (length s))%Z ->
      AgentflowUtil.clamp ellipsis s max_chars
      = take (Z.to_nat (max_chars - 1)) s ++ [ellipsis]
      /\ Z.of_nat (length (AgentflowUtil.clamp ellipsis s max_chars)) = max_chars).
Proof.
  intros Hm. unfold AgentflowUtil.clamp, AgentflowUtil.slice_to.
  destruct (Z.of_nat (length s) <=? max_chars)%Z eqn:E.
  - apply Z.leb_le in E. split_and!; [done | done | lia].
  - apply Z.leb_gt in E.
    assert (H0 : (0 <=? max_chars - 1)%Z = true) by (apply Z.leb_le; lia).
    rewrite H0.
    assert (Hlen : length (take (Z.to_nat (max_chars - 1)) s ++ [ellipsis])
                   = Z.to_nat max_chars).
    { rewrite length_app, length_take. cbn. lia. }
    split_and!; [lia | lia | intros _; split; [done | lia]].
Qed.

Lemma clamp_bounded_witness :
  AgentflowUtil.clamp "."%char (String.list_ascii_of_string "handoff text") 8
  = String.list_ascii_of_string "handoff.".
Proof.
  destruct (clamp_bounded "."%char (String.list_ascii_of_string "handoff text") 8
              ltac:(lia)) as (_ & _ & H).
  destruct H as [H _]; [cbn; lia|]. exact H.
Defined.

(** With a limit of 0 the result is not shorter than a non-empty text. *)
Lemma clamp_zero_limit {A} (ellipsis : A) (s : list A) :
  s <> [] -> length (AgentflowUtil.clamp ellipsis s 0) = length s.
Proof.
  intros Hs. unfold AgentflowUtil.clamp, AgentflowUtil.slice_to.
  destruct s as [|a s]; [done|].
  destruct (Z.of_nat (length (a :: s)) <=? 0)%Z eqn:E; [apply Z.leb_le in E; cbn in E; lia|].
  change (0 <=? 0 - 1)%Z with false. cbn iota.
  rewrite length_app, length_take. cbn [length]. change (Z.to_nat (- (0 - 1))) with 1. lia.
Qed.

(** ** [split_csv_list] *)

Lemma lstrip_has_char (ch : ascii) (s : string) :
  TextSpec.has_char ch (Py.lstrip s) = true -> TextSpec.has_char ch s = true.
Proof.
  induction s as [|c r IH]; [done|]. cbn [Py.lstrip].
  destruct (Py.is_space c); [|done]. intros H. cbn. rewrite (IH H). apply orb_true_r.
Qed.

Lemma rev_app_has_char (ch : ascii) (s1 : string) :
  forall s2, TextSpec.has_char ch (String.rev_app s1 s2)
             = TextSpec.has_char ch s1 || TextSpec.has_char ch s2.
Proof.
  induction s1 as [|c r IH]; intros s2; [done|]. cbn. rewrite IH. cbn.
  destruct (Ascii.eqb c ch), (TextSpec.has_char ch r), (TextSpec.has_char ch s2); done.
Qed.

Lemma rev_has_char (ch : ascii) (s : string) :
  TextSpec.has_char ch (String.rev s) = TextSpec.has_char ch s.
Proof. unfold String.rev. rewrite rev_app_has_char. cbn. apply orb_false_r. Qed.

Lemma strip_has_char (ch : ascii) (s : string) :
  TextSpec.has_char ch (Py.strip s) = true -> TextSpec.has_char ch s = true.
Proof.
  unfold Py.strip, Py.rstrip. rewrite rev_has_char. intros H.
  apply lstrip_has_char in H. rewrite rev_has_char in H. by apply lstrip_has_char.
Qed.

(** No piece of a split holds the separator. *)
Lemma split_on_no_sep (sep : ascii) (s : string) :
  Forall (fun p => TextSpec.has_char sep p = false) (CsvRunner.split_on sep s).
Proof.
  induction s as [|c r IH]; cbn [CsvRunner.split_on].
  - by repeat constructor.
  - destruct (Ascii.eqb c sep) eqn:E.
    + by constructor.
    + destruct (CsvRunner.split_on sep r) as [|h t]; cbn.
      * repeat constructor. cbn. by rewrite E.
      * inversion IH; subst. constructor; [|done]. cbn. by rewrite E.
Qed.

(** X2. Every item [split_csv_list] returns is non-empty, has no white
    space at either end and holds no comma. *)
Theorem split_csv_list_items (s : string) :
  Forall (fun x => x <> "" /\ Py.strip x = x /\ TextSpec.has_char ","%char x = false)
         (AgentflowUtil.split_csv_list s).
Proof.
  unfold AgentflowUtil.split_csv_list.
  pose proof (split_on_no_sep ","%char s) as Hsep.
  induction (CsvRunner.split_on ","%char s) as [|p ps IH]; [constructor|].
  inversion Hsep; subst. cbn [map List.filter].
  destruct (Py.nonempty (Py.strip p)) eqn:E; [|by apply IH].
  constructor; [|by apply IH]. split_and!.
  - intros H. rewrite H in E. discriminate E.
  - apply strip_idempotent.
  - destruct (TextSpec.has_char ","%char (Py.strip p)) eqn:Hc; [|done].
    apply strip_has_char in Hc. congruence.
Qed.

Example split_csv_list_sample :
  AgentflowUtil.split_csv_list " claude, ,gemini ,," = ["claude"; "gemini"].
Proof. reflexivity. Qed.

(** ** [detect_column] / [pick_col] *)

Lemma lowered_from (fieldnames : list string) (k : string) :
  forall m0 : gmap string string,
    (foldl (fun m f => <[Py.lower f := f]> m) m0 fieldnames !! k = None
     <-> m0 !! k = None /\ Forall (fun f => Py.lower f <> k) fieldnames)
    /\ (forall f, foldl (fun m f => <[Py.lower f := f]> m) m0 fieldnames !! k = Some f ->
                  (In f fieldnames /\ Py.lower f = k) \/ m0 !! k = Some f).
Proof.
  induction fieldnames as [|g gs IH]; intros m0; cbn [foldl].
  - split; [|by right]. split; [by intros H; split; [|constructor] | by intros [H _]].
  - destruct (IH (<[Py.lower g := g]> m0)) as [IHn IHs]. split.
    + rewrite IHn. split.
      * intros [Hm Hall]. destruct (decide (Py.lower g = k)) as [Heq|Hne].
        -- by rewrite Heq, lookup_insert_eq in Hm.
        -- rewrite lookup_insert_ne in Hm by done. split; [done|]. by constructor.
      * intros [Hm Hall]. inversion Hall; subst. split; [|done].
        by rewrite lookup_insert_ne.
    + intros f Hf. destruct (IHs f Hf) as [[Hin Hl]|Hm].
      * left. split; [by right|done].
      * destruct (decide (Py.lower g = k)) as [Heq|Hne].
        -- rewrite Heq, lookup_insert_eq in Hm. injection Hm as <-. left. split; [by left|done].
        -- rewrite lookup_insert_ne in Hm by done. by right.
Qed.

Lemma lowered_spec (fieldnames : list string) (k : string) :
  (AgentflowUtil.lowered fieldnames !! k = None
   <-> Forall (fun f => Py.lower f <> k) fieldnames)
  /\ (forall f, AgentflowUtil.lowered fieldnames !! k = Some f ->
                In f fieldnames /\ Py.lower f = k).
Proof.
  unfold AgentflowUtil.lowered. destruct (lowered_from fieldnames k ∅) as [Hn Hs]. split.
  - rewrite Hn. split; [by intros [_ H] | intros H; split; [apply lookup_empty | done]].
  - intros f Hf. destruct (Hs f Hf) as [H|H]; [done|]. by rewrite lookup_empty in H.
Qed.

(** X3. [detect_column] compares names without regard to case. What it
    returns is one of the field names, equal up to case to a candidate,
    and no candidate before that one matches any field; it returns
    nothing exactly when no field matches any candidate. *)
Theorem detect_column_spec (fieldnames candidates : list string) :
  (forall f, AgentflowUtil.detect_column fieldnames candidates = Some f ->
     In f fieldnames
     /\ exists pre c post,
          candidates = pre ++ c :: post
          /\ Py.lower f = Py.lower c
          /\ Forall (fun c' => Forall (fun g => Py.lower g <> Py.lower c') fieldnames) pre)
  /\ (AgentflowUtil.detect_column fieldnames candidates = None
      <-> Forall (fun c => Forall (fun g => Py.lower g <> Py.lower c) fieldnames) candidates).
Proof.
  unfold AgentflowUtil.detect_column.
  induction candidates as [|c cs [IHs IHn]]; cbn [AgentflowUtil.first_known].
  - split; [done|]. split; [constructor | done].
  - destruct (lowered_spec fieldnames (Py.lower c)) as [Hnone Hsome].
    destruct (AgentflowUtil.lowered fieldnames !! Py.lower c) as [g|] eqn:E.
    + split.
      * intros f [= <-]. destruct (Hsome g eq_refl) as [Hin Hl]. split; [done|].
        exists [], c, cs. split_and!; [done | done | constructor].
      * split; [done|]. intros H. inversion H as [|? ? Hc _]; subst.
        apply Hnone in Hc. discriminate Hc.
    + assert (Hc : Forall (fun g => Py.lower g <> Py.lower c) fieldnames) by by apply Hnone.
      split.
      * intros f Hf. destruct (IHs f Hf) as (Hin & pre & c0 & post & -> & Hl & Hpre).
        split; [done|]. exists (c :: pre), c0, post. split_and!; [done | done | by constructor].
      * rewrite IHn. split; [by constructor | by inversion 1].
Qed.

Example detect_column_sample :
  AgentflowUtil.detect_column ["Title"; "ID"; "Prompt"; "id"] ["task_id"; "id"; "task"]
  = Some "id".
Proof. vm_compute. reflexivity. Qed.

(** ** The capture buffer of [run_process] *)

Lemma total_chars_app (a b : list string) :
  AgentflowUtil.total_chars (a ++ b)
  = AgentflowUtil.total_chars a + AgentflowUtil.total_chars b.
Proof.
  unfold AgentflowUtil.total_chars. induction a as [|x a IH]; [done|].
  cbn [app foldr]. rewrite IH. lia.
Qed.

Lemma capture_from (ceiling : nat) (lines : list string) :
  forall (seen captured : list string),
    (exists k, captured = drop k seen) ->
    (exists k, fst (foldl (AgentflowUtil.capture_step ceiling)
                      (captured, AgentflowUtil.total_chars captured) lines)
               = drop k (seen ++ lines))
    /\ (captured = seen ->
        AgentflowUtil.total_chars (seen ++ lines) <= ceiling ->
        fst (foldl (AgentflowUtil.capture_step ceiling)
               (captured, AgentflowUtil.total_chars captured) lines) = seen ++ lines).
Proof.
  induction lines as [|l ls IH]; intros seen captured [k Hk].
  - cbn. rewrite app_nil_r. split; [by exists k | done].
  - cbn [foldl]. unfold AgentflowUtil.capture_step at 2 4. cbn [fst snd].
    assert (Hsnoc : exists k', captured ++ [l] = drop k' (seen ++ [l])).
    { destruct (decide (k <= length seen)) as [Hle|Hgt].
      - exists k. by rewrite Hk, drop_app_le.
      - exists (length seen). rewrite Hk, drop_ge by lia. by rewrite drop_app_length. }
    replace (seen ++ l :: ls) with ((seen ++ [l]) ++ ls) by by rewrite <- app_assoc.
    destruct (ceiling <? AgentflowUtil.total_chars captured + String.length l) eqn:E.
    + destruct (IH (seen ++ [l])
                  (drop (Nat.max 1 (length (captured ++ [l]) / 10)) (captured ++ [l])))
        as [IH1 _].
      { destruct Hsnoc as [k' ->]. eexists. by rewrite drop_drop. }
      split; [exact IH1|].
      intros -> Hle. apply Nat.ltb_lt in E. rewrite !total_chars_app in Hle. cbn in Hle. lia.
    + replace (AgentflowUtil.total_chars captured + String.length l)
        with (AgentflowUtil.total_chars (captured ++ [l]))
        by (rewrite total_chars_app; cbn; lia).
      destruct (IH (seen ++ [l]) (captured ++ [l]) Hsnoc) as [IH1 IH2].
      split; [exact IH1|]. intros -> Hle. by apply IH2.
Qed.

(** X4. The capture buffer of [run_process] only ever drops the oldest
    lines: what it holds in the end is a suffix of the lines printed, and
    all of them when their total length is within the ceiling. *)
Theorem capture_keeps_suffix (ceiling : nat) (lines : list string) :
  (exists k, AgentflowUtil.capture ceiling lines = drop k lines)
  /\ (AgentflowUtil.total_chars lines <= ceiling ->
      AgentflowUtil.capture ceiling lines = lines).
Proof.
  unfold AgentflowUtil.capture.
  destruct (capture_from ceiling lines [] [] (ex_intro _ 0 eq_refl)) as [H1 H2].
  split; [exact H1|]. intros Hle. by apply H2.
Qed.

(** A single line longer than the ceiling is dropped altogether. *)
Example capture_long_line : AgentflowUtil.capture 3 ["abcdef"] = [].
Proof. reflexivity. Qed.

Example capture_sample :
  AgentflowUtil.capture 6 ["ab"; "cd"; "ef"; "gh"] = ["cd"; "ef"; "gh"].
Proof. reflexivity. Qed.

(** ** Task ids of agentflow.py: parse, write out, next *)

Lemma zeros_succ (k : nat) :
  String.concat "" (List.repeat "0" (S k)) = String "0" (String.concat "" (List.repeat "0" k)).
Proof. destruct k; reflexivity. Qed.

Lemma string_of_iter_D0 (k : nat) (d : Decimal.uint) :
  NilEmpty.string_of_uint (Nat.iter k Decimal.D0 d)
  = String.concat "" (List.repeat "0" k) +:+ NilEmpty.string_of_uint d.
Proof.
  induction k as [|k IH]; [done|].
  rewrite zeros_succ, string_app_cons.
  change (Nat.iter (S k) Decimal.D0 d) with (Decimal.D0 (Nat.iter k Decimal.D0 d)).
  cbn [NilEmpty.string_of_uint]. by rewrite IH.
Qed.

Lemma length_string_of_uint (d : Decimal.uint) :
  String.length (NilEmpty.string_of_uint d) = Decimal.nb_digits d.
Proof. induction d; cbn; by rewrite ?IHd. Qed.

Lemma unorm_nonnil (d : Decimal.uint) : Decimal.unorm d <> Decimal.Nil.
Proof. unfold Decimal.unorm. by destruct (Decimal.nzhead d). Qed.

Lemma to_uint_unorm (n : nat) : Nat.to_uint n = Decimal.unorm (Nat.to_uint n).
Proof. by rewrite <- DecimalNat.Unsigned.to_of, DecimalNat.Unsigned.of_to. Qed.

Lemma to_uint_nonnil (n : nat) : Nat.to_uint n <> Decimal.Nil.
Proof. rewrite to_uint_unorm. apply unorm_nonnil. Qed.

Lemma str_of_nat_digits (n : nat) :
  Py.str_of_nat n = NilEmpty.string_of_uint (Nat.to_uint n).
Proof.
  unfold Py.str_of_nat, NilZero.string_of_uint.
  pose proof (to_uint_nonnil n). by destruct (Nat.to_uint n).
Qed.

Lemma of_uint_iter_D0 (k : nat) (d : Decimal.uint) :
  Nat.of_uint (Nat.iter k Decimal.D0 d) = Nat.of_uint d.
Proof.
  induction k as [|k IH]; [done|].
  change (Nat.iter (S k) Decimal.D0 d) with (Decimal.D0 (Nat.iter k Decimal.D0 d)).
  by rewrite <- IH.
Qed.

(** A zero-padded number, as digits. *)
Lemma zero_padded_digits (w n : nat) :
  AgentflowUtil.zero_padded w n
  = NilEmpty.string_of_uint
      (Nat.iter (w - String.length (Py.str_of_nat n)) Decimal.D0 (Nat.to_uint n)).
Proof.
  unfold AgentflowUtil.zero_padded. by rewrite string_of_iter_D0, <- str_of_nat_digits.
Qed.

Lemma int_of_digits_uint (d : Decimal.uint) :
  d <> Decimal.Nil ->
  AgentflowUtil.int_of_digits (NilEmpty.string_of_uint d) = Some (Nat.of_uint d).
Proof.
  intros Hd. unfold AgentflowUtil.int_of_digits. rewrite NilEmpty.usu.
  by destruct d.
Qed.

Lemma iter_D0_nonnil (k : nat) (d : Decimal.uint) :
  d <> Decimal.Nil -> Nat.iter k Decimal.D0 d <> Decimal.Nil.
Proof. destruct k; [done|]. by cbn. Qed.

(** Reading a zero-padded number gives the number back. *)
Lemma int_of_zero_padded (w n : nat) :
  AgentflowUtil.int_of_digits (AgentflowUtil.zero_padded w n) = Some n.
Proof.
  rewrite zero_padded_digits, int_of_digits_uint.
  - by rewrite of_uint_iter_D0, DecimalNat.Unsigned.of_to.
  - apply iter_D0_nonnil, to_uint_nonnil.
Qed.

Lemma length_zero_padded (w n : nat) :
  String.length (AgentflowUtil.zero_padded w n)
  = Nat.max w (String.length (Py.str_of_nat n)).
Proof.
  rewrite zero_padded_digits, length_string_of_uint, DecimalFacts.nb_digits_iter_D0.
  rewrite str_of_nat_digits, length_string_of_uint. lia.
Qed.

(** What [int_of_digits] accepts is the digits of a number. *)
Lemma int_of_digits_inv (s : string) (n : nat) :
  AgentflowUtil.int_of_digits s = Some n ->
  exists d, d <> Decimal.Nil /\ s = NilEmpty.string_of_uint d /\ n = Nat.of_uint d.
Proof.
  unfold AgentflowUtil.int_of_digits. destruct s as [|c r]; [done|].
  destruct (NilEmpty.uint_of_string (String c r)) as [d|] eqn:E; [|done].
  intros [= <-]. exists d. apply NilEmpty.sus in E. split_and!; [|done|done].
  intros ->. discriminate E.
Qed.

(** Writing a number out at the width it was read with gives the same
    digits. *)
Lemma zero_padded_roundtrip (s : string) (n : nat) :
  AgentflowUtil.int_of_digits s = Some n ->
  AgentflowUtil.zero_padded (String.length s) n = s.
Proof.
  intros H. apply int_of_digits_inv in H as (d & Hd & -> & ->).
  rewrite zero_padded_digits, str_of_nat_digits, !length_string_of_uint.
  rewrite DecimalNat.Unsigned.to_of. f_equal. by apply DecimalFacts.iter_D0_unorm.
Qed.

Lemma split_on_clean (sep : ascii) (a : string) :
  TextSpec.has_char sep a = false -> CsvRunner.split_on sep a = [a].
Proof.
  induction a as [|c r IH]; [done|]. cbn [TextSpec.has_char CsvRunner.split_on].
  intros H. apply orb_false_iff in H as [Hc Hr]. by rewrite Hc, (IH Hr).
Qed.

Lemma split_on_app (sep : ascii) (a b : string) :
  TextSpec.has_char sep a = false ->
  CsvRunner.split_on sep (a +:+ String sep b) = a :: CsvRunner.split_on sep b.
Proof.
  induction a as [|c r IH].
  - intros _. rewrite string_app_empty_l. cbn [CsvRunner.split_on].
    by rewrite Ascii.eqb_refl.
  - cbn [TextSpec.has_char]. intros H. apply orb_false_iff in H as [Hc Hr].
    rewrite string_app_cons. cbn [CsvRunner.split_on]. by rewrite Hc, (IH Hr).
Qed.

Lemma rev_app_has_space (s1 : string) :
  forall s2, TextSpec.has_space (String.rev_app s1 s2)
             = TextSpec.has_space s1 || TextSpec.has_space s2.
Proof.
  induction s1 as [|c r IH]; intros s2; [done|].
  cbn [String.rev_app TextSpec.has_space]. rewrite IH. cbn [TextSpec.has_space].
  destruct (Py.is_space c), (TextSpec.has_space r), (TextSpec.has_space s2); done.
Qed.

(** A text without white space is left alone by [strip]. *)
Lemma strip_no_space (s : string) : TextSpec.has_space s = false -> Py.strip s = s.
Proof.
  intros H.
  assert (Hl : forall t, TextSpec.has_space t = false -> Py.lstrip t = t).
  { intros [|c r]; [done|]. cbn [TextSpec.has_space Py.lstrip]. intros Ht.
    apply orb_false_iff in Ht as [-> _]. done. }
  unfold Py.strip, Py.rstrip. rewrite (Hl s H), Hl.
  - apply string_rev_involutive.
  - unfold String.rev. rewrite rev_app_has_space, H. done.
Qed.

Lemma digits_chars (d : Decimal.uint) :
  TextSpec.has_char "-"%char (NilEmpty.string_of_uint d) = false
  /\ TextSpec.has_space (NilEmpty.string_of_uint d) = false.
Proof. induction d; cbn; try done; destruct IHd as [-> ->]; done. Qed.

Lemma number_chars (s : string) :
  AgentflowUtil.is_number s = true ->
  TextSpec.has_char "-"%char s = false /\ TextSpec.has_space s = false.
Proof.
  unfold AgentflowUtil.is_number.
  destruct (AgentflowUtil.int_of_digits s) as [n|] eqn:E; [|done]. intros _.
  apply int_of_digits_inv in E as (d & _ & -> & _). apply digits_chars.
Qed.

Lemma has_space_app (a b : string) :
  TextSpec.has_space (a +:+ b) = TextSpec.has_space a || TextSpec.has_space b.
Proof.
  induction a as [|c r IH]; [done|].
  rewrite string_app_cons. cbn [TextSpec.has_space]. by rewrite IH, orb_assoc.
Qed.

Lemma lettered_T (t : string) :
  AgentflowUtil.is_number t = true ->
  AgentflowUtil.lettered "T" "t" (String "T" t) = Some t
  /\ AgentflowUtil.after_letter "M" "m" (String "T" t) = None.
Proof. intros H. unfold AgentflowUtil.lettered. cbn. by rewrite H. Qed.

Lemma lettered_M (m : string) :
  AgentflowUtil.is_number m = true ->
  AgentflowUtil.lettered "M" "m" (String "M" m) = Some m
  /\ AgentflowUtil.after_letter "M" "m" (String "M" m) = Some m.
Proof. intros H. unfold AgentflowUtil.lettered. cbn. by rewrite H. Qed.

(** An id written from numbers is read back as those numbers, and is
    left alone by [strip]. *)
Lemma task_re_written (m : option string) (t : string) (sub : option string) :
  match m with Some ms => AgentflowUtil.is_number ms = true | None => True end ->
  AgentflowUtil.is_number t = true ->
  match sub with Some ss => AgentflowUtil.is_number ss = true | None => True end ->
  AgentflowUtil.TASK_RE_match (IdSpec.written m t sub) = Some (m, t, sub)
  /\ Py.strip (IdSpec.written m t sub) = IdSpec.written m t sub.
Proof.
  intros Hm Ht Hs.
  destruct (number_chars t Ht) as [Ht1 Ht2].
  destruct (lettered_T t Ht) as [HT1 HT2].
  assert (HTc : TextSpec.has_char "-"%char (String "T" t) = false) by (cbn; by rewrite Ht1).
  assert (HTs : TextSpec.has_space (String "T" t) = false)
    by (cbn [TextSpec.has_space]; by rewrite Ht2).
  split.
  - unfold AgentflowUtil.TASK_RE_match, IdSpec.written.
    destruct m as [ms|], sub as [ss|].
    + destruct (number_chars ms Hm) as [Hm1 _]. destruct (number_chars ss Hs) as [Hs1 _].
      destruct (lettered_M ms Hm) as [HM1 HM2].
      rewrite split_on_app by (cbn; by rewrite Hm1).
      rewrite split_on_app by done. rewrite split_on_clean by done.
      by rewrite HM1, HT1, Hs.
    + destruct (number_chars ms Hm) as [Hm1 _]. destruct (lettered_M ms Hm) as [HM1 HM2].
      rewrite split_on_app by (cbn; by rewrite Hm1).
      rewrite split_on_clean by done. by rewrite HM2, HM1, HT1.
    + destruct (number_chars ss Hs) as [Hs1 _].
      rewrite split_on_app by done. rewrite split_on_clean by done.
      by rewrite HT2, HT1, Hs.
    + rewrite split_on_clean by done. by rewrite HT1.
  - apply strip_no_space. unfold IdSpec.written.
    destruct m as [ms|], sub as [ss|]; rewrite ?has_space_app;
      cbn [TextSpec.has_space]; rewrite ?has_space_app; cbn [TextSpec.has_space];
      try (destruct (number_chars ms Hm) as [_ ->]);
      try (destruct (number_chars ss Hs) as [_ ->]);
      by rewrite Ht2.
Qed.

Lemma is_number_zero_padded (w n : nat) :
  AgentflowUtil.is_number (AgentflowUtil.zero_padded w n) = true.
Proof. unfold AgentflowUtil.is_number. by rewrite int_of_zero_padded. Qed.

Lemma format_written (p : AgentflowUtil.ParsedTaskId) :
  AgentflowUtil.format p
  = IdSpec.written
      (match AgentflowUtil.module_num p with
       | Some n => Some (AgentflowUtil.zero_padded (AgentflowUtil.module_width p) n)
       | None => None
       end)
      (AgentflowUtil.zero_padded (AgentflowUtil.task_width p) (AgentflowUtil.task_num p))
      (match AgentflowUtil.sub_num p with
       | Some n => Some (AgentflowUtil.zero_padded (AgentflowUtil.sub_width p) n)
       | None => None
       end).
Proof.
  unfold AgentflowUtil.format, IdSpec.written.
  destruct (AgentflowUtil.module_num p), (AgentflowUtil.sub_num p);
    rewrite ?string_app_empty_r; reflexivity.
Qed.

Lemma format_parsed (p : AgentflowUtil.ParsedTaskId) :
  AgentflowUtil.parse_task_id (AgentflowUtil.format p) = Some (IdSpec.normalize p).
Proof.
  rewrite format_written. unfold AgentflowUtil.parse_task_id.
  match goal with |- context [IdSpec.written ?m ?t ?s] =>
    destruct (task_re_written m t s) as [Hmatch Hstrip] end.
  - destruct (AgentflowUtil.module_num p); [apply is_number_zero_padded | done].
  - apply is_number_zero_padded.
  - destruct (AgentflowUtil.sub_num p); [apply is_number_zero_padded | done].
  - rewrite Hstrip, Hmatch. unfold IdSpec.normalize.
    destruct (AgentflowUtil.module_num p), (AgentflowUtil.sub_num p);
      by rewrite !int_of_zero_padded.
Qed.

Lemma lettered_number (up low : ascii) (a t : string) :
  AgentflowUtil.lettered up low a = Some t -> AgentflowUtil.is_number t = true.
Proof.
  unfold AgentflowUtil.lettered.
  destruct (AgentflowUtil.after_letter up low a) as [ds|]; [|done].
  destruct (AgentflowUtil.is_number ds) eqn:E; [|done]. by intros [= <-].
Qed.

(** The groups of a matched id are numbers. *)
Lemma task_re_groups (s : string) (m : option string) (t : string) (sub : option string) :
  AgentflowUtil.TASK_RE_match s = Some (m, t, sub) ->
  match m with Some ms => AgentflowUtil.is_number ms = true | None => True end
  /\ AgentflowUtil.is_number t = true
  /\ match sub with Some ss => AgentflowUtil.is_number ss = true | None => True end.
Proof.
  unfold AgentflowUtil.TASK_RE_match.
  destruct (CsvRunner.split_on "-" s) as [|a [|b [|c [|? ?]]]]; try done.
  - destruct (AgentflowUtil.lettered "T" "t" a) as [t'|] eqn:Ea; [|done].
    intros [= <- <- <-]. split_and!; eauto using lettered_number.
  - destruct (AgentflowUtil.after_letter "M" "m" a).
    + destruct (AgentflowUtil.lettered "M" "m" a) as [m'|] eqn:Ea; [|done].
      destruct (AgentflowUtil.lettered "T" "t" b) as [t'|] eqn:Eb; [|done].
      intros [= <- <- <-]. split_and!; eauto using lettered_number.
    + destruct (AgentflowUtil.lettered "T" "t" a) as [t'|] eqn:Ea; [|done].
      destruct (AgentflowUtil.is_number b) eqn:Eb; [|done].
      intros [= <- <- <-]. split_and!; eauto using lettered_number.
  - destruct (AgentflowUtil.lettered "M" "m" a) as [m'|] eqn:Ea; [|done].
    destruct (AgentflowUtil.lettered "T" "t" b) as [t'|] eqn:Eb; [|done].
    destruct (AgentflowUtil.is_number c) eqn:Ec; [|done].
    intros [= <- <- <-]. split_and!; eauto using lettered_number.
Qed.

Lemma is_number_value (s : string) :
  AgentflowUtil.is_number s = true ->
  exists n, AgentflowUtil.int_of_digits s = Some n
            /\ AgentflowUtil.zero_padded (String.length s) n = s.
Proof.
  unfold AgentflowUtil.is_number.
  destruct (AgentflowUtil.int_of_digits s) as [n|] eqn:E; [|done]. intros _.
  exists n. split; [done|]. by apply zero_padded_roundtrip.
Qed.

(** The widths of a parsed id are those its numbers are written at. *)
Lemma parse_task_id_normal (s : string) (p : AgentflowUtil.ParsedTaskId) :
  AgentflowUtil.parse_task_id s = Some p -> IdSpec.normalize p = p.
Proof.
  unfold AgentflowUtil.parse_task_id.
  destruct (AgentflowUtil.TASK_RE_match (Py.strip s)) as [[[m t] sub]|] eqn:E; [|done].
  apply task_re_groups in E as (Hm & Ht & Hs). intros [= <-].
  apply is_number_value in Ht as (nt & Et & Rt).
  unfold IdSpec.normalize. cbn. rewrite Et. cbn. rewrite Rt.
  destruct m as [ms|], sub as [ss|].
  - apply is_number_value in Hm as (nm & Em & Rm).
    apply is_number_value in Hs as (ns & Es & Rs).
    rewrite Em, Es. by rewrite Rm, Rs.
  - apply is_number_value in Hm as (nm & Em & Rm). rewrite Em. by rewrite Rm.
  - apply is_number_value in Hs as (ns & Es & Rs). rewrite Es. by rewrite Rs.
  - done.
Qed.

(** X5. Writing a parsed task id out and parsing the text again gives
    the same numbers, each with the width it was written at. *)
Theorem parse_task_id_format (p : AgentflowUtil.ParsedTaskId) :
  AgentflowUtil.parse_task_id (AgentflowUtil.format p) = Some (IdSpec.normalize p).
Proof. apply format_parsed. Qed.

(** X6. A task id that parses is read back unchanged from its written
    form: numbers and widths are both kept. *)
Theorem parse_task_id_stable (s : string) (p : AgentflowUtil.ParsedTaskId) :
  AgentflowUtil.parse_task_id s = Some p ->
  AgentflowUtil.parse_task_id (AgentflowUtil.format p) = Some p.
Proof.
  intros H. rewrite format_parsed. by rewrite (parse_task_id_normal s p H).
Qed.

Lemma parse_task_id_stable_witness :
  AgentflowUtil.parse_task_id " m02-T007-9 "
  = Some {| AgentflowUtil.module_num := Some 2; AgentflowUtil.module_width := 2;
            AgentflowUtil.task_num := 7; AgentflowUtil.task_width := 3;
            AgentflowUtil.sub_num := Some 9; AgentflowUtil.sub_width := 1 |}
  /\ AgentflowUtil.parse_task_id "M02-T007-9"
     = Some {| AgentflowUtil.module_num := Some 2; AgentflowUtil.module_width := 2;
               AgentflowUtil.task_num := 7; AgentflowUtil.task_width := 3;
               AgentflowUtil.sub_num := Some 9; AgentflowUtil.sub_width := 1 |}.
Proof.
  split; [reflexivity|].
  exact (parse_task_id_stable " m02-T007-9 " _ eq_refl).
Defined.

Lemma next_task_id_parsed (s : string) :
  match AgentflowUtil.parse_task_id s with
  | None => AgentflowUtil.next_task_id s = s
  | Some p =>
      AgentflowUtil.parse_task_id (AgentflowUtil.next_task_id s)
      = Some (IdSpec.normalize (IdSpec.successor p))
  end.
Proof.
  unfold AgentflowUtil.next_task_id.
  destruct (AgentflowUtil.parse_task_id s) as [p|]; [|done].
  unfold IdSpec.successor.
  destruct (AgentflowUtil.sub_num p); apply format_parsed.
Qed.

(** X7. [next_task_id] leaves a text that is no task id as it is; for a
    task id the result is again a task id, the one whose sub-number
    (or task number, when there is no sub-number) is one higher, its
    other numbers the same. *)
Theorem next_task_id_spec (s : string) :
  match AgentflowUtil.parse_task_id s with
  | None => AgentflowUtil.next_task_id s = s
  | Some p =>
      AgentflowUtil.parse_task_id (AgentflowUtil.next_task_id s)
      = Some (IdSpec.normalize (IdSpec.successor p))
  end.
Proof. apply next_task_id_parsed. Qed.

(** X8. The number [next_task_id] raises is written at least as wide as
    before: zero padding is kept, and the field grows only when the
    higher number needs one more digit. *)
Theorem next_task_id_width (s : string) (p : AgentflowUtil.ParsedTaskId) :
  AgentflowUtil.parse_task_id s = Some p ->
  exists p', AgentflowUtil.parse_task_id (AgentflowUtil.next_task_id s) = Some p'
    /\ AgentflowUtil.module_num p' = AgentflowUtil.module_num p
    /\ AgentflowUtil.module_width p' = AgentflowUtil.module_width p
    /\ match AgentflowUtil.sub_num p with
       | Some n =>
           AgentflowUtil.sub_num p' = Some (n + 1)
           /\ AgentflowUtil.sub_width p'
              = Nat.max (AgentflowUtil.sub_width p) (String.length (Py.str_of_nat (n + 1)))
           /\ AgentflowUtil.task_num p' = AgentflowUtil.task_num p
           /\ AgentflowUtil.task_width p' = AgentflowUtil.task_width p
       | None =>
           AgentflowUtil.sub_num p' = None
           /\ AgentflowUtil.task_num p' = AgentflowUtil.task_num p + 1
           /\ AgentflowUtil.task_width p'
              = Nat.max (AgentflowUtil.task_width p)
                        (String.length (Py.str_of_nat (AgentflowUtil.task_num p + 1)))
       end.
Proof.
  intros H. pose proof (next_task_id_parsed s) as N. rewrite H in N.
  pose proof (parse_task_id_normal s p H) as Hn.
  eexists. split; [exact N|].
  assert (Hm : AgentflowUtil.module_width (IdSpec.normalize p) = AgentflowUtil.module_width p)
    by (by rewrite Hn).
  assert (Ht : AgentflowUtil.task_width (IdSpec.normalize p) = AgentflowUtil.task_width p)
    by (by rewrite Hn).
  unfold IdSpec.normalize in Hm, Ht. cbn in Hm, Ht.
  unfold IdSpec.successor, IdSpec.normalize.
  destruct (AgentflowUtil.sub_num p) as [n|] eqn:Es; cbn;
    split_and!; try done; try exact Hm; try exact Ht; apply length_zero_padded.
Qed.

Lemma next_task_id_width_witness :
  AgentflowUtil.next_task_id "M02-T09" = "M02-T10"
  /\ AgentflowUtil.next_task_id "t2-9" = "T2-10"
  /\ exists p', AgentflowUtil.parse_task_id (AgentflowUtil.next_task_id "t2-9") = Some p'
       /\ AgentflowUtil.sub_width p' = 2.
Proof.
  split; [reflexivity|]. split; [reflexivity|].
  destruct (next_task_id_width "t2-9" _ eq_refl) as (p' & Hp & _ & _ & Hs).
  exists p'. split; [exact Hp|]. cbn in Hs. by destruct Hs as (_ & -> & _).
Defined.

(** ** The engines of agentflow.py *)

Lemma tails_suffix (s c : string) :
  In c (Agentflow.tails s) <-> c <> "" /\ exists pre, s = pre +:+ c.
Proof.
  induction s as [|a r IH]; cbn [Agentflow.tails].
  - split; [done|]. intros (Hc & pre & H). destruct pre, c; done.
  - split.
    + intros [<- | H]; [split; [done | by exists ""]|].
      apply IH in H as (Hc & pre & ->). split; [done|]. by exists (String a pre).
    + intros (Hc & pre & H). destruct pre as [|b pre].
      * left. by rewrite string_app_empty_l in H.
      * right. rewrite string_app_cons in H. injection H as _ ->.
        apply IH. split; [done | by eexists].
Qed.

Lemma loads_opt_ok (rt : Py.Runtime) (c : string) (v : Py.json) :
  Agentflow.loads_opt rt c = Some v <-> Py.json_loads rt c = Py.Ok v.
Proof.
  unfold Agentflow.loads_opt. destruct (Py.json_loads rt c); split; congruence.
Qed.

(** X9. [try_parse_json_object] gives nothing for a blank text.  What
    it gives is what [json.loads] makes of a tail of the trimmed text
    that starts with a brace, or of the trimmed text as a whole; for a
    text that is not blank it gives nothing only when [json.loads]
    fails on all of these. *)
Theorem try_parse_json_object_spec (rt : Py.Runtime) (text : string) :
  (Py.strip text = "" -> Agentflow.try_parse_json_object rt text = None)
  /\ (forall v, Agentflow.try_parse_json_object rt text = Some v ->
        exists pre c, Py.strip text = pre +:+ c
                      /\ Py.json_loads rt c = Py.Ok v
                      /\ (pre = "" \/ Py.startswith "{" c = true))
  /\ (Py.strip text <> "" -> Agentflow.try_parse_json_object rt text = None ->
        forall pre c, Py.strip text = pre +:+ c ->
                      pre = "" \/ Py.startswith "{" c = true ->
                      forall v, Py.json_loads rt c <> Py.Ok v).
Proof.
  unfold Agentflow.try_parse_json_object.
  set (s := Py.strip text).
  set (cands := List.filter (fun c => Py.startswith "{" c) (rev (Agentflow.tails s))).
  assert (Hc : forall c, In c cands <-> Py.startswith "{" c = true /\ exists pre, s = pre +:+ c).
  { intros c. unfold cands. rewrite filter_In, <- in_rev, tails_suffix. split.
    - intros [(_ & H) Hb]. done.
    - intros [Hb H]. split_and!; [|done|done]. intros ->. discriminate Hb. }
  split_and!.
  - intros ->. done.
  - intros v. destruct (negb (Py.nonempty s)); [done|].
    destruct (omap (Agentflow.loads_opt rt) cands) as [|v0 rest] eqn:E.
    + intros H. apply loads_opt_ok in H. exists "", s. split_and!; [done | done | by left].
    + intros [= <-].
      assert (Hin : v0 ∈ omap (Agentflow.loads_opt rt) cands) by (rewrite E; left).
      apply list_elem_of_omap in Hin as (c & Hin & Hl).
      apply list_elem_of_In, Hc in Hin as (Hb & pre & Hs).
      apply loads_opt_ok in Hl. exists pre, c. split_and!; [done | done | by right].
  - intros Hne. destruct (negb (Py.nonempty s)) eqn:Hn.
    { unfold Py.nonempty in Hn. destruct s; [done | discriminate Hn]. }
    destruct (omap (Agentflow.loads_opt rt) cands) as [|v0 rest] eqn:E; [|done].
    intros Hwhole pre c Hs Hcase v Hv. apply loads_opt_ok in Hv.
    assert (Hb : Py.startswith "{" c = true \/ c = s).
    { destruct Hcase as [-> | Hb]; [right | by left].
      by rewrite string_app_empty_l in Hs. }
    destruct Hb as [Hb | ->]; [|congruence].
    assert (Hin : v ∈ omap (Agentflow.loads_opt rt) cands).
    { apply list_elem_of_omap. exists c. split; [|done].
      apply list_elem_of_In, Hc. split; [done | by exists pre]. }
    rewrite E in Hin. by apply elem_of_nil in Hin.
Qed.

Example try_parse_json_object_sample :
  Agentflow.try_parse_json_object Sample.rt ("log line {" +:+ Sample.claude_error_payload)
  = Some (Py.JObj [("is_error", Py.JBool true); ("session_id", Py.JStr "s1")])
  /\ Agentflow.try_parse_json_object Sample.rt "   " = None.
Proof. split; reflexivity. Qed.

Section AgentflowAttempts.
Import Agentflow.
Variables (env : Env) (cfg : Engine) (task : Task).

Lemma run_with_engine_engine (L : Locals) (eng : engine_name) (ph step : string) (w : World) :
  rr_engine (fst (run_with_engine env cfg task L eng ph step w)) = eng.
Proof.
  unfold run_with_engine. set (inv := invocation_of cfg task L eng ph step).
  destruct eng; cbn;
    [unfold run_codex | unfold run_claude | unfold run_gemini];
    unfold run_process; cbn;
    match goal with |- context [which env ?t ?e] => destruct (which env t e) end; cbn;
    try reflexivity;
    destruct (process env (now w) inv) as [rc out]; cbn; try reflexivity;
    destruct (try_parse_json_object (rt env) out) as [[| | | | |kv]|]; reflexivity.
Qed.

Lemma record_attempt_keeps (ph hphase : string) (aidx : option nat) (eng : engine_name)
    (r : RunResult) (L : Locals) (ts : TaskState) (w : World) :
  exists L' ts' w' rec,
    record_attempt task ph hphase aidx eng r L ts w = (L', ts', w')
    /\ history ts' = history ts ++ [rec]
    /\ sr_engine rec = eng /\ sr_ok rec = ok r /\ sr_exit_code rec = exit_code r
    /\ sr_phase rec = ph /\ sr_after_index rec = aidx
    /\ last_ok_engine ts' = last_ok_engine ts
    /\ status ts' = status ts.
Proof.
  unfold record_attempt.
  destruct (engine_eqb eng claude && Py.truthy (session_id r));
    destruct (engine_eqb eng codex);
    destruct (engine_eqb eng gemini && negb (ok r)
              && Py.contains "INVALID_ARGUMENT" (stdout r));
    cbn; eexists _, _, _, _; split_and!; reflexivity.
Qed.

Lemma attempts_outcome (ph step hphase : string) (aidx : option nat) :
  forall (order : list engine_name) (last : option RunResult)
         (L : Locals) (ts : TaskState) (w : World),
  exists res L' ts' w' recs,
    attempts env cfg task ph step hphase aidx order last L ts w = (res, L', ts', w')
    /\ history ts' = history ts ++ recs
    /\ status ts' = status ts
    /\ ((exists pre e post r,
           order = pre ++ e :: post
           /\ res = Some r /\ ok r = true /\ rr_engine r = e
           /\ map sr_engine recs = pre ++ [e]
           /\ map sr_ok recs = replicate (length pre) false ++ [true]
           /\ last_ok_engine ts' = Some e)
        \/ (map sr_engine recs = order
            /\ map sr_ok recs = replicate (length order) false
            /\ last_ok_engine ts' = last_ok_engine ts
            /\ match order with
               | [] => res = last
               | _ :: _ => exists r, res = Some r /\ ok r = false
               end)).
Proof.
  induction order as [|eng rest IH]; intros last L ts w.
  - exists last, L, ts, w, []. cbn. rewrite app_nil_r.
    split_and!; [done | done | done | by right].
  - cbn [attempts].
    destruct (run_with_engine env cfg task L eng ph step w) as [r w1] eqn:E.
    assert (Er : rr_engine r = eng).
    { pose proof (run_with_engine_engine L eng ph step w) as H. by rewrite E in H. }
    destruct (record_attempt_keeps ph hphase aidx eng r L ts w1)
      as (L2 & ts2 & w2 & rec & Hrec & Hh & He & Hok & _ & _ & _ & Hlast & Hst).
    rewrite Hrec. destruct (ok r) eqn:Hr.
    + exists (Some r), L2, (set_last_ok ts2 eng), w2, [rec].
      split_and!; [done | done | done |].
      left. exists [], eng, rest, r. cbn. rewrite He, Hok. by split_and!.
    + destruct (IH (Some r) L2 ts2 w2)
        as (res & L' & ts' & w' & recs & Hrun & Hh' & Hst' & Hcase).
      exists res, L', ts', w', (rec :: recs). rewrite Hrun, Hh', Hh, <- app_assoc.
      split_and!; [done | done | congruence |].
      destruct Hcase as [(pre & e & post & r' & -> & -> & Hr' & He' & Hm & Hk & Hl)
                        | (Hm & Hk & Hl & Hres)].
      * left. exists (eng :: pre), e, post, r'. cbn. rewrite He, Hok, Hm, Hk.
        by split_and!.
      * right. cbn. rewrite He, Hok, Hm, Hk. split_and!; [done | done | congruence |].
        destruct rest; [subst res; by exists r | done].
Qed.

(** X10. The engine loop of [run_task] tries the engines in the given
    order and stops at the first that succeeds.  It adds one history
    entry per engine tried: failures for those before, a success for the
    last, whose name becomes [last_ok_engine]; when all fail there is an
    entry for every engine of the order and [last_ok_engine] keeps its
    value. *)
Theorem attempts_stop_at_first_success (ph step hphase : string) (aidx : option nat)
    (order : list engine_name) (L : Locals) (ts : TaskState) (w : World) :
  exists res L' ts' w' recs,
    attempts env cfg task ph step hphase aidx order None L ts w = (res, L', ts', w')
    /\ history ts' = history ts ++ recs
    /\ ((exists pre e post r,
           order = pre ++ e :: post
           /\ res = Some r /\ ok r = true /\ rr_engine r = e
           /\ map sr_engine recs = pre ++ [e]
           /\ map sr_ok recs = replicate (length pre) false ++ [true]
           /\ last_ok_engine ts' = Some e)
        \/ (map sr_engine recs = order
            /\ map sr_ok recs = replicate (length order) false
            /\ last_ok_engine ts' = last_ok_engine ts
            /\ match res with Some r => ok r = false | None => order = [] end)).
Proof.
  destruct (attempts_outcome ph step hphase aidx order None L ts w)
    as (res & L' & ts' & w' & recs & Hrun & Hh & _ & Hcase).
  exists res, L', ts', w', recs. split_and!; [done | done |].
  destruct Hcase as [H | (Hm & Hk & Hl & Hres)]; [by left | right].
  split_and!; [done | done | done |].
  destruct order; [by subst res | by destruct Hres as (r & -> & Hr)].
Qed.

Lemma run_with_engine_missing (L : Locals) (eng : engine_name) (ph step : string) (w : World) :
  which env (now w) eng = false ->
  run_with_engine env cfg task L eng ph step w
  = (binary_missing eng, emit (EAttempt (invocation_of cfg task L eng ph step)) w).
Proof.
  intros H. unfold run_with_engine.
  destruct eng; [unfold run_codex | unfold run_claude | unfold run_gemini]; cbn;
    by rewrite H.
Qed.

Lemma record_attempt_world (ph hphase : string) (aidx : option nat) (eng : engine_name)
    (r : RunResult) (L : Locals) (ts : TaskState) (w : World) :
  snd (record_attempt task ph hphase aidx eng r L ts w)
  = emit (EHandoff (task_id task) hphase eng (ok r) (exit_code r)) w.
Proof.
  destruct (record_attempt_spec task ph hphase aidx eng r L ts w) as (L' & ts' & -> & _).
  done.
Qed.

Lemma attempts_all_missing (ph step hphase : string) (aidx : option nat) :
  forall (order : list engine_name) (last : option RunResult)
         (L : Locals) (ts : TaskState) (w : World),
  (forall e, In e order -> which env (now w) e = false) ->
  exists res L' ts' w' recs,
    attempts env cfg task ph step hphase aidx order last L ts w = (res, L', ts', w')
    /\ history ts' = history ts ++ recs
    /\ map sr_engine recs = order
    /\ Forall (fun rec => sr_ok rec = false /\ sr_exit_code rec = 127%Z) recs
    /\ now w' = now w /\ files w' = files w
    /\ Forall (fun e => forall inv, e <> ESpawn inv) (drop (length (trace w)) (trace w'))
    /\ (order <> [] -> exists r, res = Some r /\ ok r = false /\ exit_code r = 127%Z).
Proof.
  induction order as [|eng rest IH]; intros last L ts w Hw.
  - exists last, L, ts, w, []. cbn. rewrite app_nil_r, drop_all.
    split_and!; try done; constructor.
  - cbn [attempts]. rewrite run_with_engine_missing by (apply Hw; by left).
    set (w0 := emit (EAttempt (invocation_of cfg task L eng ph step)) w).
    destruct (record_attempt_keeps ph hphase aidx eng (binary_missing eng) L ts w0)
      as (L2 & ts2 & w2 & rec & Hrec & Hh & He & Hok & Hex & _ & _ & _ & _).
    pose proof (record_attempt_world ph hphase aidx eng (binary_missing eng) L ts w0) as Hw2.
    rewrite Hrec in Hw2. cbn [snd] in Hw2. rewrite Hrec. cbn [ok binary_missing].
    destruct (IH (Some (binary_missing eng)) L2 ts2 w2)
      as (res & L' & ts' & w' & recs & Hrun & Hh' & Hm & Hall & Hnow & Hfiles & Htr & Hres).
    { intros e He'. rewrite Hw2. cbn. apply Hw. by right. }
    exists res, L', ts', w', (rec :: recs). rewrite Hrun, Hh', Hh, <- app_assoc.
    split_and!; [done | done | cbn; by rewrite He, Hm | | | | | ].
    + constructor; [|done]. by rewrite Hok, Hex.
    + rewrite Hnow, Hw2. done.
    + rewrite Hfiles, Hw2. done.
    + rewrite Hw2 in Htr. cbn in Htr. rewrite !length_app in Htr. cbn in Htr.
      assert (Hpre : exists new, trace w' = (trace w ++ [EAttempt (invocation_of cfg task L eng ph step)]
                        ++ [EHandoff (task_id task) hphase eng false 127%Z]) ++ new).
      { destruct (attempts_spec env cfg task ph step hphase aidx rest
                    (Some (binary_missing eng)) L2 ts2 w2)
          as (res0 & L0 & ts0 & w0' & recs0 & new & Hrun0 & _ & Ht0 & _).
        rewrite Hrun in Hrun0. injection Hrun0 as <- <- <- <-.
        exists new. rewrite Ht0, Hw2. cbn. by rewrite <- !app_assoc. }
      destruct Hpre as (new & Hnew). rewrite Hnew in Htr |- *.
      rewrite <- !app_assoc. rewrite drop_app_length.
      rewrite !app_assoc in Htr.
      replace (length (trace w) + 1 + 1)
        with (length ((trace w ++ [EAttempt (invocation_of cfg task L eng ph step)])
                      ++ [EHandoff (task_id task) hphase eng false 127%Z])) in Htr
        by (rewrite !length_app; cbn; lia).
      rewrite drop_app_length in Htr.
      cbn. constructor; [done|]. constructor; [done|]. exact Htr.
    + intros _. destruct rest as [|e2 rest2].
      * cbn in Hrun. injection Hrun as <- _ _ _. by eexists.
      * by apply Hres.
Qed.

(** X11. When none of the engines of the order is installed, the engine
    loop starts no process: every engine gets a history entry that says
    failure with exit code 127, and so does the result. *)
Theorem attempts_without_binaries (ph step hphase : string) (aidx : option nat)
    (order : list engine_name) (L : Locals) (ts : TaskState) (w : World) :
  (forall e, In e order -> which env (now w) e = false) ->
  exists res L' ts' w' recs,
    attempts env cfg task ph step hphase aidx order None L ts w = (res, L', ts', w')
    /\ history ts' = history ts ++ recs
    /\ map sr_engine recs = order
    /\ Forall (fun rec => sr_ok rec = false /\ sr_exit_code rec = 127%Z) recs
    /\ Forall (fun e => forall inv, e <> ESpawn inv) (drop (length (trace w)) (trace w'))
    /\ (order <> [] -> exists r, res = Some r /\ ok r = false /\ exit_code r = 127%Z).
Proof.
  intros Hw.
  destruct (attempts_all_missing ph step hphase aidx order None L ts w Hw)
    as (res & L' & ts' & w' & recs & H1 & H2 & H3 & H4 & _ & _ & H7 & H8).
  exists res, L', ts', w', recs. by split_and!.
Qed.

End AgentflowAttempts.

Lemma attempts_without_binaries_witness :
  exists res L' ts' w' recs,
    Agentflow.attempts Sample.af_bare_env Sample.af_cfg (Sample.af_task "T1-1")
      "main" "run" "main" None [Agentflow.codex; Agentflow.claude] None
      Sample.af_locals Agentflow.TaskState_empty (Sample.af_world ∅) = (res, L', ts', w')
    /\ Agentflow.history ts' = recs
    /\ map Agentflow.sr_engine recs = [Agentflow.codex; Agentflow.claude]
    /\ Forall (fun rec => Agentflow.sr_ok rec = false /\ Agentflow.sr_exit_code rec = 127%Z) recs.
Proof.
  destruct (attempts_without_binaries Sample.af_bare_env Sample.af_cfg (Sample.af_task "T1-1")
              "main" "run" "main" None [Agentflow.codex; Agentflow.claude]
              Sample.af_locals Agentflow.TaskState_empty (Sample.af_world ∅))
    as (res & L' & ts' & w' & recs & Hrun & Hh & Hm & Hall & _).
  - intros e _. reflexivity.
  - exists res, L', ts', w', recs. split_and!; [exact Hrun | exact Hh | exact Hm | exact Hall].
Defined.

(** ** What [run_task] of agentflow.py keeps *)

Section AgentflowInvariants.
Import Agentflow.
Variables (env : Env) (cfg : Engine) (task : Task).

Lemma after_loop_inv (pollfuel : nat) (primary : engine_name) (fb : list engine_name)
    (total : nat) :
  forall (remaining : list string) (L : Locals) (ts : TaskState) (st : State)
         (cur : Cursor) (w : World) (x : loop_exit),
  after_loop env cfg pollfuel task primary fb total remaining L ts st cur w = Py.Returned x ->
  match x with
  | LoopStop st' cur' w' =>
      (cursor st = cur -> cursor st' = cur')
      /\ (forall tid, tid <> task_id task -> tasks st' !! tid = tasks st !! tid)
      /\ (exists ts' recs, tasks st' !! task_id task = Some ts'
                           /\ history ts' = history ts ++ recs)
      /\ task_index cur' = task_index cur /\ phase cur' = phase cur
      /\ after_index cur <= after_index cur' < after_index cur + length remaining
  | LoopDone ts' st' cur' w' =>
      (cursor st = cur -> cursor st' = cur')
      /\ (forall tid, tid <> task_id task -> tasks st' !! tid = tasks st !! tid)
      /\ (exists recs, history ts' = history ts ++ recs)
      /\ task_index cur' = task_index cur /\ phase cur' = phase cur
      /\ after_index cur' = after_index cur + length remaining
  end.
Proof.
  induction remaining as [|ap rest IH]; intros L ts st cur w x H.
  - cbn in H. injection H as <-. split_and!; try done; try (cbn; lia).
    exists []. by rewrite app_nil_r.
  - cbn [after_loop] in H.
    destruct (wait_if_paused env pollfuel w) as [w1|]; [|done].
    unfold should_stop, observe in H. cbv beta iota zeta in H.
    destruct (Ctl.stop_present (user env (now w1) (markers w1))).
    + injection H as <-. split_and!; try done.
      * intros tid Hne. cbn. by rewrite lookup_insert_ne.
      * exists ts, []. cbn. rewrite lookup_insert_eq, app_nil_r. done.
      * cbn. lia.
    + match type of H with context [attempts env cfg task ?ph ?step ?hp ?ai ?o None ?L0 ?t0 ?w0] =>
        destruct (attempts_outcome env cfg task ph step hp ai o None L0 t0 w0)
          as (res & L3 & ts3 & w3 & recs & Hrun & Hh & _ & _)
      end.
      rewrite Hrun in H. apply IH in H.
      destruct x as [st' cur' w' | ts' st' cur' w'].
      * destruct H as (Hc & Hf & (ts' & recs' & Hl & Hh') & Hti & Hph & Hai).
        cbn in Hc, Hf, Hti, Hph, Hai. split_and!; try done; try lia.
        -- intros _. by apply Hc.
        -- intros tid Hne. rewrite (Hf tid Hne). by rewrite lookup_insert_ne.
        -- exists ts', (recs ++ recs'). split; [done|]. rewrite Hh'.
           destruct (match res with Some r => negb (ok r) | None => true end);
             cbn; by rewrite Hh, app_assoc.
        -- cbn. lia.
      * destruct H as (Hc & Hf & (recs' & Hh') & Hti & Hph & Hai).
        cbn in Hc, Hf, Hti, Hph, Hai. split_and!; try done.
        -- intros _. by apply Hc.
        -- intros tid Hne. rewrite (Hf tid Hne). by rewrite lookup_insert_ne.
        -- exists (recs ++ recs'). rewrite Hh'.
           destruct (match res with Some r => negb (ok r) | None => true end);
             cbn; by rewrite Hh, app_assoc.
        -- cbn. lia.
Qed.

Lemma run_after_inv (pollfuel : nat) (after_prompts : list string)
    (primary : engine_name) (fb : list engine_name)
    (L : Locals) (ts : TaskState) (st st' : State) (cur cur' : Cursor) (w w' : World) :
  run_after env cfg pollfuel task after_prompts primary fb L ts st cur w
    = Py.Returned (st', cur', w') ->
  (cursor st = cur -> cursor st' = cur')
  /\ (forall tid, tid <> task_id task -> tasks st' !! tid = tasks st !! tid)
  /\ (exists ts' recs, tasks st' !! task_id task = Some ts'
                       /\ history ts' = history ts ++ recs)
  /\ (cur' = next_task_cursor cur
      \/ (task_index cur' = task_index cur /\ phase cur' = "after" /\ phase cur = "after"
          /\ after_index cur <= after_index cur' < length after_prompts)).
Proof.
  unfold run_after. intros H.
  match type of H with context [after_loop env cfg pollfuel task primary fb ?n ?rem L ts st cur w] =>
    set (remaining := rem) in *;
    destruct (after_loop env cfg pollfuel task primary fb n remaining L ts st cur w)
      as [x| |] eqn:E; [|done|done]
  end.
  apply after_loop_inv in E.
  destruct x as [st1 cur1 w1 | ts1 st1 cur1 w1].
  - injection H as <- <- <-.
    destruct E as (Hc & Hf & Hts & Hti & Hph & Hai).
    split_and!; [done | done | done |]. right.
    unfold remaining in Hai.
    destruct (String.eqb (phase cur) "after") eqn:Ep; [|cbn in Hai; lia].
    apply String.eqb_eq in Ep. rewrite length_drop in Hai.
    split_and!; [done | congruence | done | lia | lia].
  - unfold finish_task in H. injection H as <- <- <-.
    destruct E as (Hc & Hf & (recs & Hh) & Hti & Hph & Hai).
    split_and!.
    + done.
    + intros tid Hne. cbn. rewrite lookup_insert_ne by done. by apply Hf.
    + eexists _, recs. cbn. rewrite lookup_insert_eq. split; [done|]. by cbn.
    + left. unfold next_task_cursor. by rewrite Hti.
Qed.

Lemma ensure_task_state_spec (st : State) (tid : string) :
  cursor (fst (ensure_task_state st tid)) = cursor st
  /\ tasks (fst (ensure_task_state st tid)) !! tid = Some (snd (ensure_task_state st tid))
  /\ snd (ensure_task_state st tid) = default TaskState_empty (tasks st !! tid)
  /\ (forall tid', tid' <> tid ->
        tasks (fst (ensure_task_state st tid)) !! tid' = tasks st !! tid').
Proof.
  unfold ensure_task_state. destruct (tasks st !! tid) as [ts|] eqn:E; cbn.
  - by split_and!.
  - split_and!; [done | apply lookup_insert_eq | done |].
    intros tid' Hne. by rewrite lookup_insert_ne.
Qed.

Lemma run_task_inv (pollfuel : nat) (after_prompts : list string)
    (primary : engine_name) (fb : list engine_name)
    (st st' : State) (cur cur' : Cursor) (w w' : World) :
  run_task env cfg pollfuel task after_prompts primary fb st cur w
    = Py.Returned (st', cur', w') ->
  (cursor st = cur -> cursor st' = cur')
  /\ (forall tid, tid <> task_id task -> tasks st' !! tid = tasks st !! tid)
  /\ (exists ts' recs,
        tasks st' !! task_id task = Some ts'
        /\ history ts'
           = history (default TaskState_empty (tasks st !! task_id task)) ++ recs)
  /\ (cur' = next_task_cursor cur
      \/ (cur' = cur /\ phase cur = "main")
      \/ (task_index cur' = task_index cur /\ phase cur' = "after"
          /\ after_index cur' < length after_prompts
          /\ (phase cur = "after" -> after_index cur <= after_index cur'))).
Proof.
  unfold run_task.
  destruct (ensure_task_state_spec st (task_id task)) as (Hc0 & Hl0 & Hd0 & Hf0).
  destruct (ensure_task_state st (task_id task)) as [st0 ts0]. cbn [fst snd] in *.
  rewrite <- Hd0.
  destruct (row_engine_of task) as [re|]; [|done].
  destruct (String.eqb (phase cur) "main") eqn:Eph.
  - apply String.eqb_eq in Eph.
    destruct (wait_if_paused env pollfuel w) as [w1|]; [|done].
    unfold should_stop, observe. cbv beta iota zeta.
    destruct (Ctl.stop_present (user env (now w1) (markers w1))).
    + intros [= <- <- <-]. split_and!; [congruence | done | | by right; left].
      exists ts0, []. by rewrite app_nil_r.
    + match goal with |- context [attempts env cfg task ?ph ?step ?hp ?ai ?o None ?L0 ?t0 ?w0] =>
        destruct (attempts_outcome env cfg task ph step hp ai o None L0 t0 w0)
          as (res & L3 & ts3 & w3 & recs & Hrun & Hh & _ & _)
      end.
      rewrite Hrun. destruct res as [r|]; [|done].
      destruct (negb (ok r)).
      * intros [= <- <- <-]. split_and!; [done | | | by left].
        -- intros tid Hne. cbn. rewrite lookup_insert_ne by done. by apply Hf0.
        -- eexists _, recs. cbn. rewrite lookup_insert_eq. split; [done|]. by cbn.
      * intros H. apply run_after_inv in H as (Hc & Hf & (ts' & recs' & Hl & Hh') & Hcur).
        cbn in Hc, Hf, Hh', Hcur. split_and!.
        -- intros _. by apply Hc.
        -- intros tid Hne. rewrite (Hf tid Hne). rewrite lookup_insert_ne by done.
           by apply Hf0.
        -- exists ts', (recs ++ recs'). split; [done|]. by rewrite Hh', Hh, app_assoc.
        -- destruct Hcur as [-> | (Hti & Hph & _ & Hai)]; [by left|].
           right; right. split_and!; [done | done | lia |].
           rewrite Eph. discriminate.
  - intros H. apply run_after_inv in H as (Hc & Hf & Hts & Hcur).
    split_and!.
    + intros Hcur0. apply Hc. congruence.
    + intros tid Hne. rewrite (Hf tid Hne). by apply Hf0.
    + done.
    + destruct Hcur as [-> | (Hti & Hph & Hph0 & Hai)]; [by left|].
      right; right. split_and!; [done | done | lia | intros _; lia].
Qed.

(** X12. [run_task] only adds to the history of its own task and leaves
    the entries of all other tasks alone; and when the state document
    and the cursor agree on entry, they agree on return. *)
Theorem run_task_history_append_only (pollfuel : nat) (after_prompts : list string)
    (primary : engine_name) (fb : list engine_name)
    (st st' : State) (cur cur' : Cursor) (w w' : World) :
  run_task env cfg pollfuel task after_prompts primary fb st cur w
    = Py.Returned (st', cur', w') ->
  (forall tid, tid <> task_id task -> tasks st' !! tid = tasks st !! tid)
  /\ (exists ts' recs,
        tasks st' !! task_id task = Some ts'
        /\ history ts'
           = history (default TaskState_empty (tasks st !! task_id task)) ++ recs)
  /\ (cursor st = cur -> cursor st' = cur').
Proof.
  intros H. apply run_task_inv in H as (Hc & Hf & Hts & _). by split_and!.
Qed.

(** X13. The cursor [run_task] returns never moves back: it is the first
    step of the next task, or the cursor as it was (a stop before the
    MAIN step), or a follow-up prompt of the same task that exists and
    is not before the one the task was at. *)
Theorem run_task_cursor_advances (pollfuel : nat) (after_prompts : list string)
    (primary : engine_name) (fb : list engine_name)
    (st st' : State) (cur cur' : Cursor) (w w' : World) :
  run_task env cfg pollfuel task after_prompts primary fb st cur w
    = Py.Returned (st', cur', w') ->
  cur' = next_task_cursor cur
  \/ (cur' = cur /\ phase cur = "main")
  \/ (task_index cur' = task_index cur /\ phase cur' = "after"
      /\ after_index cur' < length after_prompts
      /\ (phase cur = "after" -> after_index cur <= after_index cur')).
Proof.
  intros H. by apply run_task_inv in H as (_ & _ & _ & Hcur).
Qed.

End AgentflowInvariants.

Lemma run_task_history_append_only_witness :
  exists st' cur' w' ts',
    Agentflow.run_task Sample.af_after2_failing_env Sample.af_cfg 1 (Sample.af_task "T1-1")
      ["first"; "second"] Agentflow.codex [Agentflow.claude]
      Agentflow.State_default Agentflow.Cursor_default (Sample.af_world ∅)
    = Py.Returned (st', cur', w')
    /\ Agentflow.tasks st' !! "T1-1" = Some ts'
    /\ Agentflow.tasks st' !! "T1-2" = None
    /\ Agentflow.cursor st' = cur'.
Proof.
  destruct (Agentflow.run_task Sample.af_after2_failing_env Sample.af_cfg 1
              (Sample.af_task "T1-1") ["first"; "second"] Agentflow.codex [Agentflow.claude]
              Agentflow.State_default Agentflow.Cursor_default (Sample.af_world ∅))
    as [[[st' cur'] w']| |] eqn:E;
    [| vm_compute in E; discriminate E | vm_compute in E; discriminate E].
  destruct (run_task_history_append_only _ _ _ _ _ _ _ _ _ _ _ _ _ E)
    as (Hf & (ts' & recs & Hl & _) & Hc).
  exists st', cur', w', ts'. split_and!; [reflexivity | exact Hl | | by apply Hc].
  by rewrite (Hf "T1-2").
Defined.

Lemma run_task_cursor_advances_witness :
  exists st' cur' w',
    Agentflow.run_task Sample.af_failing_env Sample.af_cfg 1 (Sample.af_task "T1-1")
      ["first"; "second"] Agentflow.codex [Agentflow.claude]
      Agentflow.State_default Agentflow.Cursor_default (Sample.af_world ∅)
    = Py.Returned (st', cur', w')
    /\ Agentflow.task_index Agentflow.Cursor_default <= Agentflow.task_index cur'.
Proof.
  destruct (Agentflow.run_task Sample.af_failing_env Sample.af_cfg 1
              (Sample.af_task "T1-1") ["first"; "second"] Agentflow.codex [Agentflow.claude]
              Agentflow.State_default Agentflow.Cursor_default (Sample.af_world ∅))
    as [[[st' cur'] w']| |] eqn:E;
    [| vm_compute in E; discriminate E | vm_compute in E; discriminate E].
  exists st', cur', w'. split; [reflexivity|].
  destruct (run_task_cursor_advances _ _ _ _ _ _ _ _ _ _ _ _ _ E)
    as [-> | [[-> _] | (-> & _)]]; cbn; lia.
Defined.

(** ** The state file of agentflow.py *)

(** X14. However [save_state] is cut short, the state file of
    agentflow.py holds either what it held before or the complete new
    text: never a part of it, and never nothing where there was a
    document. *)
Theorem agentflow_state_file_survives_kill (env : Agentflow.Env) (cfg : Agentflow.Engine)
    (st : Agentflow.State) (files files' : gmap string string) :
  Fs.crash_point (Agentflow.save_state_ops (Agentflow.state_path cfg)
                    (Agentflow.dumps_state env st)) files files' ->
  files' !! Fs.path_str (Agentflow.state_path cfg)
    = files !! Fs.path_str (Agentflow.state_path cfg)
  \/ files' !! Fs.path_str (Agentflow.state_path cfg) = Some (Agentflow.dumps_state env st).
Proof.
  apply agentflow_save_state_atomic, agentflow_tmp_differs.
Qed.

Lemma agentflow_state_file_survives_kill_witness :
  let files : gmap string string := {[ ".agentflow/state.json" := "old" ]} in
  let files' : gmap string string :=
    <[ ".agentflow/state.tmp" := "" ]> {[ ".agentflow/state.json" := "old" ]} in
  files' !! ".agentflow/state.json" = files !! ".agentflow/state.json"
  \/ files' !! ".agentflow/state.json" = Some "{}".
Proof.
  intros files files'.
  apply (agentflow_state_file_survives_kill Sample.af_failing_env Sample.af_cfg
           Agentflow.State_default files files').
  apply Fs.crash_later, Fs.crash_later, Fs.crash_here.
Defined.

Lemma save_state_files (env : Agentflow.Env) (cfg : Agentflow.Engine)
    (st : Agentflow.State) (w : Agentflow.World) :
  Agentflow.files (Agentflow.save_state env (Agentflow.state_path cfg) st w)
  = <[Fs.path_str (Agentflow.state_path cfg) := Agentflow.dumps_state env st]>
      (delete (Fs.path_str (Fs.with_suffix (Agentflow.state_path cfg) ".tmp"))
         (<[Fs.path_str (Fs.with_suffix (Agentflow.state_path cfg) ".tmp")
             := Agentflow.dumps_state env st]>
            (<[Fs.path_str (Fs.with_suffix (Agentflow.state_path cfg) ".tmp") := ""]>
               (Agentflow.files w)))).
Proof.
  unfold Agentflow.save_state, Agentflow.do_ops, Agentflow.save_state_ops, Fs.write_text.
  cbn [Agentflow.files]. unfold Fs.run_ops.
  cbn [app fold_left Fs.apply_op].
  rewrite lookup_insert_eq. cbn [default].
  change ("" +:+ Agentflow.dumps_state env st) with (Agentflow.dumps_state env st).
  by rewrite lookup_insert_eq.
Qed.

(** X15. What [save_state] writes, [load_state] reads back: after a
    save the state file holds the text of the document, the temporary
    file is gone, every other file is as it was, and loading gives the
    saved document (when [json.loads] undoes [json.dumps] on it) without
    touching anything. *)
Theorem save_then_load_state (env : Agentflow.Env) (cfg : Agentflow.Engine)
    (st : Agentflow.State) (w : Agentflow.World) :
  Agentflow.loads_state env (Agentflow.dumps_state env st) = Agentflow.StateDoc st ->
  let w' := Agentflow.save_state env (Agentflow.state_path cfg) st w in
  Agentflow.load_state env (Agentflow.state_path cfg) w' = (Agentflow.StateDoc st, w')
  /\ Agentflow.files w' !! Fs.path_str (Agentflow.state_path cfg)
     = Some (Agentflow.dumps_state env st)
  /\ Agentflow.files w' !! Fs.path_str (Fs.with_suffix (Agentflow.state_path cfg) ".tmp") = None
  /\ (forall f, f <> Fs.path_str (Agentflow.state_path cfg) ->
                f <> Fs.path_str (Fs.with_suffix (Agentflow.state_path cfg) ".tmp") ->
                Agentflow.files w' !! f = Agentflow.files w !! f).
Proof.
  intros Hrt w'. pose proof (agentflow_tmp_differs cfg) as Hne.
  pose proof (save_state_files env cfg st w) as Hf. fold w' in Hf.
  assert (Hp : Agentflow.files w' !! Fs.path_str (Agentflow.state_path cfg)
               = Some (Agentflow.dumps_state env st)).
  { rewrite Hf. apply lookup_insert_eq. }
  split_and!.
  - unfold Agentflow.load_state. by rewrite Hp, Hrt.
  - exact Hp.
  - rewrite Hf. rewrite lookup_insert_ne by done. apply lookup_delete_eq.
  - intros f H1 H2. rewrite Hf.
    rewrite lookup_insert_ne by done. rewrite lookup_delete_ne by done.
    by rewrite !lookup_insert_ne.
Qed.

Lemma save_then_load_state_witness :
  Agentflow.load_state Sample.af_default_env (Agentflow.state_path Sample.af_cfg)
    (Agentflow.save_state Sample.af_default_env (Agentflow.state_path Sample.af_cfg)
       Agentflow.State_default (Sample.af_world ∅))
  = (Agentflow.StateDoc Agentflow.State_default,
     Agentflow.save_state Sample.af_default_env (Agentflow.state_path Sample.af_cfg)
       Agentflow.State_default (Sample.af_world ∅)).
Proof.
  exact (proj1 (save_then_load_state Sample.af_default_env Sample.af_cfg
                  Agentflow.State_default (Sample.af_world ∅) eq_refl)).
Defined.

(** ** Pause and stop *)

Lemma agentflow_wait_returns (env : Agentflow.Env) (fuel : nat) :
  forall w w', Agentflow.wait_if_paused env fuel w = Some w' ->
    Ctl.pause_present (Agentflow.markers w') = false
    /\ Agentflow.files w' = Agentflow.files w
    /\ exists k, k < fuel
                 /\ Agentflow.trace w' = Agentflow.trace w ++ replicate k Agentflow.ESleep
                 /\ Agentflow.now w' = Agentflow.now w + 2 * k + 1.
Proof.
  induction fuel as [|fuel IH]; intros w w' H; [discriminate|].
  cbn in H.
  destruct (Ctl.pause_present (Agentflow.user env (Agentflow.now w) (Agentflow.markers w)))
    eqn:Hp.
  - apply IH in H as (Hm & Hf & k & Hk & Ht & Hn). cbn in Hf, Ht, Hn.
    split_and!; [done | done |]. exists (S k). split_and!; [lia | | lia].
    rewrite Ht. cbn. by rewrite <- app_assoc.
  - injection H as <-. cbn. split_and!; [done | done |].
    exists 0. cbn. split_and!; [lia | by rewrite app_nil_r | lia].
Qed.

(** X16. [ControlFiles.wait_if_paused] of agentflow.py returns only
    after a look at the pause marker that found it gone; until then it
    does nothing but sleep between the looks, and it touches no file. *)
Theorem agentflow_wait_until_unpaused (env : Agentflow.Env) (fuel : nat)
    (w w' : Agentflow.World) :
  Agentflow.wait_if_paused env fuel w = Some w' ->
  Ctl.pause_present (Agentflow.markers w') = false
  /\ Agentflow.files w' = Agentflow.files w
  /\ exists k, k < fuel
               /\ Agentflow.trace w' = Agentflow.trace w ++ replicate k Agentflow.ESleep
               /\ Agentflow.now w' = Agentflow.now w + 2 * k + 1.
Proof. apply agentflow_wait_returns. Qed.

Lemma agentflow_wait_until_unpaused_witness :
  exists w', Agentflow.wait_if_paused Sample.af_paused_env 5 (Sample.af_world ∅) = Some w'
             /\ Ctl.pause_present (Agentflow.markers w') = false
             /\ Agentflow.trace w' = [Agentflow.ESleep].
Proof.
  destruct (Agentflow.wait_if_paused Sample.af_paused_env 5 (Sample.af_world ∅))
    as [w'|] eqn:E; [|vm_compute in E; discriminate E].
  exists w'. split; [reflexivity|].
  destruct (agentflow_wait_until_unpaused _ _ _ _ E) as (Hp & _ & _).
  split; [exact Hp|]. vm_compute in E. by injection E as <-.
Defined.

Lemma csv_wait_until_unpaused_or_stopped_aux (env : CsvRunner.Env) (fuel : nat)
    (w w' : CsvRunner.World) :
  CsvRunner.wait_if_paused env fuel w = Some w' ->
  (Ctl.pause_present (CsvRunner.markers w') = false
   \/ Ctl.stop_present (CsvRunner.markers w') = true)
  /\ CsvRunner.files w' = CsvRunner.files w
  /\ exists k, k < fuel
               /\ CsvRunner.trace w' = CsvRunner.trace w ++ replicate k CsvRunner.ESleep.
Proof.
  revert w w'. induction fuel as [|fuel IH]; intros w w' H; [discriminate|].
  cbn in H.
  destruct (Ctl.pause_present (CsvRunner.user env (CsvRunner.now w) (CsvRunner.markers w)))
    eqn:Hp.
  - match type of H with context [Ctl.stop_present ?m] =>
      destruct (Ctl.stop_present m) eqn:Hs end.
    + injection H as <-. cbn. split_and!; [by right | done |].
      exists 0. cbn. split; [lia | by rewrite app_nil_r].
    + apply IH in H as (Hm & Hf & k & Hk & Ht). cbn in Hf, Ht.
      split_and!; [done | done |]. exists (S k). split; [lia|].
      rewrite Ht. cbn. by rewrite <- app_assoc.
  - injection H as <-. cbn. split_and!; [by left | done |].
    exists 0. cbn. split; [lia | by rewrite app_nil_r].
Qed.


(** X17. [wait_if_paused] of agent_csv_runner.py returns only after a
    look that found the pause marker gone or the stop marker there;
    until then it does nothing but sleep, and it touches no file. *)
Theorem csv_wait_until_unpaused_or_stopped (env : CsvRunner.Env) (fuel : nat)
    (w w' : CsvRunner.World) :
  CsvRunner.wait_if_paused env fuel w = Some w' ->
  (Ctl.pause_present (CsvRunner.markers w') = false
   \/ Ctl.stop_present (CsvRunner.markers w') = true)
  /\ CsvRunner.files w' = CsvRunner.files w
  /\ exists k, k < fuel
               /\ CsvRunner.trace w' = CsvRunner.trace w ++ replicate k CsvRunner.ESleep.
Proof. apply csv_wait_until_unpaused_or_stopped_aux. Qed.

Lemma csv_wait_until_unpaused_or_stopped_witness :
  exists w', CsvRunner.wait_if_paused (Sample.csv_stuck_env) 3 Sample.csv_world = Some w'
             /\ Ctl.stop_present (CsvRunner.markers w') = true
             /\ CsvRunner.trace w' = [].
Proof.
  destruct (CsvRunner.wait_if_paused Sample.csv_stuck_env 3 Sample.csv_world)
    as [w'|] eqn:E; [|vm_compute in E; discriminate E].
  exists w'. split; [reflexivity|].
  destruct (csv_wait_until_unpaused_or_stopped _ _ _ _ E) as ([Hp | Hs] & _ & _).
  - vm_compute in E. injection E as <-. discriminate Hp.
  - split; [exact Hs|]. vm_compute in E. by injection E as <-.
Defined.

Section AgentflowStop.
Import Agentflow.
Variables (env : Env) (cfg : Engine) (task : Task).

(** X18. With the stop marker in place when [run_task] looks for it
    before a step, no engine is started: the cursor comes back as it
    was, no file is written, the history of the task is as before and
    the other tasks are untouched. *)
Theorem run_task_stop_starts_nothing (pollfuel : nat) (after_prompts : list string)
    (primary : engine_name) (fb : list engine_name) (st : State) (cur : Cursor)
    (w w1 : World) (re : option engine_name) :
  phase cur = "main" \/ (phase cur = "after" /\ after_index cur < length after_prompts) ->
  row_engine_of task = Py.Ok re ->
  wait_if_paused env pollfuel w = Some w1 ->
  Ctl.stop_present (user env (now w1) (markers w1)) = true ->
  exists st' w' k,
    run_task env cfg pollfuel task after_prompts primary fb st cur w
      = Py.Returned (st', cur, w')
    /\ files w' = files w
    /\ trace w' = trace w ++ replicate k ESleep
    /\ tasks st' !! task_id task
       = Some (default TaskState_empty (tasks st !! task_id task))
    /\ (forall tid, tid <> task_id task -> tasks st' !! tid = tasks st !! tid).
Proof.
  intros Hph Hre Hwait Hstop. unfold run_task.
  destruct (ensure_task_state_spec st (task_id task)) as (Hc0 & Hl0 & Hd0 & Hf0).
  destruct (ensure_task_state st (task_id task)) as [st0 ts0]. cbn [fst snd] in *.
  rewrite Hre.
  destruct (agentflow_wait_returns env pollfuel w w1 Hwait) as (_ & Hfiles & k & _ & Htr & _).
  destruct Hph as [Hph | [Hph Hidx]]; rewrite Hph.
  - change (String.eqb "main" "main") with true. cbv iota.
    rewrite Hwait. unfold should_stop, observe. rewrite Hstop.
    exists st0, (snd (observe env w1)), k. cbn. rewrite <- Hd0.
    by split_and!.
  - change (String.eqb "after" "main") with false. cbv iota.
    unfold run_after. rewrite Hph.
    change (String.eqb "after" "after") with true. cbv iota.
    destruct (drop (after_index cur) after_prompts) as [|ap rest] eqn:Ed.
    { apply (f_equal length) in Ed. rewrite length_drop in Ed. cbn in Ed. lia. }
    cbn [after_loop]. rewrite Hwait. unfold should_stop, observe. rewrite Hstop.
    eexists _, _, k. split; [reflexivity|]. cbn. rewrite <- Hd0.
    split_and!; [done | done | apply lookup_insert_eq |].
    intros tid Hne. rewrite lookup_insert_ne by done. by apply Hf0.
Qed.

End AgentflowStop.

Lemma run_task_stop_starts_nothing_witness :
  exists st' w',
    Agentflow.run_task Sample.af_stopped_env Sample.af_cfg 1 (Sample.af_task "T1-1")
      ["first"] Agentflow.codex [Agentflow.claude]
      Agentflow.State_default Agentflow.Cursor_default (Sample.af_world ∅)
    = Py.Returned (st', Agentflow.Cursor_default, w')
    /\ Agentflow.files w' = ∅.
Proof.
  destruct (run_task_stop_starts_nothing Sample.af_stopped_env Sample.af_cfg
              (Sample.af_task "T1-1") 1 ["first"] Agentflow.codex [Agentflow.claude]
              Agentflow.State_default Agentflow.Cursor_default (Sample.af_world ∅)
              (snd (Agentflow.observe Sample.af_stopped_env (Sample.af_world ∅))) None)
    as (st' & w' & k & Hrun & Hf & _).
  - by left.
  - reflexivity.
  - reflexivity.
  - reflexivity.
  - exists st', w'. split; [exact Hrun | exact Hf].
Defined.

(** ** Helpers of agent_csv_runner.py *)

Section FoldDedup.
Context {A : Type} (eqb : A -> A -> bool) (keep : A -> bool).
Hypothesis eqb_eq : forall x y, eqb x y = true <-> x = y.

Lemma existsb_eqb_In (a : A) (l : list A) : existsb (eqb a) l = true <-> In a l.
Proof.
  rewrite existsb_exists. split.
  - intros (x & Hin & He). apply eqb_eq in He. by subst.
  - intros Hin. exists a. split; [done | by apply eqb_eq].
Qed.

(** A loop that appends every kept element not yet in the list. *)
Lemma fold_dedup_spec (ps : list A) :
  forall out0, NoDup out0 ->
    let r := fold_left (fun out a => if keep a && negb (existsb (eqb a) out)
                                     then out ++ [a] else out) ps out0 in
    NoDup r
    /\ (forall p, In p r <-> In p out0 \/ (keep p = true /\ In p ps))
    /\ exists more, r = out0 ++ more.
Proof.
  induction ps as [|a ps IH]; intros out0 Hnd; cbn.
  - split_and!; [done | | exists []; by rewrite app_nil_r].
    intros p. split; [by left | by intros [? | [_ []]]].
  - destruct (keep a) eqn:Hk; cbn [andb].
    + destruct (existsb (eqb a) out0) eqn:He; cbn [negb].
      * destruct (IH out0 Hnd) as (H1 & H2 & H3). split_and!; [done | | done].
        intros p. rewrite H2. split.
        -- intros [? | [? ?]]; [by left | right; split; [done | by right]].
        -- intros [? | [Hp [<- | ?]]]; [by left | | right; by split].
           left. by apply existsb_eqb_In.
      * assert (Hnd' : NoDup (out0 ++ [a])).
        { apply NoDup_app. split_and!; [done | | apply NoDup_singleton].
          intros x Hx Hx'. apply list_elem_of_singleton in Hx'. subst x.
          apply list_elem_of_In, existsb_eqb_In in Hx. congruence. }
        destruct (IH (out0 ++ [a]) Hnd') as (H1 & H2 & more & H3).
        split_and!; [done | | exists (a :: more); by rewrite H3, <- app_assoc].
        intros p. rewrite H2, in_app_iff. cbn. split.
        -- intros [[? | [<- | []]] | [? ?]];
             [by left | right; split; [done | by left] | right; split; [done | by right]].
        -- intros [? | [Hp [<- | ?]]];
             [by left; left | left; right; by left | right; by split].
    + destruct (IH out0 Hnd) as (H1 & H2 & H3). split_and!; [done | | done].
      intros p. rewrite H2. split.
      * intros [? | [? ?]]; [by left | right; split; [done | by right]].
      * intros [? | [Hp [<- | ?]]]; [by left | congruence | right; by split].
Qed.

End FoldDedup.

Lemma agent_eqb_eq (x y : CsvRunner.agent) : CsvRunner.agent_eqb x y = true <-> x = y.
Proof. destruct x, y; cbn; split; congruence. Qed.

(** X19. [agent_try_order] starts with the agent it is given, names no
    agent twice, and holds exactly that agent and the agents of the
    fallback chain. *)
Theorem agent_try_order_spec (fallback : list CsvRunner.agent) (primary : CsvRunner.agent) :
  head (CsvRunner.agent_try_order fallback primary) = Some primary
  /\ NoDup (CsvRunner.agent_try_order fallback primary)
  /\ (forall a, In a (CsvRunner.agent_try_order fallback primary)
                <-> a = primary \/ In a fallback).
Proof.
  unfold CsvRunner.agent_try_order, CsvRunner.agent_in.
  destruct (fold_dedup_spec CsvRunner.agent_eqb
              (fun a => negb (CsvRunner.agent_eqb a primary)) agent_eqb_eq
              fallback [primary] (NoDup_singleton primary)) as (H1 & H2 & more & H3).
  cbv zeta in H1, H2, H3. split_and!.
  - by rewrite H3.
  - exact H1.
  - intros a. rewrite H2. cbn. split.
    + intros [[-> | []] | [_ Hin]]; [by left | by right].
    + intros [-> | Hin]; [by left; left|].
      destruct (CsvRunner.agent_eqb a primary) eqn:E.
      * apply agent_eqb_eq in E. by left; left.
      * right. by split.
Qed.

Lemma string_eqb_eq (x y : string) : String.eqb x y = true <-> x = y.
Proof. apply String.eqb_eq. Qed.

(** X20. [_parse_agent_list] names no agent twice and only known
    agents, so at most three; a known agent is named exactly when one
    of the comma-separated pieces of the text is its name, up to case
    and surrounding white space. *)
Theorem parse_agent_list_spec (s : string) :
  NoDup (CsvRunnerUtil._parse_agent_list s)
  /\ length (CsvRunnerUtil._parse_agent_list s) <= 3
  /\ (forall p, In p (CsvRunnerUtil._parse_agent_list s)
                <-> In p ["codex"; "claude"; "gemini"]
                    /\ exists x, In x (CsvRunner.split_on ","%char s)
                                 /\ Py.lower (Py.strip x) = p).
Proof.
  unfold CsvRunnerUtil._parse_agent_list.
  set (ps := map (fun x => Py.lower (Py.strip x))
               (List.filter (fun x => Py.nonempty (Py.strip x))
                  (CsvRunner.split_on ","%char s))).
  destruct (fold_dedup_spec String.eqb CsvRunnerUtil.known_agent string_eqb_eq
              ps [] (NoDup_nil_2 (A:=string))) as (H1 & H2 & _).
  cbv zeta in H1, H2.
  assert (Hknown : forall p, CsvRunnerUtil.known_agent p = true
                             <-> In p ["codex"; "claude"; "gemini"]).
  { intros p. unfold CsvRunnerUtil.known_agent.
    rewrite (existsb_eqb_In String.eqb string_eqb_eq). done. }
  assert (Hmem : forall p, In p (fold_left
                     (fun out p0 => if CsvRunnerUtil.known_agent p0
                                       && negb (existsb (String.eqb p0) out)
                                    then out ++ [p0] else out) ps [])
                   -> In p ["codex"; "claude"; "gemini"]).
  { intros p Hp. apply H2 in Hp as [[] | [Hk _]]. by apply Hknown. }
  split_and!.
  - exact H1.
  - change 3 with (length ["codex"; "claude"; "gemini"]).
    apply NoDup_incl_length; [by apply NoDup_ListNoDup | exact Hmem].
  - intros p. rewrite H2. split.
    + intros [[] | [Hk Hin]]. split; [by apply Hknown|].
      unfold ps in Hin. apply in_map_iff in Hin as (x & Hx & Hin).
      apply filter_In in Hin as [Hin _]. by exists x.
    + intros [Hk (x & Hin & Hx)]. right. split; [by apply Hknown|].
      unfold ps. apply in_map_iff. exists x. split; [done|].
      apply filter_In. split; [done|].
      destruct (Py.strip x) eqn:E; [|done].
      subst p. cbn in Hk. destruct Hk as [H | [H | [H | []]]]; discriminate H.
Qed.

(** *** Task ids *)

Lemma split_on_nonnil (sep : ascii) (s : string) : CsvRunner.split_on sep s <> [].
Proof.
  destruct s as [|c r]; cbn; [done|].
  destruct (Ascii.eqb c sep); [done|].
  by destruct (CsvRunner.split_on sep r).
Qed.

Lemma concat_cons (sep x : string) (l : list string) :
  l <> [] -> String.concat sep (x :: l) = x +:+ sep +:+ String.concat sep l.
Proof. by destruct l. Qed.

(** Joining the pieces of a split gives the text back. *)
Lemma concat_split_on (sep : ascii) (s : string) :
  String.concat (String sep "") (CsvRunner.split_on sep s) = s.
Proof.
  induction s as [|c r IH]; [done|]. cbn [CsvRunner.split_on].
  pose proof (split_on_nonnil sep r) as Hne.
  destruct (Ascii.eqb_spec c sep) as [-> | Hc].
  - rewrite concat_cons by done. rewrite IH. done.
  - destruct (CsvRunner.split_on sep r) as [|h t]; [done|].
    destruct t as [|h2 t].
    + cbn in IH |- *. by rewrite IH.
    + rewrite concat_cons by done. rewrite concat_cons in IH by done.
      rewrite string_app_cons. by rewrite IH.
Qed.

(** Splitting a joined list of pieces that hold no separator gives the
    pieces back. *)
Lemma split_on_concat (sep : ascii) (groups : list string) :
  groups <> [] ->
  Forall (fun g => TextSpec.has_char sep g = false) groups ->
  CsvRunner.split_on sep (String.concat (String sep "") groups) = groups.
Proof.
  induction groups as [|g gs IH]; [done|]. intros _ Hall.
  inversion Hall as [|? ? Hg Hgs]; subst.
  destruct gs as [|g2 gs].
  - cbn. by apply split_on_clean.
  - rewrite concat_cons by done.
    change (String sep "" +:+ ?x) with (String sep x).
    rewrite split_on_app by done. by rewrite IH.
Qed.

Lemma alnum_no_hyphen (g : string) :
  CsvRunner.all_alnum g = true -> TextSpec.has_char "-"%char g = false.
Proof.
  induction g as [|c r IH]; [done|]. cbn [CsvRunner.all_alnum TextSpec.has_char].
  intros H. apply andb_true_iff in H as [Hc Hr]. rewrite (IH Hr), orb_false_r.
  destruct (Ascii.eqb_spec c "-"%char) as [-> | ?]; [discriminate Hc | done].
Qed.

(** X21. [sanitize_task_id] accepts exactly the texts that, once
    trimmed, are two or more non-empty groups of letters and digits
    joined by single hyphens, and returns the trimmed text. *)
Theorem sanitize_task_id_accepts (s t : string) :
  CsvRunner.sanitize_task_id s = Py.Ok t
  <-> t = Py.strip s
      /\ exists groups, 2 <= length groups
           /\ Forall (fun g => g <> "" /\ CsvRunner.all_alnum g = true) groups
           /\ t = String.concat "-" groups.
Proof.
  unfold CsvRunner.sanitize_task_id, CsvRunner.TASK_ID_RE_fullmatch.
  set (u := Py.strip s). split.
  - destruct (negb (Py.nonempty u)); [done|].
    destruct (2 <=? length (CsvRunner.split_on "-" u)) eqn:Hlen; [|done].
    destruct (forallb (fun g => Py.nonempty g && CsvRunner.all_alnum g)
                (CsvRunner.split_on "-" u)) eqn:Hall; [|done].
    cbn. intros [= <-]. split; [done|].
    exists (CsvRunner.split_on "-" u). split_and!.
    + by apply Nat.leb_le.
    + apply Forall_forall. intros g Hg. rewrite forallb_forall in Hall.
      apply list_elem_of_In in Hg. specialize (Hall g Hg). apply andb_true_iff in Hall as [Hn Ha].
      split; [|done]. intros ->. discriminate Hn.
    + symmetry. apply (concat_split_on "-"%char).
  - intros (-> & groups & Hlen & Hall & Hu).
    assert (Hsplit : CsvRunner.split_on "-" u = groups).
    { rewrite Hu. apply (split_on_concat "-"%char).
      - intros ->. cbn in Hlen. lia.
      - eapply Forall_impl; [exact Hall|]. intros g [_ Hg]. by apply alnum_no_hyphen. }
    assert (Hne : Py.nonempty u = true).
    { destruct groups as [|g [|g2 gs]]; cbn in Hlen; try lia.
      inversion Hall as [|? ? [Hg _] _]; subst.
      rewrite Hu. destruct g; [done|]. rewrite concat_cons by done. done. }
    rewrite Hne, Hsplit. cbn [negb].
    assert (H2 : (2 <=? length groups) = true) by by apply Nat.leb_le.
    assert (Hf : forallb (fun g => Py.nonempty g && CsvRunner.all_alnum g) groups = true).
    { apply forallb_forall. intros g Hg. rewrite Forall_forall in Hall.
      apply list_elem_of_In in Hg. destruct (Hall g Hg) as [Hn Ha]. rewrite Ha, andb_true_r. by destruct g. }
    by rewrite H2, Hf.
Qed.

(** *** [deep_merge] *)

Lemma dict_get_set_eq (kv : list (string * Py.json)) (k : string) (v : Py.json) :
  Py.dict_get (CsvRunnerUtil.dict_set kv k v) k = v.
Proof.
  unfold Py.dict_get. induction kv as [|[k' v'] rest IH]; cbn.
  - by rewrite String.eqb_refl.
  - destruct (String.eqb k' k) eqn:E; cbn; rewrite E; [done | exact IH].
Qed.

Lemma dict_get_set_ne (kv : list (string * Py.json)) (k k2 : string) (v : Py.json) :
  k <> k2 -> Py.dict_get (CsvRunnerUtil.dict_set kv k v) k2 = Py.dict_get kv k2.
Proof.
  intros Hne. unfold Py.dict_get. induction kv as [|[k' v'] rest IH]; cbn.
  - by apply String.eqb_neq in Hne as ->.
  - destruct (String.eqb k' k) eqn:E; cbn.
    + apply String.eqb_eq in E as ->. by apply String.eqb_neq in Hne as ->.
    + destruct (String.eqb k' k2); [done | exact IH].
Qed.

Lemma dict_set_keys (kv : list (string * Py.json)) (k : string) (v : Py.json) (k2 : string) :
  In k2 (map fst (CsvRunnerUtil.dict_set kv k v)) <-> k2 = k \/ In k2 (map fst kv).
Proof.
  induction kv as [|[k' v'] rest IH]; cbn.
  - split; [intros [<- | []]; by left | intros [-> | []]; by left].
  - destruct (String.eqb k' k) eqn:E; cbn.
    + apply String.eqb_eq in E as ->. split; [intros [<- | ?]; auto | intros [-> | [<- | ?]]; auto].
    + rewrite IH. split; [intros [<- | [-> | ?]]; auto | intros [-> | [<- | ?]]; auto].
Qed.

Lemma merged_value_dicts (akv bkv : list (string * Py.json)) :
  CsvRunnerUtil.merged_value (Py.JObj akv) (Py.JObj bkv)
  = Py.JObj (CsvRunnerUtil.deep_merge akv bkv).
Proof.
  reflexivity.
Qed.

Lemma find_none_intro {A} (f : A -> bool) (l : list A) :
  (forall x, In x l -> f x = false) -> find f l = None.
Proof.
  induction l as [|x l IH]; [done|]. intros H. cbn.
  rewrite (H x) by (by left). apply IH. intros y Hy. apply H. by right.
Qed.

Lemma merge_items_lookup (b : list (string * Py.json)) :
  forall (out : list (string * Py.json)) (k : string),
  NoDup (map fst b) ->
  Py.dict_get (CsvRunnerUtil.merge_items b out) k
  = match find (fun p => String.eqb (fst p) k) b with
    | Some p => CsvRunnerUtil.merged_value (Py.dict_get out k) (snd p)
    | None => Py.dict_get out k
    end.
Proof.
  induction b as [|[k0 v0] rest IH]; intros out k Hnd; [done|].
  cbn [map fst] in Hnd. apply NoDup_cons in Hnd as [Hk0 Hnd].
  cbn [CsvRunnerUtil.merge_items find fst snd]. rewrite IH by done.
  destruct (String.eqb k0 k) eqn:E.
  - apply String.eqb_eq in E as <-.
    assert (Hnone : find (fun p => String.eqb (fst p) k0) rest = None).
    { apply find_none_intro. intros [k' v'] Hin. cbn. apply String.eqb_neq. intros ->.
      apply Hk0. apply list_elem_of_In, in_map_iff. by exists (k0, v'). }
    rewrite Hnone. apply dict_get_set_eq.
  - apply String.eqb_neq in E. by rewrite dict_get_set_ne.
Qed.

Lemma merge_items_keys (b : list (string * Py.json)) :
  forall (out : list (string * Py.json)) (k : string),
  In k (map fst (CsvRunnerUtil.merge_items b out))
  <-> In k (map fst out) \/ In k (map fst b).
Proof.
  induction b as [|[k0 v0] rest IH]; intros out k; cbn [CsvRunnerUtil.merge_items map fst].
  - split; [by left | by intros [? | []]].
  - rewrite IH, dict_set_keys. cbn. split.
    + intros [[-> | ?] | ?]; auto.
    + intros [? | [<- | ?]]; auto.
Qed.

(** X22. In the dict [deep_merge(a, b)] a key of [b] holds the value
    of [b], except that two dicts under the same key are merged in the
    same way; a key that only [a] has keeps its value; and the keys are
    those of [a] and of [b] together. *)
Theorem deep_merge_lookup (a b : list (string * Py.json)) (k : string) :
  NoDup (map fst b) ->
  Py.dict_get (CsvRunnerUtil.deep_merge a b) k
  = match find (fun p => String.eqb (fst p) k) b with
    | Some (_, v) =>
        match v, Py.dict_get a k with
        | Py.JObj bkv, Py.JObj akv => Py.JObj (CsvRunnerUtil.deep_merge akv bkv)
        | _, _ => v
        end
    | None => Py.dict_get a k
    end
  /\ (In k (map fst (CsvRunnerUtil.deep_merge a b)) <-> In k (map fst a) \/ In k (map fst b)).
Proof.
  intros Hnd. split; [|apply merge_items_keys].
  unfold CsvRunnerUtil.deep_merge. rewrite merge_items_lookup by done.
  destruct (find (fun p => String.eqb (fst p) k) b) as [[k' v]|]; [|done].
  cbn [snd]. destruct v as [| | | | |bkv]; by destruct (Py.dict_get a k).
Qed.

Lemma deep_merge_lookup_witness :
  Py.dict_get
    (CsvRunnerUtil.deep_merge
       [("retries", Py.JNum 2);
        ("agents", Py.JObj [("primary", Py.JStr "codex"); ("after_agent", Py.JStr "same")])]
       [("agents", Py.JObj [("primary", Py.JStr "claude")]); ("retries", Py.JNum 3)])
    "agents"
  = Py.JObj (CsvRunnerUtil.deep_merge
               [("primary", Py.JStr "codex"); ("after_agent", Py.JStr "same")]
               [("primary", Py.JStr "claude")]).
Proof.
  refine (proj1 (deep_merge_lookup _ _ "agents" _)).
  cbn. apply NoDup_cons. split; [|apply NoDup_singleton].
  intros H. apply list_elem_of_singleton in H. discriminate H.
Defined.

Example deep_merge_sample :
  CsvRunnerUtil.deep_merge
    [("retries", Py.JNum 2);
     ("agents", Py.JObj [("primary", Py.JStr "codex"); ("after_agent", Py.JStr "same")])]
    [("agents", Py.JObj [("primary", Py.JStr "claude")]); ("verbose", Py.JBool true)]
  = [("retries", Py.JNum 2);
     ("agents", Py.JObj [("primary", Py.JStr "claude"); ("after_agent", Py.JStr "same")]);
     ("verbose", Py.JBool true)].
Proof. reflexivity. Qed.

(** ** The fix loop of agent_csv_runner.py *)

Section CsvFix.
Import CsvRunner.
Variables (env : Env) (cfg : Config).

Lemma tools_of_app (a b : list Effect) :
  RunnerSpec.tools_of (a ++ b) = RunnerSpec.tools_of a ++ RunnerSpec.tools_of b.
Proof. apply omap_app. Qed.

Lemma tools_of_sleeps (new : list Effect) :
  Forall (fun e => e = ESleep) new -> RunnerSpec.tools_of new = [].
Proof. induction 1 as [|e l -> _ IH]; [done | exact IH]. Qed.

Lemma tools_of_execs (cmds : list string) : RunnerSpec.tools_of (map EExec cmds) = [].
Proof. induction cmds as [|c l IH]; [done | exact IH]. Qed.

(** A stage runs the tool of its agent, once. *)
Lemma run_stage_call (task_id : string) (a : agent) (stage : string)
    (c c1 : Ctx) (rr : RunResult) :
  run_stage env cfg task_id a stage c = Py.Returned (rr, c1) ->
  done_ids c1 = done_ids c
  /\ exists call, trace (world c1) = trace (world c) ++ [ETool call]
                  /\ c_stage call = stage /\ c_task call = task_id /\ c_agent call = a.
Proof.
  unfold run_stage. destruct a.
  - unfold codex_run, run_tool. cbn. intros H. injection H as <- <-. cbn.
    split; [done|]. by eexists.
  - unfold claude_run, run_tool. cbn. intros H. injection H as <- <-. cbn.
    split; [done|]. by eexists.
  - unfold gemini_run, run_tool.
    destruct (String.eqb (gemini_outfmt cfg (sessions c)) "stream-json").
    + cbn. destruct (handle_lines _ _ _); [|discriminate].
      intros H. injection H as <- <-. cbn. split; [done|]. by eexists.
    + cbn. intros H. injection H as <- <-. cbn. split; [done|]. by eexists.
Qed.

Lemma run_verify_trace (w : World) :
  RunnerSpec.tools_of (trace (snd (run_verify env (commands cfg) w)))
  = RunnerSpec.tools_of (trace w).
Proof.
  unfold run_verify. rewrite run_verify_from_spec. cbn.
  by rewrite tools_of_app, tools_of_execs, app_nil_r.
Qed.

Lemma fix_attempts_spec (pollfuel : nat) (task_id : string) (a : agent) :
  forall (k s : nat) (failures : list (string * string)) (c c' : Ctx)
         (b : bool) (f : list (string * string)),
  fix_attempts env cfg pollfuel task_id a (seq s k) failures c = Py.Returned ((b, f), c') ->
  (b = true <-> f = [])
  /\ done_ids c' = done_ids c
  /\ (failures = [] \/ k = 0 -> f = failures /\ c' = c)
  /\ exists calls,
       RunnerSpec.tools_of (trace (world c')) = RunnerSpec.tools_of (trace (world c)) ++ calls
       /\ length calls <= k
       /\ map c_stage calls = RunnerSpec.fix_stages s (length calls)
       /\ Forall (fun call => c_agent call = a /\ c_task call = task_id) calls.
Proof.
  assert (Hnf : forall f : list (string * string), no_failures f = true <-> f = []).
  { intros [|? ?]; cbn; split; congruence. }
  induction k as [|k IH]; intros s failures c c' b f H.
  - cbn in H. injection H as <- <- <-. split_and!; [apply Hnf | done | done |].
    exists []. rewrite app_nil_r. split_and!; [done | done | done | constructor].
  - cbn [seq fix_attempts] in H.
    destruct (no_failures failures) eqn:Hf0.
    { injection H as <- <- <-. split_and!; [by rewrite <- Hnf | done | done |].
      exists []. rewrite app_nil_r. split_and!; [done | cbn; lia | done | constructor]. }
    assert (Hne : failures <> []) by (intros ->; discriminate Hf0).
    unfold bind at 1 in H.
    destruct (checkpoint env pollfuel c) as [[stop c1]| |] eqn:Hc1; [|done|done].
    destruct (checkpoint_frame env pollfuel c c1 stop Hc1) as (Hfr & sl & Hsl & Hsleep).
    assert (Ht1 : RunnerSpec.tools_of (trace (world c1)) = RunnerSpec.tools_of (trace (world c))).
    { by rewrite Hsl, tools_of_app, (tools_of_sleeps sl Hsleep), app_nil_r. }
    destruct stop.
    { injection H as <- <- <-. split_and!.
      - split; [done | by intros ->].
      - by rewrite Hfr.
      - intros [-> | ?]; [done | lia].
      - exists []. rewrite app_nil_r. split_and!; [done | cbn; lia | done | constructor]. }
    unfold bind at 1 in H.
    destruct (run_stage env cfg task_id a ("fix" +:+ Py.str_of_nat s) c1)
      as [[rr c2]| |] eqn:Hrun; [|done|done].
    destruct (run_stage_call task_id a _ c1 c2 rr Hrun) as (Hd2 & call & Ht2 & Hst & Htk & Hag).
    unfold bind at 1 in H. unfold persist_state at 1 in H.
    unfold bind at 1 in H. unfold in_world at 1 in H. cbn [world with_world] in H.
    match type of H with context [run_verify env (commands cfg) ?w0] =>
      pose proof (run_verify_trace w0) as Hv;
      destruct (run_verify env (commands cfg) w0) as [failures' w3] eqn:Ev
    end.
    cbn [snd trace do_ops] in Hv.
    assert (Ht3 : RunnerSpec.tools_of (trace w3)
                  = RunnerSpec.tools_of (trace (world c)) ++ [call]).
    { rewrite Hv, Ht2, tools_of_app, Ht1. done. }
    destruct (no_failures failures') eqn:Hf'.
    { injection H as <- <- <-. split_and!.
      - split; [intros _; by apply Hnf | done].
      - cbn. by rewrite Hd2, Hfr.
      - intros [-> | ?]; [done | lia].
      - exists [call]. cbn [world with_world]. split_and!; [done | cbn; lia | |].
        + cbn. by rewrite Hst.
        + by constructor. }
    apply IH in H as (Hb & Hd & _ & calls & Htr & Hlen & Hstages & Hall).
    cbn [world with_world done_ids] in Hd, Htr.
    split_and!.
    + exact Hb.
    + by rewrite Hd, Hd2, Hfr.
    + intros [-> | ?]; [done | lia].
    + exists (call :: calls). split_and!.
      * rewrite Htr, Ht3, <- app_assoc. done.
      * cbn. lia.
      * cbn. rewrite Hst, Hstages. done.
      * by constructor.
Qed.

(** X23. [fix_with] answers true exactly when no check is failing in
    the end.  It runs the fix stages [fix1], [fix2], ... in order with
    the agent it is given, at most [max_attempts] of them, and none at
    all when nothing is failing on entry or [max_attempts] is 0 or
    less; it never changes the set of completed tasks. *)
Theorem fix_with_result (pollfuel : nat) (task_id : string) (a : agent) (max_attempts : Z)
    (failures : list (string * string)) (c c' : Ctx) (b : bool)
    (f : list (string * string)) :
  fix_with env cfg pollfuel task_id a max_attempts failures c = Py.Returned ((b, f), c') ->
  (b = true <-> f = [])
  /\ done_ids c' = done_ids c
  /\ (failures = [] \/ (max_attempts <= 0)%Z -> f = failures /\ c' = c)
  /\ exists calls,
       RunnerSpec.tools_of (trace (world c')) = RunnerSpec.tools_of (trace (world c)) ++ calls
       /\ (Z.of_nat (length calls) <= Z.max 0 max_attempts)%Z
       /\ map c_stage calls = RunnerSpec.fix_stages 1 (length calls)
       /\ Forall (fun call => c_agent call = a /\ c_task call = task_id) calls.
Proof.
  unfold fix_with. intros H.
  apply fix_attempts_spec in H as (Hb & Hd & H0 & calls & Htr & Hlen & Hst & Hall).
  split_and!; [done | done | | ].
  - intros [? | ?]; apply H0; [by left | right; lia].
  - exists calls. split_and!; [done | lia | done | done].
Qed.

End CsvFix.

Lemma fix_with_result_witness :
  exists b f c',
    CsvRunner.fix_with (Sample.csv_env 0 "") Sample.csv_cfg 1 "T1-1" CsvRunner.codex 2
      [("make test", "1 failed")] Sample.csv_ctx = Py.Returned ((b, f), c')
    /\ (b = true <-> f = []).
Proof.
  destruct (CsvRunner.fix_with (Sample.csv_env 0 "") Sample.csv_cfg 1 "T1-1"
              CsvRunner.codex 2 [("make test", "1 failed")] Sample.csv_ctx)
    as [[[b f] c']| |] eqn:E;
    [| vm_compute in E; discriminate E | vm_compute in E; discriminate E].
  exists b, f, c'. split; [reflexivity|].
  exact (proj1 (fix_with_result _ _ _ _ _ _ _ _ _ _ _ E)).
Defined.

(** ** A reported error, in both scripts *)

(** X24. agentflow.py: when the payload claude or gemini prints is a
    dict that reports an error, the result is a failure whatever the
    exit code, zero included; the exit code is handed on as it is. *)
Theorem agentflow_reported_error_is_failure (env : Agentflow.Env) (cfg : Agentflow.Engine)
    (task : Agentflow.Task) (L : Agentflow.Locals) (eng : Agentflow.engine_name)
    (ph step : string) (w : Agentflow.World) (rc : Z) (out : string)
    (kv : list (string * Py.json)) :
  Agentflow.which env (Agentflow.now w) eng = true ->
  Agentflow.process env (Agentflow.now w) (Agentflow.invocation_of cfg task L eng ph step)
    = (rc, out) ->
  Agentflow.try_parse_json_object (Agentflow.rt env) out = Some (Py.JObj kv) ->
  match eng with
  | Agentflow.claude =>
      Py.dict_get kv "is_error" = Py.JBool true \/ Py.dict_get kv "subtype" = Py.JStr "error"
  | Agentflow.gemini => Py.truthy (Py.dict_get kv "error") = true
  | Agentflow.codex => False
  end ->
  Agentflow.ok (fst (Agentflow.run_with_engine env cfg task L eng ph step w)) = false
  /\ Agentflow.exit_code (fst (Agentflow.run_with_engine env cfg task L eng ph step w)) = rc.
Proof.
  intros Hw Hp Hj Herr. unfold Agentflow.run_with_engine.
  destruct eng; [done | |].
  - unfold Agentflow.run_claude, Agentflow.run_process. cbn [Agentflow.now Agentflow.emit].
    rewrite Hw, Hp. cbn. rewrite Hj.
    assert (Hrep : Agentflow.claude_reports_error kv = true).
    { unfold Agentflow.claude_reports_error. destruct Herr as [-> | ->]; [reflexivity|].
      by destruct (Py.dict_get kv "is_error") as [| [] | | | |]. }
    rewrite Hrep. by cbn.
  - unfold Agentflow.run_gemini, Agentflow.run_process. cbn [Agentflow.now Agentflow.emit].
    rewrite Hw, Hp. cbn. rewrite Hj, Herr. by cbn.
Qed.

Lemma agentflow_reported_error_is_failure_witness :
  Agentflow.ok (fst (Agentflow.run_with_engine Sample.af_error_env Sample.af_cfg
                       (Sample.af_task "T1-1") Sample.af_locals Agentflow.claude
                       "main" "run" (Sample.af_world ∅))) = false
  /\ Agentflow.ok (fst (Agentflow.run_with_engine Sample.af_error_env Sample.af_cfg
                          (Sample.af_task "T1-1") Sample.af_locals Agentflow.gemini
                          "main" "run" (Sample.af_world ∅))) = false.
Proof.
  split.
  - refine (proj1 (agentflow_reported_error_is_failure Sample.af_error_env Sample.af_cfg
                     (Sample.af_task "T1-1") Sample.af_locals Agentflow.claude
                     "main" "run" (Sample.af_world ∅) 0 Sample.claude_error_payload
                     [("is_error", Py.JBool true); ("session_id", Py.JStr "s1")] _ _ _ _)).
    + reflexivity.
    + reflexivity.
    + vm_compute. reflexivity.
    + left. reflexivity.
  - refine (proj1 (agentflow_reported_error_is_failure Sample.af_error_env Sample.af_cfg
                     (Sample.af_task "T1-1") Sample.af_locals Agentflow.gemini
                     "main" "run" (Sample.af_world ∅) 0 Sample.gemini_error_payload
                     [("error", Py.JStr "quota")] _ _ _ _)).
    + reflexivity.
    + reflexivity.
    + vm_compute. reflexivity.
    + reflexivity.
Defined.

(** X25. agent_csv_runner.py, [gemini_run] with JSON output: when the
    tool exits with code 0 and prints a dict with a non-empty [error]
    field, the result comes back with return code 1. *)
Theorem csv_gemini_reported_error_is_failure (env : CsvRunner.Env) (cfg : CsvRunner.Config)
    (stage task_id : string) (S : CsvRunner.TaskSessions) (w : CsvRunner.World)
    (kv : list (string * Py.json)) :
  let out := CsvRunner.tool env (CsvRunner.now w) (CsvRunner.gemini_call cfg stage task_id S) in
  CsvRunner.gemini_outfmt cfg S = "json" ->
  CsvRunner.returncode out = 0%Z ->
  Py.startswith "{" (Py.strip (CsvRunner.stdout out)) = true ->
  Py.json_loads (CsvRunner.rt env) (CsvRunner.stdout out) = Py.Ok (Py.JObj kv) ->
  Py.truthy (Py.dict_get kv "error") = true ->
  exists rr sid S' w',
    CsvRunner.gemini_run env cfg stage task_id S w = Py.Ok ((rr, sid), S', w')
    /\ CsvRunner.returncode rr = 1%Z
    /\ S' = S.
Proof.
  intros out Hfmt Hrc Hs Hl Ht. unfold CsvRunner.gemini_run. rewrite Hfmt.
  change (String.eqb "json" "stream-json") with false.
  change (String.eqb "json" "json") with true. cbn iota.
  unfold CsvRunner.run_tool. fold out.
  eexists _, _, _, _. split; [reflexivity|]. cbn.
  by rewrite (gemini_error_summary_nonempty _ _ kv Hs Hl Ht), Hrc.
Qed.

Lemma csv_gemini_reported_error_is_failure_witness :
  exists rr sid S' w',
    CsvRunner.gemini_run (Sample.csv_env 0 Sample.gemini_error_payload) Sample.csv_cfg
      "impl" "T1-1" Sample.csv_gemini_sessions Sample.csv_world = Py.Ok ((rr, sid), S', w')
    /\ CsvRunner.returncode rr = 1%Z.
Proof.
  destruct (csv_gemini_reported_error_is_failure
              (Sample.csv_env 0 Sample.gemini_error_payload) Sample.csv_cfg
              "impl" "T1-1" Sample.csv_gemini_sessions Sample.csv_world
              [("error", Py.JStr "quota")])
    as (rr & sid & S' & w' & Hrun & Hrc & _).
  - reflexivity.
  - reflexivity.
  - reflexivity.
  - reflexivity.
  - reflexivity.
  - exists rr, sid, S', w'. split; [exact Hrun | exact Hrc].
Defined.

(** ** Engine names *)

Lemma is_space_lower_char (c : ascii) : Py.is_space (Py.lower_char c) = Py.is_space c.
Proof. destruct c as [[] [] [] [] [] [] [] []]; reflexivity. Qed.

Lemma lower_char_idem (c : ascii) : Py.lower_char (Py.lower_char c) = Py.lower_char c.
Proof. destruct c as [[] [] [] [] [] [] [] []]; reflexivity. Qed.

Lemma lower_idem (s : string) : Py.lower (Py.lower s) = Py.lower s.
Proof. induction s as [|c r IH]; [done|]. cbn. by rewrite lower_char_idem, IH. Qed.

Lemma lstrip_lower (s : string) : Py.lstrip (Py.lower s) = Py.lower (Py.lstrip s).
Proof.
  induction s as [|c r IH]; [done|]. cbn [Py.lower Py.lstrip].
  rewrite is_space_lower_char. by destruct (Py.is_space c).
Qed.

Lemma rev_app_lower (s1 : string) :
  forall s2, String.rev_app (Py.lower s1) (Py.lower s2) = Py.lower (String.rev_app s1 s2).
Proof.
  induction s1 as [|c r IH]; intros s2; [done|].
  cbn [Py.lower String.rev_app]. by rewrite <- IH.
Qed.

Lemma rev_lower (s : string) : String.rev (Py.lower s) = Py.lower (String.rev s).
Proof. unfold String.rev. apply (rev_app_lower s ""). Qed.

Lemma strip_lower (s : string) : Py.strip (Py.lower s) = Py.lower (Py.strip s).
Proof.
  unfold Py.strip, Py.rstrip. by rewrite lstrip_lower, rev_lower, lstrip_lower, rev_lower.
Qed.

(** X26. [normalize_engine] reads an engine name without regard to
    case and to white space around it: changing either changes neither
    the engine found nor the error raised. *)
Theorem normalize_engine_insensitive (name : string) :
  Agentflow.normalize_engine (Py.strip name) = Agentflow.normalize_engine name
  /\ Agentflow.normalize_engine (Py.lower name) = Agentflow.normalize_engine name.
Proof.
  unfold Agentflow.normalize_engine. split.
  - by rewrite strip_idempotent.
  - by rewrite strip_lower, lower_idem.
Qed.

(** ** The task list of agentflow.py *)

Lemma strip_row_id (n : nat) : Py.strip ("row" +:+ Py.str_of_nat n) = "row" +:+ Py.str_of_nat n.
Proof.
  apply strip_no_space. rewrite has_space_app, str_of_nat_digits.
  by rewrite (proj2 (digits_chars _)).
Qed.

Lemma row_id_nonempty (n : nat) : "row" +:+ Py.str_of_nat n <> "".
Proof. done. Qed.

Lemma nonempty_spec (s : string) : Py.nonempty s = true <-> s <> "".
Proof. destruct s; cbn; split; congruence. Qed.

Lemma tasks_of_rows_spec (env : Agentflow.Env) (rows : list Agentflow.Row) :
  forall (i j : nat) (row : Agentflow.Row),
  rows !! j = Some row ->
  exists t,
    Agentflow.tasks_of_rows env i rows !! j = Some t
    /\ Agentflow.task_id t <> ""
    /\ Py.strip (Agentflow.task_id t) = Agentflow.task_id t
    /\ (Agentflow.task_id t = Py.strip (Agentflow.cell (Agentflow.col_id row))
        \/ (Py.strip (Agentflow.cell (Agentflow.col_id row)) = ""
            /\ Agentflow.task_id t = "row" +:+ Py.str_of_nat (i + j + 1)))
    /\ (Agentflow.spec t = Py.strip (Agentflow.cell (Agentflow.col_spec row))
        \/ (Py.strip (Agentflow.cell (Agentflow.col_spec row)) = ""
            /\ Agentflow.spec t = Agentflow.dumps_row env row))
    /\ Agentflow.title t = Py.strip (Agentflow.cell (Agentflow.col_title row))
    /\ match Agentflow.engine t with
       | Some e => e <> "" /\ e = Py.strip (Agentflow.cell (Agentflow.col_engine row))
       | None => Py.strip (Agentflow.cell (Agentflow.col_engine row)) = ""
       end.
Proof.
  induction rows as [|r rest IH]; intros i j row Hj; [done|].
  destruct j as [|j].
  - injection Hj as ->. cbn [Agentflow.tasks_of_rows]. eexists. split; [reflexivity|].
    cbn [Agentflow.task_id Agentflow.spec Agentflow.title Agentflow.engine].
    rewrite Nat.add_0_r.
    split_and!.
    + destruct (Py.nonempty (Py.strip (Agentflow.cell (Agentflow.col_id row)))) eqn:E;
        [by apply nonempty_spec | done].
    + destruct (Py.nonempty (Py.strip (Agentflow.cell (Agentflow.col_id row)))) eqn:E;
        [apply strip_idempotent | apply strip_row_id].
    + destruct (Py.nonempty (Py.strip (Agentflow.cell (Agentflow.col_id row)))) eqn:E;
        [by left | right]. split; [|done].
      by destruct (Py.strip (Agentflow.cell (Agentflow.col_id row))).
    + destruct (Py.nonempty (Py.strip (Agentflow.cell (Agentflow.col_spec row)))) eqn:E;
        [by left | right]. split; [|done].
      by destruct (Py.strip (Agentflow.cell (Agentflow.col_spec row))).
    + done.
    + destruct (Py.nonempty (Py.strip (Agentflow.cell (Agentflow.col_engine row)))) eqn:E.
      * split; [by apply nonempty_spec | done].
      * by destruct (Py.strip (Agentflow.cell (Agentflow.col_engine row))).
  - cbn [Agentflow.tasks_of_rows]. cbn in Hj.
    destruct (IH (S i) j row Hj) as (t & Ht & H).
    exists t. split; [exact Ht|].
    by replace (i + S j + 1) with (S i + j + 1) by lia.
Qed.

(** X27. [load_tasks_from_csv] makes one task per row, in file order.
    A task id is never empty and has no white space around it: it is
    the trimmed id cell, or [row<n>] for the n-th row when that cell is
    blank.  The spec is the trimmed spec cell, or the row as JSON when
    that cell is blank; the engine is absent exactly when its cell is
    blank. *)
Theorem load_tasks_from_csv_rows (env : Agentflow.Env) (rows : list Agentflow.Row) :
  exists tasks,
    Agentflow.load_tasks_from_csv env (Some rows) = Py.Ok tasks
    /\ length tasks = length rows
    /\ forall (j : nat) (row : Agentflow.Row), rows !! j = Some row ->
         exists t,
           tasks !! j = Some t
           /\ Agentflow.task_id t <> ""
           /\ Py.strip (Agentflow.task_id t) = Agentflow.task_id t
           /\ (Agentflow.task_id t = Py.strip (Agentflow.cell (Agentflow.col_id row))
               \/ (Py.strip (Agentflow.cell (Agentflow.col_id row)) = ""
                   /\ Agentflow.task_id t = "row" +:+ Py.str_of_nat (j + 1)))
           /\ (Agentflow.spec t = Py.strip (Agentflow.cell (Agentflow.col_spec row))
               \/ (Py.strip (Agentflow.cell (Agentflow.col_spec row)) = ""
                   /\ Agentflow.spec t = Agentflow.dumps_row env row))
           /\ Agentflow.title t = Py.strip (Agentflow.cell (Agentflow.col_title row))
           /\ match Agentflow.engine t with
              | Some e => e <> "" /\ e = Py.strip (Agentflow.cell (Agentflow.col_engine row))
              | None => Py.strip (Agentflow.cell (Agentflow.col_engine row)) = ""
              end.
Proof.
  exists (Agentflow.tasks_of_rows env 0 rows). split_and!.
  - done.
  - generalize 0. induction rows as [|r rest IH]; intros i; [done|].
    cbn [Agentflow.tasks_of_rows length]. by rewrite IH.
  - intros j row Hj. exact (tasks_of_rows_spec env rows 0 j row Hj).
Qed.

(** ** Whole runs *)

Section AgentflowCompletes.
Import Agentflow.
Variables (env : Env) (cfg : Engine).
Variables (pollfuel : nat) (after_prompts : list string).
Variables (primary : engine_name) (fb : list engine_name).
Hypothesis Hpause : forall t m, Ctl.pause_present (user env t m) = false.
Hypothesis Hstop : forall t m, Ctl.stop_present (user env t m) = false.





End AgentflowCompletes.



(** X29. agent_csv_runner.py: with the stop marker in place at the
    first look, [main] returns 0 at once: no row is started, no tool is
    run, no file is written, and the completed tasks and the sessions
    are as they were. *)
Theorem csv_stop_runs_nothing (env : CsvRunner.Env) (cfg : CsvRunner.Config)
    (pollfuel : nat) (args : CsvRunner.Args) (after_prompts : list (string * string))
    (row : CsvRunner.Row) (rest : list CsvRunner.Row) (c : CsvRunner.Ctx)
    (w1 : CsvRunner.World) :
  CsvRunner.wait_if_paused env pollfuel (CsvRunner.world c) = Some w1 ->
  Ctl.stop_present (CsvRunner.user env (CsvRunner.now w1) (CsvRunner.markers w1)) = true ->
  exists w',
    CsvRunner.main env cfg pollfuel args after_prompts (row :: rest) c
    = Py.Returned (0%Z, CsvRunner.with_world c w')
    /\ CsvRunner.files w' = CsvRunner.files (CsvRunner.world c)
    /\ RunnerSpec.tools_of (CsvRunner.trace w')
       = RunnerSpec.tools_of (CsvRunner.trace (CsvRunner.world c)).
Proof.
  intros Hwait Hstop.
  destruct (csv_wait_until_unpaused_or_stopped_aux env pollfuel _ _ Hwait)
    as (_ & Hfiles & k & _ & Htr).
  exists (snd (CsvRunner.observe env w1)).
  unfold CsvRunner.main. cbn [CsvRunner.main_rows].
  unfold CsvRunner.bind at 1. unfold CsvRunner.run_row. unfold CsvRunner.bind at 1.
  unfold CsvRunner.checkpoint. rewrite Hwait.
  unfold CsvRunner.stop_requested, CsvRunner.observe. rewrite Hstop. cbn.
  split_and!; [done | done |].
  rewrite Htr, tools_of_app.
  rewrite (tools_of_sleeps (replicate k CsvRunner.ESleep)); [by rewrite app_nil_r|].
  clear. induction k; by constructor.
Qed.

Lemma csv_stop_runs_nothing_witness :
  exists w',
    CsvRunner.main Sample.csv_stuck_env Sample.csv_cfg 3 Sample.csv_args []
      [Sample.csv_row "T1-1"; Sample.csv_row "T1-2"] Sample.csv_ctx
    = Py.Returned (0%Z, CsvRunner.with_world Sample.csv_ctx w')
    /\ CsvRunner.trace w' = [].
Proof.
  destruct (csv_stop_runs_nothing Sample.csv_stuck_env Sample.csv_cfg 3 Sample.csv_args []
              (Sample.csv_row "T1-1") [Sample.csv_row "T1-2"] Sample.csv_ctx
              (snd (CsvRunner.observe Sample.csv_stuck_env
                      (snd (CsvRunner.observe Sample.csv_stuck_env Sample.csv_world)))))
    as (w' & Hrun & _).
  - reflexivity.
  - reflexivity.
  - exists w'. split; [exact Hrun|].
    vm_compute in Hrun. injection Hrun as Hw. by rewrite <- Hw.
Defined.

(** ** Sessions of agent_csv_runner.py *)

(** X30. A stage of agent_csv_runner.py resumes only the session kept
    for its own agent, and changes only that one: the sessions of the
    other agents and the completed tasks stay as they were, codex is
    never marked as not started again, and a claude session id that is
    known is never replaced. *)
Theorem run_stage_sessions (env : CsvRunner.Env) (cfg : CsvRunner.Config)
    (task_id : string) (a : CsvRunner.agent) (stage : string)
    (c c' : CsvRunner.Ctx) (rr : CsvRunner.RunResult) :
  CsvRunner.run_stage env cfg task_id a stage c = Py.Returned (rr, c') ->
  let S := CsvRunner.sessions c in
  let S' := CsvRunner.sessions c' in
  CsvRunner.done_ids c' = CsvRunner.done_ids c
  /\ (exists call,
        CsvRunner.trace (CsvRunner.world c')
        = CsvRunner.trace (CsvRunner.world c) ++ [CsvRunner.ETool call]
        /\ CsvRunner.c_agent call = a
        /\ forall s, CsvRunner.c_resume call = Some s ->
             match a with
             | CsvRunner.codex => s = "--last" /\ CsvRunner.codex_started S = true
             | CsvRunner.claude => CsvRunner.claude_session_id S = Some s
             | CsvRunner.gemini => s = "latest" \/ CsvRunner.gemini_session_id S = Some s
             end)
  /\ (CsvRunner.codex_started S = true -> CsvRunner.codex_started S' = true)
  /\ (a <> CsvRunner.codex -> CsvRunner.codex_started S' = CsvRunner.codex_started S)
  /\ (a <> CsvRunner.claude ->
      CsvRunner.claude_session_id S' = CsvRunner.claude_session_id S
      /\ CsvRunner.claude_sessions c' = CsvRunner.claude_sessions c)
  /\ (a <> CsvRunner.gemini ->
      CsvRunner.gemini_session_id S' = CsvRunner.gemini_session_id S
      /\ CsvRunner.gemini_sessions c' = CsvRunner.gemini_sessions c)
  /\ (CsvRunner.opt_truthy (CsvRunner.claude_session_id S) = true ->
      CsvRunner.claude_session_id S' = CsvRunner.claude_session_id S).
Proof.
  unfold CsvRunner.run_stage. destruct a.
  - unfold CsvRunner.codex_run, CsvRunner.run_tool. cbn. intros [= <- <-]. cbn.
    split_and!; try done.
    + eexists. split_and!; [done | done |]. cbn. intros s.
      destruct (CsvRunner.codex_started (CsvRunner.sessions c)); [|done].
      by intros [= <-].
    + intros H. destruct (CsvRunner.returncode _ =? 0)%Z; [done | exact H].
    + intros _. by destruct (CsvRunner.returncode _ =? 0)%Z.
    + intros _. by destruct (CsvRunner.returncode _ =? 0)%Z.
    + intros _. by destruct (CsvRunner.returncode _ =? 0)%Z.
  - unfold CsvRunner.claude_run, CsvRunner.run_tool. cbn. intros [= <- <-]. cbn.
    match goal with |- context [if ?b then _ else CsvRunner.sessions c] =>
      destruct b eqn:Hb end; cbn.
    + apply andb_true_iff in Hb as [_ Hb]. apply negb_true_iff in Hb. rewrite Hb.
      split_and!; try done. eexists. split_and!; [done | done |]. cbn. done.
    + split_and!; try done. eexists. split_and!; [done | done |]. cbn. intros s.
      by destruct (CsvRunner.opt_truthy (CsvRunner.claude_session_id (CsvRunner.sessions c))).
  - unfold CsvRunner.gemini_run, CsvRunner.run_tool.
    destruct (String.eqb (CsvRunner.gemini_outfmt cfg (CsvRunner.sessions c)) "stream-json").
    + cbn. destruct (CsvRunner.handle_lines _ _ _) as [h|]; [|discriminate].
      intros [= <- <-]. cbn. split_and!; try done.
      eexists. split_and!; [done | done |]. cbn. intros s.
      destruct (String.eqb _ "latest"); [intros [= <-]; by left|].
      destruct (String.eqb _ "per_task" && _); [by right | done].
    + cbn. intros [= <- <-]. cbn. split_and!; try done.
      eexists. split_and!; [done | done |]. cbn. intros s.
      destruct (String.eqb _ "latest"); [intros [= <-]; by left|].
      destruct (String.eqb _ "per_task" && _); [by right | done].
Qed.

Lemma run_stage_sessions_witness :
  exists rr c',
    CsvRunner.run_stage (Sample.csv_env 0 Sample.claude_error_payload) Sample.csv_cfg
      "T1-1" CsvRunner.claude "impl" Sample.csv_ctx = Py.Returned (rr, c')
    /\ CsvRunner.gemini_session_id (CsvRunner.sessions c') = None
    /\ CsvRunner.claude_session_id (CsvRunner.sessions c') = Some "s1".
Proof.
  destruct (CsvRunner.run_stage (Sample.csv_env 0 Sample.claude_error_payload) Sample.csv_cfg
              "T1-1" CsvRunner.claude "impl" Sample.csv_ctx)
    as [[rr c']| |] eqn:E;
    [| vm_compute in E; discriminate E | vm_compute in E; discriminate E].
  exists rr, c'. split; [reflexivity|].
  destruct (run_stage_sessions _ _ _ _ _ _ _ _ E) as (_ & _ & _ & _ & _ & Hg & _).
  split; [by rewrite (proj1 (Hg ltac:(discriminate)))|].
  vm_compute in E. by injection E as _ <-.
Defined.
